(** * The Shaping curriculum wrapper of neurogym

    A shallow embedding of [neurogym/wrappers/shaping.py]: the [Shaping]
    trial wrapper keeps a curriculum phase, a rolling window of trial
    outcomes and a few counters, reshapes the reward of every step and
    installs a phase-dependent timing into the environment it wraps.

    Conventions of the embedding.
    - Python numbers that may be fractional (rewards, performances, times,
      timing parameters, thresholds) are rationals [Q]; floating-point
      rounding is not modelled.  Counters and the phase are integers [Z].
    - A Python [dict] is an insertion-ordered association list.
    - The wrapper object is a record; a method is a computation in a state
      and exception monad over that record, so that the object is still
      there, as mutated so far, when a method raises.
    - The wrapped environment is the record [TrialEnv.state] of the fields
      the wrapper reads and writes; its own methods ([_step], [step],
      [new_trial], [build_timing_fns]) live outside the wrapper's file and
      are the operations of the class [WrappedEnv]. *)

From Stdlib Require Import ZArith QArith Qround Lqa Lia List String Bool.
Import ListNotations.
Open Scope Z_scope.

(** ** Python values *)

Inductive exn := KeyError | IndexError | TypeError | ZeroDivisionError.

Inductive res (A : Type) :=
| Ok (a : A)
| Raise (e : exn).
Arguments Ok {A} a.
Arguments Raise {A} e.

(** [int(x)] on a number: truncation toward zero. *)
Definition py_int (x : Q) : Z := Z.quot (Qnum x) (Z.pos (Qden x)).

(** [max(a, b)]: the first argument unless the second is strictly greater. *)
Definition py_max (a b : Q) : Q :=
  match Qcompare a b with
  | Lt => b
  | _ => a
  end.

(** [a > b] and [x == 0] on numbers. *)
Definition py_gt (a b : Q) : bool := negb (Qle_bool a b).
Definition py_falsy (x : Q) : bool := Qeq_bool x 0.

(** A NumPy float that may be [nan]: [None] is [nan]. *)
Definition npfloat := option Q.

Fixpoint Qsum (l : list Q) : Q :=
  match l with
  | [] => 0%Q
  | x :: r => (x + Qsum r)%Q
  end.

(** [np.mean(l)]: [nan] on the empty list. *)
Definition np_mean (l : list Q) : npfloat :=
  match l with
  | [] => None
  | _ => Some (Qsum l / inject_Z (Z.of_nat (List.length l)))%Q
  end.

(** [m >= g]: every comparison with [nan] is false. *)
Definition np_ge (m : npfloat) (g : Q) : bool :=
  match m with
  | None => false
  | Some x => Qle_bool g x
  end.

(** [l[i]] with Python's negative indices. *)
Definition py_index {A : Type} (l : list A) (i : Z) : res A :=
  let n := Z.of_nat (List.length l) in
  let j := if i <? 0 then i + n else i in
  if (j <? 0) || (n <=? j) then Raise IndexError
  else match nth_error l (Z.to_nat j) with
       | Some a => Ok a
       | None => Raise IndexError
       end.

(** ** Dictionaries *)

Definition dict (V : Type) := list (string * V).

Fixpoint dict_get {V : Type} (k : string) (d : dict V) : option V :=
  match d with
  | [] => None
  | (k', v) :: r => if String.eqb k k' then Some v else dict_get k r
  end.

(** [d[k] = v]: overwrite in place, or append a new key at the end. *)
Fixpoint dict_set {V : Type} (k : string) (v : V) (d : dict V) : dict V :=
  match d with
  | [] => [(k, v)]
  | (k', v') :: r =>
      if String.eqb k k' then (k', v) :: r else (k', v') :: dict_set k v r
  end.

Definition keys {V : Type} (d : dict V) : list string := map fst d.

(** [d.update(u)]. *)
Definition dict_update {V : Type} (d u : dict V) : dict V :=
  fold_left (fun acc kv => dict_set (fst kv) (snd kv) acc) u d.

(** [k in l] on a list of strings. *)
Definition py_in (k : string) (l : list string) : bool :=
  existsb (String.eqb k) l.

(** ** Timing descriptors

    A period's timing is a pair [(dist, args)]: [args] is a number for the
    ['constant'] distribution and a sequence of numbers otherwise. *)

Inductive targs :=
| Scalar (x : Q)
| Seq (l : list Q).

Definition descriptor := (string * targs)%type.
Definition timing_spec := dict descriptor.

Definition constant (d : Z) : descriptor := ("constant"%string, Scalar (inject_Z d)).

(** ** The wrapped environment *)

Module Info.
Record t := mk {
  new_trial : bool;
  performance : option Q;
  gt : option Z
  }.
Definition set_new_trial (b : bool) (i : t) : t :=
  mk b (performance i) (gt i).
Definition set_performance (p : Q) (i : t) : t :=
  mk (new_trial i) (Some p) (gt i).
End Info.

Module TrialEnv.
Record state (X : Type) := mk {
  dt : Q;
  tmax : Q;
  t : Q;
  t_ind : Z;
  num_tr : Z;
  timing : timing_spec;
  sigma_dt : Q;
  rewards : dict Q;
  performance : Q;
  r_tmax : Q;
  hidden : X
  }.
Arguments mk {X}.
Arguments dt {X}.
Arguments tmax {X}.
Arguments t {X}.
Arguments t_ind {X}.
Arguments num_tr {X}.
Arguments timing {X}.
Arguments sigma_dt {X}.
Arguments rewards {X}.
Arguments performance {X}.
Arguments r_tmax {X}.
Arguments hidden {X}.

Section Setters.
Context {X : Type}.
Definition set_t (v : Q) (e : state X) : state X :=
    mk (dt e) (tmax e) v (t_ind e) (num_tr e) (timing e) (sigma_dt e)
       (rewards e) (performance e) (r_tmax e) (hidden e).
Definition set_t_ind (v : Z) (e : state X) : state X :=
    mk (dt e) (tmax e) (t e) v (num_tr e) (timing e) (sigma_dt e)
       (rewards e) (performance e) (r_tmax e) (hidden e).
Definition set_num_tr (v : Z) (e : state X) : state X :=
    mk (dt e) (tmax e) (t e) (t_ind e) v (timing e) (sigma_dt e)
       (rewards e) (performance e) (r_tmax e) (hidden e).
Definition set_sigma_dt (v : Q) (e : state X) : state X :=
    mk (dt e) (tmax e) (t e) (t_ind e) (num_tr e) (timing e) v
       (rewards e) (performance e) (r_tmax e) (hidden e).
Definition set_performance (v : Q) (e : state X) : state X :=
    mk (dt e) (tmax e) (t e) (t_ind e) (num_tr e) (timing e) (sigma_dt e)
       (rewards e) v (r_tmax e) (hidden e).
End Setters.
End TrialEnv.

(** What a step hands back: [(obs, reward, done, info)]. *)
Definition step_out (Obs : Type) := (Obs * Q * bool * Info.t)%type.

(** The methods of the wrapped environment.  They act on the environment
    only; [_step] is the low-level step that leaves the trial clock alone,
    [step] the public one. *)
Class WrappedEnv (X Obs : Type) := {
  env__step : Z -> TrialEnv.state X -> step_out Obs * TrialEnv.state X;
  env_step : Z -> TrialEnv.state X -> step_out Obs * TrialEnv.state X;
  env_new_trial : TrialEnv.state X -> TrialEnv.state X;
  env_build_timing_fns : timing_spec -> TrialEnv.state X -> TrialEnv.state X
}.

(** ** The wrapper object

    The attributes [__init__] creates, under their names; [change_periods]
    is created by the first [new_trial] and is empty until then. *)

Record Shaping (X : Type) := mkShaping {
  env : TrialEnv.state X;
  curr_ph : Z;
  curr_perf : npfloat;
  perf_window : Z;
  goal_perf : list Q;
  mov_window : list Q;
  counter : Z;
  action : Z;
  prev_act : Z;
  max_num_reps : Z;
  first_choice : bool;
  performance : Q;
  short : bool;
  variable : bool;
  short_dur : Z;
  ori_periods : timing_spec;
  sigma_dt_ori : Q;
  change_periods : list string
}.
Arguments mkShaping {X}.
Arguments env {X}.
Arguments curr_ph {X}.
Arguments curr_perf {X}.
Arguments perf_window {X}.
Arguments goal_perf {X}.
Arguments mov_window {X}.
Arguments counter {X}.
Arguments action {X}.
Arguments prev_act {X}.
Arguments max_num_reps {X}.
Arguments first_choice {X}.
Arguments performance {X}.
Arguments short {X}.
Arguments variable {X}.
Arguments short_dur {X}.
Arguments ori_periods {X}.
Arguments sigma_dt_ori {X}.
Arguments change_periods {X}.

Section Setters.
Context {X : Type}.
Definition set_env (v : TrialEnv.state X) (s : Shaping X) : Shaping X :=
  mkShaping v (curr_ph s) (curr_perf s) (perf_window s) (goal_perf s) (mov_window s) (counter s) (action s) (prev_act s) (max_num_reps s) (first_choice s) (performance s) (short s) (variable s) (short_dur s) (ori_periods s) (sigma_dt_ori s) (change_periods s).
Definition set_curr_ph (v : Z) (s : Shaping X) : Shaping X :=
  mkShaping (env s) v (curr_perf s) (perf_window s) (goal_perf s) (mov_window s) (counter s) (action s) (prev_act s) (max_num_reps s) (first_choice s) (performance s) (short s) (variable s) (short_dur s) (ori_periods s) (sigma_dt_ori s) (change_periods s).
Definition set_curr_perf (v : npfloat) (s : Shaping X) : Shaping X :=
  mkShaping (env s) (curr_ph s) v (perf_window s) (goal_perf s) (mov_window s) (counter s) (action s) (prev_act s) (max_num_reps s) (first_choice s) (performance s) (short s) (variable s) (short_dur s) (ori_periods s) (sigma_dt_ori s) (change_periods s).
Definition set_mov_window (v : list Q) (s : Shaping X) : Shaping X :=
  mkShaping (env s) (curr_ph s) (curr_perf s) (perf_window s) (goal_perf s) v (counter s) (action s) (prev_act s) (max_num_reps s) (first_choice s) (performance s) (short s) (variable s) (short_dur s) (ori_periods s) (sigma_dt_ori s) (change_periods s).
Definition set_counter (v : Z) (s : Shaping X) : Shaping X :=
  mkShaping (env s) (curr_ph s) (curr_perf s) (perf_window s) (goal_perf s) (mov_window s) v (action s) (prev_act s) (max_num_reps s) (first_choice s) (performance s) (short s) (variable s) (short_dur s) (ori_periods s) (sigma_dt_ori s) (change_periods s).
Definition set_prev_act (v : Z) (s : Shaping X) : Shaping X :=
  mkShaping (env s) (curr_ph s) (curr_perf s) (perf_window s) (goal_perf s) (mov_window s) (counter s) (action s) v (max_num_reps s) (first_choice s) (performance s) (short s) (variable s) (short_dur s) (ori_periods s) (sigma_dt_ori s) (change_periods s).
Definition set_first_choice (v : bool) (s : Shaping X) : Shaping X :=
  mkShaping (env s) (curr_ph s) (curr_perf s) (perf_window s) (goal_perf s) (mov_window s) (counter s) (action s) (prev_act s) (max_num_reps s) v (performance s) (short s) (variable s) (short_dur s) (ori_periods s) (sigma_dt_ori s) (change_periods s).
Definition set_performance (v : Q) (s : Shaping X) : Shaping X :=
  mkShaping (env s) (curr_ph s) (curr_perf s) (perf_window s) (goal_perf s) (mov_window s) (counter s) (action s) (prev_act s) (max_num_reps s) (first_choice s) v (short s) (variable s) (short_dur s) (ori_periods s) (sigma_dt_ori s) (change_periods s).
Definition set_short (v : bool) (s : Shaping X) : Shaping X :=
  mkShaping (env s) (curr_ph s) (curr_perf s) (perf_window s) (goal_perf s) (mov_window s) (counter s) (action s) (prev_act s) (max_num_reps s) (first_choice s) (performance s) v (variable s) (short_dur s) (ori_periods s) (sigma_dt_ori s) (change_periods s).
Definition set_variable (v : bool) (s : Shaping X) : Shaping X :=
  mkShaping (env s) (curr_ph s) (curr_perf s) (perf_window s) (goal_perf s) (mov_window s) (counter s) (action s) (prev_act s) (max_num_reps s) (first_choice s) (performance s) (short s) v (short_dur s) (ori_periods s) (sigma_dt_ori s) (change_periods s).
Definition set_change_periods (v : list string) (s : Shaping X) : Shaping X :=
  mkShaping (env s) (curr_ph s) (curr_perf s) (perf_window s) (goal_perf s) (mov_window s) (counter s) (action s) (prev_act s) (max_num_reps s) (first_choice s) (performance s) (short s) (variable s) (short_dur s) (ori_periods s) (sigma_dt_ori s) v.
End Setters.

(** ** Methods as stateful computations that may raise *)

Definition M (S A : Type) := S -> res A * S.

Definition ret {S A : Type} (a : A) : M S A := fun s => (Ok a, s).
Definition raise {S A : Type} (e : exn) : M S A := fun s => (Raise e, s).
Definition bind {S A B : Type} (m : M S A) (f : A -> M S B) : M S B :=
  fun s =>
    match m s with
    | (Ok a, s') => f a s'
    | (Raise e, s') => (Raise e, s')
    end.
Definition gets {S A : Type} (f : S -> A) : M S A := fun s => (Ok (f s), s).
Definition modify {S : Type} (f : S -> S) : M S unit := fun s => (Ok tt, f s).
Definition lift {S A : Type} (r : res A) : M S A := fun s => (r, s).
Definition when {S : Type} (b : bool) (m : M S unit) : M S unit :=
  if b then m else ret tt.

Declare Scope py_scope.
Delimit Scope py_scope with py.
Notation "x <- m ;; k" := (bind m (fun x => k))
  (at level 61, m at next level, right associativity) : py_scope.
Notation "' pat <- m ;; k" :=
  (bind m (fun x => match x with pat => k end))
  (at level 61, pat pattern, m at next level, right associativity) : py_scope.
Notation "m ;; k" := (bind m (fun _ => k))
  (at level 61, right associativity) : py_scope.
Open Scope py_scope.

(** ** Timing transformations of [new_trial] *)

(** The loop of the phase 0-1 branch: every original period named in
    [change_periods] becomes [('constant', short_dur)]. *)
Fixpoint force_short (items : timing_spec) (cp : list string) (sd : Z)
    (tm : timing_spec) : timing_spec :=
  match items with
  | [] => tm
  | (key, _) :: rest =>
      if py_in key cp then force_short rest cp sd (dict_set key (constant sd) tm)
      else force_short rest cp sd tm
  end.

(** [int(n*factor/dt)*dt]. *)
Definition quantize (n factor dt : Q) : Q :=
  (inject_Z (py_int (n * factor / dt)) * dt)%Q.

(** [factor = short_dur/args[0]] and the list comprehension over [args]:
    subscripting a number, an empty sequence, a zero first parameter and a
    zero time step raise. *)
Definition scale_args (args : targs) (sd : Z) (dt : Q) : res (list Q) :=
  match args with
  | Scalar _ => Raise TypeError
  | Seq [] => Raise IndexError
  | Seq ((a0 :: _) as l) =>
      if Qeq_bool a0 0 then Raise ZeroDivisionError
      else if Qeq_bool dt 0 then Raise ZeroDivisionError
      else Ok (map (fun n => quantize n (inject_Z sd / a0) dt) l)
  end.

(** The value the loop of the phase 2-3 branch stores for an original
    period [val = (dist, args)]. *)
Definition shorten_descriptor (sd : Z) (dt : Q) (val : descriptor)
    : res descriptor :=
  let '(dist, args) := val in
  if negb (String.eqb dist "constant") then
    match scale_args args sd dt with
    | Ok l => Ok (dist, Seq l)
    | Raise e => Raise e
    end
  else Ok (constant sd).

(** The loop of the phase 2-3 branch. *)
Fixpoint shorten_variable (items : timing_spec) (cp : list string) (sd : Z)
    (dt : Q) (tm : timing_spec) : res timing_spec :=
  match items with
  | [] => Ok tm
  | (key, val) :: rest =>
      if py_in key cp then
        match shorten_descriptor sd dt val with
        | Ok d => shorten_variable rest cp sd dt (dict_set key d tm)
        | Raise e => Raise e
        end
      else shorten_variable rest cp sd dt tm
  end.

Section Methods.
Context {X Obs : Type} {E : WrappedEnv X Obs}.

Definition modify_env (f : TrialEnv.state X -> TrialEnv.state X) : M (Shaping X) unit :=
  modify (fun s => set_env (f (env s)) s).

(** [Shaping.__init__(env, init_ph, max_num_reps, short_dur, th, perf_w)]. *)
Definition __init__ (e : TrialEnv.state X) (init_ph max_num_reps : Z)
    (short_dur : Q) (th : Q) (perf_w : Z) : Shaping X :=
  {| env := e;
     curr_ph := init_ph;
     curr_perf := Some 0%Q;
     perf_window := perf_w;
     goal_perf := repeat th 5;
     mov_window := [];
     counter := 0;
     action := 0;
     prev_act := 0;
     max_num_reps := max_num_reps;
     first_choice := true;
     performance := 0%Q;
     short := false;
     variable := true;
     short_dur := py_int (short_dur * TrialEnv.dt e);
     ori_periods := TrialEnv.timing e;
     sigma_dt_ori := TrialEnv.sigma_dt e;
     change_periods := [] |}.

(** [Shaping.count(action)]. *)
Definition count (a : Z) : M (Shaping X) unit :=
  when (negb (a =? 0)) (
    pa <- gets prev_act ;;
    if a =? pa then
      modify (fun s => set_counter (counter s + 1) s)
    else
      modify (set_counter 1) ;;
      modify (set_prev_act a)).

(** [Shaping.set_phase()]. *)
Definition set_phase : M (Shaping X) unit :=
  ph <- gets curr_ph ;;
  when (ph <? 5) (
    w <- gets mov_window ;;
    pw <- gets perf_window ;;
    p <- gets performance ;;
    if pw <=? Z.of_nat (List.length w) then
      modify (set_mov_window (w ++ [p])) ;;
      modify (fun s => set_mov_window (tl (mov_window s)) s) ;;
      modify (fun s => set_curr_perf (np_mean (mov_window s)) s) ;;
      cp <- gets curr_perf ;;
      gp <- gets goal_perf ;;
      g <- lift (py_index gp ph) ;;
      when (np_ge cp g) (
        modify (set_curr_ph (ph + 1)) ;;
        modify (set_mov_window []))
    else
      modify (set_mov_window (w ++ [p]))).

(** The three timing branches of [new_trial]. *)
Definition install_forced_short : M (Shaping X) unit :=
  modify_env (TrialEnv.set_sigma_dt 0%Q) ;;
  timing <- gets (fun s => TrialEnv.timing (env s)) ;;
  sh <- gets short ;;
  timing' <- (if negb sh then
                modify (set_short true) ;;
                modify (set_variable false) ;;
                s <- gets (fun s => s) ;;
                ret (force_short (ori_periods s) (change_periods s)
                       (short_dur s) timing)
              else ret timing) ;;
  modify_env (env_build_timing_fns timing').

(** The jitter at the end of the phase 2-3 branch: none at phase 2, the
    original one at phase 3. *)
Definition choose_jitter : M (Shaping X) unit :=
  ph <- gets curr_ph ;;
  if ph =? 2 then modify_env (TrialEnv.set_sigma_dt 0%Q)
  else when (ph =? 3) (
    so <- gets sigma_dt_ori ;;
    modify_env (TrialEnv.set_sigma_dt so)).

Definition install_short_variable : M (Shaping X) unit :=
  timing <- gets (fun s => TrialEnv.timing (env s)) ;;
  sh <- gets short ;;
  va <- gets variable ;;
  timing' <- (if negb sh || negb va then
                modify (set_short true) ;;
                modify (set_variable true) ;;
                s <- gets (fun s => s) ;;
                lift (shorten_variable (ori_periods s) (change_periods s)
                        (short_dur s) (TrialEnv.dt (env s)) timing)
              else ret timing) ;;
  modify_env (env_build_timing_fns timing') ;;
  choose_jitter.

Definition install_original : M (Shaping X) unit :=
  so <- gets sigma_dt_ori ;;
  modify_env (TrialEnv.set_sigma_dt so) ;;
  timing <- gets ori_periods ;;
  modify_env (env_build_timing_fns timing).

(** [new_trial] up to, and without, the final [self.env.new_trial()]. *)
Definition new_trial_setup : M (Shaping X) unit :=
  set_phase ;;
  modify (set_first_choice true) ;;
  modify (set_performance 0%Q) ;;
  modify (fun s => set_change_periods (removelast (keys (ori_periods s))) s) ;;
  modify_env (TrialEnv.set_performance 0%Q) ;;
  modify_env (TrialEnv.set_t 0%Q) ;;
  modify_env (TrialEnv.set_t_ind 0) ;;
  modify_env (fun e => TrialEnv.set_num_tr (TrialEnv.num_tr e + 1) e) ;;
  ph <- gets curr_ph ;;
  if ph <? 2 then install_forced_short
  else if (2 <=? ph) && (ph <? 4) then install_short_variable
  else install_original.

(** [Shaping.new_trial()]. *)
Definition new_trial : M (Shaping X) unit :=
  new_trial_setup ;;
  modify_env env_new_trial.

(** The two stepping paths of [step]. *)
Definition step_manual (a : Z) : M (Shaping X) (step_out Obs) :=
  e <- gets env ;;
  let '((obs, reward, done, info), e') := env__step a e in
  modify (set_env e') ;;
  let reward := py_max reward 0 in
  modify_env (fun e => TrialEnv.set_t (TrialEnv.t e + TrialEnv.dt e)%Q e) ;;
  modify_env (fun e => TrialEnv.set_t_ind (TrialEnv.t_ind e + 1) e) ;;
  ph <- gets curr_ph ;;
  '(reward, info) <-
    (if Info.new_trial info then
       if ph =? 0 then
         count a ;;
         c <- gets counter ;;
         mx <- gets max_num_reps ;;
         if mx <? c then
           modify (set_performance 0%Q) ;;
           ret (0%Q, info)
         else
           rw <- gets (fun s => TrialEnv.rewards (env s)) ;;
           match dict_get "correct" rw with
           | None => raise KeyError
           | Some r =>
               modify (set_performance 1%Q) ;;
               ret (r, info)
           end
       else if ph =? 1 then
         ep <- gets (fun s => TrialEnv.performance (env s)) ;;
         let '(reward, info) :=
           if py_falsy ep then (0%Q, Info.set_new_trial false info)
           else (reward, info) in
         fc <- gets first_choice ;;
         when fc (
           modify (set_performance ep) ;;
           modify (set_first_choice false)) ;;
         ret (reward, info)
       else ret (reward, info)
     else ret (reward, info)) ;;
  e <- gets env ;;
  p <- gets performance ;;
  let '(reward, info) :=
    if py_gt (TrialEnv.t e) (TrialEnv.tmax e - TrialEnv.dt e)%Q
       && negb (Info.new_trial info)
    then ((reward + TrialEnv.r_tmax e)%Q,
          Info.set_performance p (Info.set_new_trial true info))
    else (reward, info) in
  if Info.new_trial info then
    let info := Info.set_performance p info in
    new_trial ;;
    ret (obs, reward, done, info)
  else ret (obs, reward, done, info).

Definition step_delegated (a : Z) : M (Shaping X) (step_out Obs) :=
  e <- gets env ;;
  let '((obs, reward, done, info), e') := env_step a e in
  modify (set_env e') ;;
  ph <- gets curr_ph ;;
  let reward := if (2 <=? ph) && (ph <? 5) then py_max reward 0 else reward in
  if Info.new_trial info then
    match Info.performance info with
    | None => raise KeyError
    | Some p =>
        modify (set_performance p) ;;
        new_trial ;;
        ret (obs, reward, done, info)
    end
  else ret (obs, reward, done, info).

(** [Shaping.step(action)]. *)
Definition step (a : Z) : M (Shaping X) (step_out Obs) :=
  ph <- gets curr_ph ;;
  if ph <? 2 then step_manual a else step_delegated a.

End Methods.

(** ** Driving a controller *)

Inductive call :=
| Step (a : Z)
| NewTrial.

Section Driver.
Context {X Obs : Type} {E : WrappedEnv X Obs}.

(** The object after one call, whether the call returned or raised. *)
Definition exec (c : call) (s : Shaping X) : Shaping X :=
  match c with
  | Step a => snd (step a s)
  | NewTrial => snd (new_trial s)
  end.

Definition run (cs : list call) (s : Shaping X) : Shaping X :=
  fold_left (fun s c => exec c s) cs s.

End Driver.

(** ** A scripted environment

    Its hidden state is the list of the outcomes its next steps report:
    reward, trial-boundary flag and the trial performance it has reached.
    [build_timing_fns] stores the periods it is given into [timing];
    [new_trial] changes nothing the wrapper looks at. *)

Definition script := list (Q * bool * Q).

Definition scripted_step (with_perf : bool) (a : Z)
    (e : TrialEnv.state script) : step_out unit * TrialEnv.state script :=
  match TrialEnv.hidden e with
  | [] => ((tt, 0%Q, false, Info.mk false None None), e)
  | (r, nt, p) :: rest =>
      ((tt, r, false,
        Info.mk nt (if with_perf && nt then Some p else None) None),
       TrialEnv.mk (TrialEnv.dt e) (TrialEnv.tmax e) (TrialEnv.t e)
         (TrialEnv.t_ind e) (TrialEnv.num_tr e) (TrialEnv.timing e)
         (TrialEnv.sigma_dt e) (TrialEnv.rewards e) p (TrialEnv.r_tmax e)
         rest)
  end.

Definition scripted_build_timing_fns (tm : timing_spec)
    (e : TrialEnv.state script) : TrialEnv.state script :=
  TrialEnv.mk (TrialEnv.dt e) (TrialEnv.tmax e) (TrialEnv.t e)
    (TrialEnv.t_ind e) (TrialEnv.num_tr e)
    (dict_update (TrialEnv.timing e) tm)
    (TrialEnv.sigma_dt e) (TrialEnv.rewards e) (TrialEnv.performance e)
    (TrialEnv.r_tmax e) (TrialEnv.hidden e).

#[export] Instance scripted : WrappedEnv script unit := {|
  env__step := scripted_step false;
  env_step := scripted_step true;
  env_new_trial := fun e => e;
  env_build_timing_fns := scripted_build_timing_fns
|}.

(** A perceptual decision task: [dt = 100], trials of at most 3 s. *)
Definition task_timing : timing_spec :=
  [("fixation", ("constant", Scalar 500));
   ("stimulus", ("truncated_exponential", Seq [300; 100; 590]));
   ("delay", ("choice", Seq [400; 800]));
   ("decision", ("constant", Scalar 100))]%string%Q.

Definition task_rewards : dict Q :=
  [("abort", -(1#10)); ("correct", 1); ("fail", 0)]%string%Q.

Definition task (rewards : dict Q) (sc : script) : TrialEnv.state script :=
  {| TrialEnv.dt := 100; TrialEnv.tmax := 3000; TrialEnv.t := 0;
     TrialEnv.t_ind := 0; TrialEnv.num_tr := 0;
     TrialEnv.timing := task_timing; TrialEnv.sigma_dt := 1 # 2;
     TrialEnv.rewards := rewards; TrialEnv.performance := 0;
     TrialEnv.r_tmax := 0; TrialEnv.hidden := sc |}.

(** Scenarios: a controller wrapped around the scripted task. *)

(** Phase 4 from the start, window of 2, threshold 0.1 (the module's own
    demonstration), three correct trials. *)
Definition full_task_run : Shaping script :=
  __init__ (task task_rewards [(1, true, 1); (1, true, 1); (1, true, 1)]%Q)
    4 3 2 (1 # 10) 2.

(** Phase 2 from the start, window of 2, threshold 0.8; trials end correct,
    wrong (punished), correct. *)
Definition variable_run : Shaping script :=
  __init__ (task task_rewards [(1, true, 1); (-1, true, 0); (1, true, 1)]%Q)
    2 3 2 (4 # 5) 2.

(** The agent breaks fixation on the first step of a trial: the task
    answers with the ['abort'] reward and goes on with the trial. *)
Definition aborted_fixation (init_ph : Z) : Shaping script :=
  __init__ (task task_rewards [(-(1 # 10), false, 0)]%Q) init_ph 3 2 (4 # 5) 1000.

(** Phase 0, [max_num_reps = 3]: every step of the script ends a trial. *)
Definition alternation_run : Shaping script :=
  __init__ (task task_rewards (repeat (0, true, 0)%Q 6)) 0 3 2 (4 # 5) 1000.

(** Phase 1: a wrong choice on the first step of a trial. *)
Definition early_failure : Shaping script :=
  __init__ (task task_rewards [(0, true, 0)]%Q) 1 3 2 (4 # 5) 1000.

(** Phase 1: the agent fixates for 29 steps and makes a wrong choice on the
    30th, the last one the 3 s of the trial allow. *)
Definition late_failure : Shaping script :=
  __init__ (task task_rewards (repeat (0, false, 0)%Q 29 ++ [(0, true, 0)]%Q))
    1 3 2 (4 # 5) 1000.


(** ** Relations and invariants used by the proofs *)

(** [m] relates the state it starts from to the one it leaves, whether it
    returns or raises. *)
Definition preserves {S A : Type} (R : S -> S -> Prop) (m : M S A) : Prop :=
  forall s, R s (snd (m s)).

(** The phase moves up, and not beyond 5 unless it started there. *)
Definition phase_le {X : Type} (s s' : Shaping X) : Prop :=
  curr_ph s <= curr_ph s' <= Z.max 5 (curr_ph s).

(** The thresholds are the five of [__init__] and the phase is not
    negative, so [goal_perf[curr_ph]] never raises below phase 5. *)
Definition well_formed {X : Type} (s : Shaping X) : Prop :=
  List.length (goal_perf s) = 5%nat /\ 0 <= curr_ph s.

(** What [__init__] configures stays as configured. *)
Definition same_config {X : Type} (s s' : Shaping X) : Prop :=
  perf_window s' = perf_window s /\
  goal_perf s' = goal_perf s /\
  max_num_reps s' = max_num_reps s /\
  short_dur s' = short_dur s /\
  ori_periods s' = ori_periods s /\
  sigma_dt_ori s' = sigma_dt_ori s.

(** The rolling window respects a non-negative window size. *)
Definition window_ok {X : Type} (s : Shaping X) : Prop :=
  0 <= perf_window s ->
  Z.of_nat (List.length (mov_window s)) <= perf_window s.

(** How a controller evolves under its methods. *)
Definition evolves {X : Type} (s s' : Shaping X) : Prop :=
  same_config s s' /\ phase_le s s' /\ (window_ok s -> window_ok s').



(** ** The contract of the wrapped environment

    What the proofs about the installed timing assume of the methods of the
    wrapped environment: [build_timing_fns], called with the periods as
    keyword arguments, stores them into the environment's [timing] and leaves the trial clock,
    the trial count, the performance and the jitter alone; stepping and
    [new_trial] leave [timing], [dt] and, for [new_trial], the jitter
    alone. *)

Definition keeps_timing {X : Type} (e e' : TrialEnv.state X) : Prop :=
  TrialEnv.timing e' = TrialEnv.timing e /\ TrialEnv.dt e' = TrialEnv.dt e.

Definition keeps_trial_state {X : Type} (e e' : TrialEnv.state X) : Prop :=
  TrialEnv.dt e' = TrialEnv.dt e /\
  TrialEnv.sigma_dt e' = TrialEnv.sigma_dt e /\
  TrialEnv.t e' = TrialEnv.t e /\
  TrialEnv.t_ind e' = TrialEnv.t_ind e /\
  TrialEnv.num_tr e' = TrialEnv.num_tr e /\
  TrialEnv.performance e' = TrialEnv.performance e.

Class TimingContract {X Obs : Type} (E : WrappedEnv X Obs) : Prop := {
  build_timing_fns_timing : forall tm e,
    TrialEnv.timing (env_build_timing_fns tm e)
    = dict_update (TrialEnv.timing e) tm;
  build_timing_fns_frame : forall tm e,
    keeps_trial_state e (env_build_timing_fns tm e);
  new_trial_frame : forall e,
    keeps_timing e (env_new_trial e) /\
    TrialEnv.sigma_dt (env_new_trial e) = TrialEnv.sigma_dt e;
  _step_frame : forall a e, keeps_timing e (snd (env__step a e));
  step_frame : forall a e, keeps_timing e (snd (env_step a e))
}.

(** ** The installed timing *)

(** [list(ori_periods.keys())[:-1]]: every period but the last. *)
Definition changed_periods (ori : timing_spec) : list string :=
  removelast (keys ori).

Definition forced_short_installed {X : Type} (s : Shaping X) : Prop :=
  forall k, In k (changed_periods (ori_periods s)) ->
  dict_get k (TrialEnv.timing (env s)) = Some (constant (short_dur s)).

(** Rescaling the original periods raises nothing. *)
Definition scalable {X : Type} (s : Shaping X) : Prop :=
  forall k d, In k (changed_periods (ori_periods s)) ->
  dict_get k (ori_periods s) = Some d ->
  exists d', shorten_descriptor (short_dur s) (TrialEnv.dt (env s)) d = Ok d'.

Definition short_variable_installed {X : Type} (s : Shaping X) : Prop :=
  forall k d, In k (changed_periods (ori_periods s)) ->
  dict_get k (ori_periods s) = Some d ->
  exists d', shorten_descriptor (short_dur s) (TrialEnv.dt (env s)) d = Ok d' /\
             dict_get k (TrialEnv.timing (env s)) = Some d'.

(** The invariant that ties the regime flags [short] and [variable] to the
    timing installed in the environment.  Between two calls it holds with
    bound 2; inside [new_trial], once [set_phase] has run and before the
    timing is installed, with bound 3. *)
Definition timing_inv {X : Type} (bound : Z) (s : Shaping X) : Prop :=
  well_formed s /\
  NoDup (keys (ori_periods s)) /\
  keys (TrialEnv.timing (env s)) = keys (ori_periods s) /\
  (short s = true -> variable s = false ->
   curr_ph s < bound /\ forced_short_installed s) /\
  (short s = true -> variable s = true ->
   2 <= curr_ph s /\
   (curr_ph s < 4 -> scalable s -> short_variable_installed s)).


(** Two states with the same regime flags, configuration and installed
    timing. *)
Definition same_installed {X : Type} (s s' : Shaping X) : Prop :=
  goal_perf s' = goal_perf s /\
  short s' = short s /\
  variable s' = variable s /\
  short_dur s' = short_dur s /\
  ori_periods s' = ori_periods s /\
  TrialEnv.timing (env s') = TrialEnv.timing (env s) /\
  TrialEnv.dt (env s') = TrialEnv.dt (env s).

(** The resets [new_trial] makes between [set_phase] and the timing
    branches. *)
Definition reset_trial {X : Type} (s : Shaping X) : Shaping X :=
  let s1 := set_change_periods (removelast (keys (ori_periods s)))
              (set_performance 0%Q (set_first_choice true s)) in
  let e1 := TrialEnv.set_t_ind 0
              (TrialEnv.set_t 0%Q (TrialEnv.set_performance 0%Q (env s1))) in
  set_env (TrialEnv.set_num_tr (TrialEnv.num_tr e1 + 1) e1) s1.

(** The timing branch [new_trial] takes at the current phase. *)
Definition install_timing {X Obs : Type} {E : WrappedEnv X Obs}
    : M (Shaping X) unit :=
  fun s =>
    if curr_ph s <? 2 then install_forced_short s
    else if (2 <=? curr_ph s) && (curr_ph s <? 4) then install_short_variable s
    else install_original s.

(** What the timing branches leave alone: the phase, the configuration
    and the trial state of the environment. *)
Definition same_trial {X : Type} (s s' : Shaping X) : Prop :=
  curr_ph s' = curr_ph s /\
  goal_perf s' = goal_perf s /\
  short_dur s' = short_dur s /\
  ori_periods s' = ori_periods s /\
  TrialEnv.dt (env s') = TrialEnv.dt (env s) /\
  TrialEnv.t (env s') = TrialEnv.t (env s) /\
  TrialEnv.t_ind (env s') = TrialEnv.t_ind (env s) /\
  TrialEnv.num_tr (env s') = TrialEnv.num_tr (env s) /\
  TrialEnv.performance (env s') = TrialEnv.performance (env s).

(** Between calls: the invariant is kept, and with it the original
    periods, the short duration and the time step. *)
Definition keeps_inv {X : Type} (s s' : Shaping X) : Prop :=
  timing_inv 2 s ->
  timing_inv 2 s' /\
  ori_periods s' = ori_periods s /\
  short_dur s' = short_dur s /\
  TrialEnv.dt (env s') = TrialEnv.dt (env s).


(** ** Further relations between states *)

(** The curriculum has not moved: same phase, same window, same mean. *)
Definition same_progress {X : Type} (s s' : Shaping X) : Prop :=
  curr_ph s' = curr_ph s /\
  mov_window s' = mov_window s /\
  curr_perf s' = curr_perf s.

(** The phase is where it was, or one further with an empty window. *)
Definition advances {X : Type} (s s' : Shaping X) : Prop :=
  curr_ph s' = curr_ph s \/
  (curr_ph s' = curr_ph s + 1 /\ mov_window s' = []).

(** With a window size of zero or less, an empty window stays empty and
    the phase stays where it is. *)
Definition frozen {X : Type} (s s' : Shaping X) : Prop :=
  perf_window s' = perf_window s /\
  (perf_window s <= 0 -> mov_window s = [] ->
   curr_ph s' = curr_ph s /\ mov_window s' = []).

(** The trial clock after one manual step: [t += dt], [t_ind += 1]. *)
Definition tick {X : Type} (e : TrialEnv.state X) : TrialEnv.state X :=
  TrialEnv.set_t_ind (TrialEnv.t_ind e + 1)
    (TrialEnv.set_t (TrialEnv.t e + TrialEnv.dt e)%Q e).

(** [count] called on the actions of a list, in order. *)
Definition count_all {X : Type} (l : list Z) (s : Shaping X) : Shaping X :=
  fold_left (fun s a => snd (count a s)) l s.

(** The length of the run of equal actions that ends a list. *)
Fixpoint run_length (x : Z) (l : list Z) : Z :=
  match l with
  | [] => 0
  | y :: r => if y =? x then 1 + run_length x r else 0
  end.

Definition trailing_run (l : list Z) : Z :=
  match rev l with
  | [] => 0
  | x :: r => 1 + run_length x r
  end.

Definition non_neutral (l : list Z) : list Z :=
  filter (fun a => negb (a =? 0)) l.

(** What a quiet step leaves alone: the curriculum, the regime flags and
    the streak. *)
Definition quiet {X : Type} (s s' : Shaping X) : Prop :=
  same_progress s s' /\
  short s' = short s /\
  variable s' = variable s /\
  counter s' = counter s /\
  prev_act s' = prev_act s.

(** The per-trial bookkeeping of the wrapper. *)
Definition same_outcome {X : Type} (s s' : Shaping X) : Prop :=
  performance s' = performance s /\ first_choice s' = first_choice s.

(** A task whose fixation lasts between 0 and 400 ms: the first parameter
    of a period to rescale is zero. *)
Definition unscalable_timing : timing_spec :=
  [("fixation", ("uniform", Seq [0; 400]));
   ("decision", ("constant", Scalar 100))]%string%Q.

Definition unscalable_task : TrialEnv.state script :=
  {| TrialEnv.dt := 100; TrialEnv.tmax := 500; TrialEnv.t := 0;
     TrialEnv.t_ind := 0; TrialEnv.num_tr := 0;
     TrialEnv.timing := unscalable_timing; TrialEnv.sigma_dt := 1 # 2;
     TrialEnv.rewards := task_rewards; TrialEnv.performance := 0;
     TrialEnv.r_tmax := 0; TrialEnv.hidden := [] |}.

Definition unscalable_run : Shaping script :=
  __init__ unscalable_task 2 3 2 (4 # 5) 1000.

(** The entries of the installed timing that [new_trial] does not shorten
    (the last period, and any key outside the original periods) are the
    original ones. *)
Definition untouched_kept {X : Type} (s : Shaping X) : Prop :=
  forall k, ~ In k (changed_periods (ori_periods s)) ->
  dict_get k (TrialEnv.timing (env s)) = dict_get k (ori_periods s).

Definition keeps_untouched {X : Type} (s s' : Shaping X) : Prop :=
  timing_inv 2 s /\ untouched_kept s ->
  (timing_inv 2 s' /\ untouched_kept s') /\ ori_periods s' = ori_periods s.

(** A wrapped environment whose [step] reports boundaries without a
    performance in [info]. *)
Definition silent : WrappedEnv script unit := {|
  env__step := scripted_step false;
  env_step := scripted_step false;
  env_new_trial := fun e => e;
  env_build_timing_fns := scripted_build_timing_fns
|}.

(** Scenarios. *)

(** Phase 0, the trial clock at 2.9 s of the 3 s a trial may last. *)
Definition late_in_trial : Shaping script :=
  set_env (TrialEnv.set_t 2900 (env (aborted_fixation 0))) (aborted_fixation 0).

(** Phase 1: a correct choice on the first step of a trial. *)
Definition early_success : Shaping script :=
  __init__ (task task_rewards [(1, true, 1)]%Q) 1 3 2 (4 # 5) 1000.

(** Phase 5 from the start: a wrong, punished choice. *)
Definition final_phase_run : Shaping script :=
  __init__ (task task_rewards [(-1, true, 0)]%Q) 5 3 2 (4 # 5) 2.

(** * Collecting saved behaviour files (neurogym/utils/plotting.py)

    [order_by_sufix] and [put_together_files].  A string is a sequence of
    characters with code below 256, compared by code as Python compares;
    [ValueError] joins the built-in exceptions above.  [glob.glob],
    [np.load], [np.concatenate] and [np.savez] live outside the file: the
    list of matching files is an argument of [put_together_files], the
    loader and the concatenation are operations of the section
    [PutTogether], and the archive that [np.savez] writes is part of the
    result. *)

From Stdlib Require Import Ascii Sorted Permutation.

Inductive exception := ValueError | Builtin (e : exn).

(** [x.rfind(c)] for a single character [c]: the highest index at which
    [c] occurs in [x], or -1. *)
Fixpoint rfind_from (c : ascii) (x : string) (i found : Z) : Z :=
  match x with
  | EmptyString => found
  | String a r => rfind_from c r (i + 1) (if Ascii.eqb a c then i else found)
  end.

Definition rfind (c : ascii) (x : string) : Z := rfind_from c x 0 (-1).

(** A slice bound: a negative bound counts from the end, and the result
    is clipped to the string. *)
Definition slice_bound (len i : Z) : Z :=
  let j := if i <? 0 then i + len else i in
  Z.max 0 (Z.min len j).

(** [x[a:b]]. *)
Definition py_slice (x : string) (a b : Z) : string :=
  let len := Z.of_nat (String.length x) in
  let lo := slice_bound len a in
  let hi := slice_bound len b in
  substring (Z.to_nat lo) (Z.to_nat (hi - lo)) x.

(** The characters [int] takes for white space, among those with code
    below 256. *)
Definition is_space (c : ascii) : bool :=
  let n := Z.of_nat (nat_of_ascii c) in
  ((9 <=? n) && (n <=? 13)) || (n =? 32) || (n =? 133) || (n =? 160).

Definition digit_of (c : ascii) : option Z :=
  let n := Z.of_nat (nat_of_ascii c) in
  if (48 <=? n) && (n <=? 57) then Some (n - 48) else None.

Fixpoint lstrip (l : list ascii) : list ascii :=
  match l with
  | c :: r => if is_space c then lstrip r else l
  | [] => []
  end.

Definition strip (l : list ascii) : list ascii :=
  rev (lstrip (rev (lstrip l))).

(** Decimal digits, with single underscores allowed between two digits.
    [after_digit] tells whether the previous character was a digit. *)
Fixpoint digits (l : list ascii) (acc : Z) (after_digit : bool) : option Z :=
  match l with
  | [] => if after_digit then Some acc else None
  | c :: r =>
      match digit_of c with
      | Some d => digits r (10 * acc + d) true
      | None =>
          if Ascii.eqb c "_" && after_digit then digits r acc false else None
      end
  end.

(** [int(s)] on a string, base 10: [None] is [ValueError].  The limit on
    the number of digits of recent interpreters is not modelled. *)
Definition py_int_str (s : string) : option Z :=
  match strip (list_ascii_of_string s) with
  | "+"%char :: r => digits r 0 false
  | "-"%char :: r => option_map Z.opp (digits r 0 false)
  | l => digits l 0 false
  end.

(** [int(x[x.rfind('_')+1:x.rfind('.')])]. *)
Definition sufix (x : string) : option Z :=
  py_int_str (py_slice x (rfind "_" x + 1) (rfind "." x)).

(** The list comprehension over [file_list]: the first name whose suffix
    is no integer raises. *)
Fixpoint sufixes (file_list : list string) : exception + list Z :=
  match file_list with
  | [] => inr []
  | x :: r =>
      match sufix x with
      | None => inl ValueError
      | Some n =>
          match sufixes r with
          | inl e => inl e
          | inr ns => inr (n :: ns)
          end
      end
  end.

(** [p < q] on pairs of an integer and a string. *)
Definition pair_lt (p q : Z * string) : bool :=
  if fst p =? fst q then String.ltb (snd p) (snd q) else fst p <? fst q.

(** [sorted]: a stable sort by [<], here by insertion. *)
Fixpoint insert_sorted (p : Z * string) (l : list (Z * string))
    : list (Z * string) :=
  match l with
  | [] => [p]
  | q :: r => if pair_lt q p then q :: insert_sorted p r else p :: q :: r
  end.

Definition sorted (l : list (Z * string)) : list (Z * string) :=
  fold_right insert_sorted [] l.

(** [p <= q] on pairs: [q < p] does not hold. *)
Definition pair_le (p q : Z * string) : Prop := pair_lt q p = false.

(** [order_by_sufix(file_list)]. *)
Definition order_by_sufix (file_list : list string) : exception + list string :=
  match sufixes file_list with
  | inl e => inl e
  | inr sfx => inr (map snd (sorted (combine sfx file_list)))
  end.

(** A name with the integer it is sorted by. *)
Definition tagged (x : string) : Z * string :=
  (match sufix x with Some n => n | None => 0 end, x).

(** The order [order_by_sufix] sorts by: the suffix first, the whole name
    next. *)
Definition name_le (x y : string) : Prop :=
  match sufix x, sufix y with
  | Some m, Some n => m < n \/ (m = n /\ String.leb x y = true)
  | _, _ => False
  end.

Section PutTogether.
Variable Arr : Type.
(** [np.load(file)]: the arrays of an archive under their names. *)
Variable np_load : string -> dict Arr.
(** [np.concatenate((a, b))], which raises on arrays that do not fit. *)
Variable np_concatenate : Arr -> Arr -> exception + Arr.

(** The first loop: [data[key] = file_data[key]] for every key. *)
Definition first_file (file_data : dict Arr) : dict Arr :=
  fold_left (fun data kv => dict_set (fst kv) (snd kv) data) file_data [].

(** The inner loop for a later file:
    [data[key] = np.concatenate((data[key], file_data[key]))]. *)
Fixpoint append_file (file_data data : dict Arr) : exception + dict Arr :=
  match file_data with
  | [] => inr data
  | (key, v) :: r =>
      match dict_get key data with
      | None => inl (Builtin KeyError)
      | Some old =>
          match np_concatenate old v with
          | inl e => inl e
          | inr c => append_file r (dict_set key c data)
          end
      end
  end.

(** The outer loop over [files[1:]]. *)
Fixpoint append_files (files : list string) (data : dict Arr)
    : exception + dict Arr :=
  match files with
  | [] => inr data
  | f :: r =>
      match append_file (np_load f) data with
      | inl e => inl e
      | inr data' => append_files r data'
      end
  end.

(** What [put_together_files] hands back: the dictionary it returns and
    the archive it has written, if any, under its path. *)
Record together := {
  data : dict Arr;
  saved : option (string * dict Arr)
}.

(** [put_together_files(folder)], [files] being what [glob.glob] found.
    [np.savez(path, **data)] takes its path as the parameter [file], so
    that an array of that name is a [TypeError]. *)
Definition put_together_files (folder : string) (files : list string)
    : exception + together :=
  match files with
  | [] => inr {| data := []; saved := None |}
  | _ :: _ =>
      match order_by_sufix files with
      | inl e => inl e
      | inr [] => inl (Builtin IndexError)
      | inr (f0 :: rest) =>
          match append_files rest (first_file (np_load f0)) with
          | inl e => inl e
          | inr d =>
              if py_in "file" (keys d) then inl (Builtin TypeError)
              else inr {| data := d;
                          saved := Some (folder ++ "/bhvr_data_all.npz", d)%string |}
          end
      end
  end.

(** The arrays stored under [k] in the files of a list, in order. *)
Definition arrays_of (k : string) (files : list string) : list Arr :=
  flat_map (fun f => match dict_get k (np_load f) with
                     | Some a => [a]
                     | None => []
                     end) files.

(** Concatenating a list of arrays onto one, from left to right. *)
Fixpoint concatenate_all (a : Arr) (l : list Arr) : exception + Arr :=
  match l with
  | [] => inr a
  | b :: r =>
      match np_concatenate a b with
      | inl e => inl e
      | inr c => concatenate_all c r
      end
  end.

End PutTogether.
Arguments data {Arr} t.
Arguments saved {Arr} t.
Arguments first_file {Arr} file_data.
Arguments append_file {Arr} np_concatenate file_data data.
Arguments append_files {Arr} np_load np_concatenate files data.
Arguments put_together_files {Arr} np_load np_concatenate folder files.
Arguments arrays_of {Arr} np_load k files.
Arguments concatenate_all {Arr} np_concatenate a l.

(** Two saved files: the later one lacks the ground truth. *)
Definition two_files (f : string) : dict (list Z) :=
  if String.eqb f "run_bhvr_data_2.npz"
  then [("reward", [1; 0])]%string
  else [("reward", [0; 1; 1]); ("gt", [1; 2; 1])]%string.

(** Two saved files: the later one holds a choice the first lacks. *)
Definition new_key_files (f : string) : dict (list Z) :=
  if String.eqb f "run_bhvr_data_2.npz"
  then [("reward", [1; 0]); ("choice", [2; 2])]%string
  else [("reward", [0; 1; 1])]%string.

(** One-dimensional arrays as lists: concatenation appends. *)
Definition append_arrays (a b : list Z) : exception + list Z := inr (a ++ b).

(** * Properties *)

(** ** Reasoning about methods: relations every call preserves *)

Section Preserves.
Context {S : Type} (R : S -> S -> Prop).
Hypothesis R_refl : forall s, R s s.
Hypothesis R_trans : forall s1 s2 s3, R s1 s2 -> R s2 s3 -> R s1 s3.

Lemma preserves_ret {A : Type} (a : A) : preserves R (ret a).
Proof. intro s. apply R_refl. Qed.

Lemma preserves_raise {A : Type} (e : exn) : preserves R (@raise S A e).
Proof. intro s. apply R_refl. Qed.

Lemma preserves_gets {A : Type} (f : S -> A) : preserves R (gets f).
Proof. intro s. apply R_refl. Qed.

Lemma preserves_lift {A : Type} (r : res A) : preserves R (@lift S A r).
Proof. intro s. apply R_refl. Qed.

Lemma preserves_modify (f : S -> S) :
  (forall s, R s (f s)) -> preserves R (modify f).
Proof. intros H s. apply H. Qed.

Lemma preserves_bind {A B : Type} (m : M S A) (f : A -> M S B) :
  preserves R m -> (forall a, preserves R (f a)) -> preserves R (bind m f).
Proof.
  intros Hm Hf s. unfold bind.
  specialize (Hm s). destruct (m s) as [[a | e] s1]; simpl in *.
  - eapply R_trans; [exact Hm | apply Hf].
  - exact Hm.
Qed.

Lemma preserves_when (b : bool) (m : M S unit) :
  preserves R m -> preserves R (when b m).
Proof. intros Hm. destruct b; simpl; [exact Hm | apply preserves_ret]. Qed.

End Preserves.

(** ** Running a method one primitive at a time *)

Section Unfold.
Context {S A B : Type}.

Lemma bind_gets (f : S -> A) (k : A -> M S B) (s : S) :
  bind (gets f) k s = k (f s) s.
Proof. reflexivity. Qed.

Lemma bind_modify (f : S -> S) (k : unit -> M S B) (s : S) :
  bind (modify f) k s = k tt (f s).
Proof. reflexivity. Qed.

Lemma bind_ret (a : A) (k : A -> M S B) (s : S) :
  bind (ret a) k s = k a s.
Proof. reflexivity. Qed.

Lemma bind_raise (e : exn) (k : A -> M S B) (s : S) :
  bind (raise e) k s = (Raise e, s).
Proof. reflexivity. Qed.

Lemma bind_bind {C : Type} (m : M S A) (f : A -> M S B) (g : B -> M S C) (s : S) :
  bind (bind m f) g s = bind m (fun a => bind (f a) g) s.
Proof. unfold bind. destruct (m s) as [[a | e] s']; reflexivity. Qed.

Lemma bind_returns (m : M S A) (k : A -> M S B) (s s' : S) (a : A) :
  m s = (Ok a, s') -> bind m k s = k a s'.
Proof. intros H. unfold bind. rewrite H. reflexivity. Qed.

Lemma bind_raises (m : M S A) (k : A -> M S B) (s s' : S) (e : exn) :
  m s = (Raise e, s') -> bind m k s = (Raise e, s').
Proof. intros H. unfold bind. rewrite H. reflexivity. Qed.

End Unfold.

Ltac mstep :=
  repeat first
    [ rewrite bind_gets
    | rewrite bind_modify
    | rewrite bind_ret
    | rewrite bind_raise ].

Ltac mrun := repeat (progress (mstep; rewrite ?bind_bind)).

(** Splits a method into its primitive steps; [leaf] settles the
    obligation of a [modify]. *)
Ltac preserves_steps Hr Ht leaf :=
  repeat first
    [ assumption
    | progress intros
    | apply (preserves_ret _ Hr)
    | apply (preserves_raise _ Hr)
    | apply (preserves_gets _ Hr)
    | apply (preserves_lift _ Hr)
    | apply (preserves_when _ Hr)
    | apply preserves_modify; intro; solve [leaf]
    | match goal with
      | |- preserves _ (if ?b then _ else _) => destruct b
      | |- preserves _ (match ?x with Some _ => _ | None => _ end) => destruct x
      | |- preserves _ (match ?x with Ok _ => _ | Raise _ => _ end) => destruct x
      | |- preserves _ (let '(_, _) := ?x in _) => destruct x
      | |- preserves _ (match ?x with (_, _) => _ end) => destruct x
      end
    | apply (preserves_bind _ Ht) ].

(** ** The phase *)

Section Phase.
Context {X Obs : Type} {E : WrappedEnv X Obs}.

(** [set_phase], read off as one case analysis. *)
Lemma set_phase_eq (s : Shaping X) :
  set_phase s =
  if curr_ph s <? 5 then
    if perf_window s <=? Z.of_nat (List.length (mov_window s)) then
      let w := tl (mov_window s ++ [performance s]) in
      let s1 := set_curr_perf (np_mean w) (set_mov_window w s) in
      match py_index (goal_perf s) (curr_ph s) with
      | Raise e => (Raise e, s1)
      | Ok g =>
          if np_ge (np_mean w) g
          then (Ok tt, set_mov_window [] (set_curr_ph (curr_ph s + 1) s1))
          else (Ok tt, s1)
      end
    else (Ok tt, set_mov_window (mov_window s ++ [performance s]) s)
  else (Ok tt, s).
Proof.
  unfold set_phase, bind, gets, when, modify, lift, ret; simpl.
  destruct (curr_ph s <? 5); [ | reflexivity].
  destruct (perf_window s <=? _); [ | reflexivity].
  destruct (py_index _ _); [ | reflexivity].
  destruct (np_ge _ _); reflexivity.
Qed.

Lemma evolves_refl (s : Shaping X) : evolves s s.
Proof. unfold evolves, same_config, phase_le. intuition lia. Qed.

Lemma evolves_trans (s1 s2 s3 : Shaping X) :
  evolves s1 s2 -> evolves s2 s3 -> evolves s1 s3.
Proof.
  unfold evolves, same_config, phase_le.
  intros (C1 & P1 & W1) (C2 & P2 & W2).
  repeat split; try (intuition congruence); try lia; tauto.
Qed.

(** A step that leaves the configuration, the phase and the window alone. *)
Ltac evolves_leaf :=
  unfold evolves, same_config, phase_le, window_ok; simpl;
  repeat split; auto; lia.

Lemma set_phase_evolves : preserves (@evolves X) set_phase.
Proof.
  intros s. rewrite set_phase_eq.
  destruct (curr_ph s <? 5) eqn:Hph; [ | apply evolves_refl].
  apply Z.ltb_lt in Hph.
  destruct (perf_window s <=? _) eqn:Hw.
  - apply Z.leb_le in Hw. cbv zeta.
    assert (Hl : List.length (tl (mov_window s ++ [performance s]))
                 = List.length (mov_window s)).
    { destruct (mov_window s); simpl; [reflexivity | ].
      rewrite length_app; simpl; lia. }
    destruct (py_index _ _); [destruct (np_ge _ _) | ];
      unfold evolves, same_config, phase_le, window_ok; simpl;
      rewrite ?Hl; repeat split; auto; lia.
  - apply Z.leb_gt in Hw.
    unfold evolves, same_config, phase_le, window_ok; simpl.
    rewrite length_app; simpl. repeat split; auto; lia.
Qed.

Lemma count_evolves a : preserves (@evolves X) (count a).
Proof.
  assert (Hr := @evolves_refl). assert (Ht := @evolves_trans).
  unfold count. preserves_steps Hr Ht evolves_leaf.
Qed.

Lemma new_trial_evolves : preserves (@evolves X) new_trial.
Proof.
  assert (Hr := @evolves_refl). assert (Ht := @evolves_trans).
  assert (Hs := set_phase_evolves).
  unfold new_trial, new_trial_setup, install_forced_short,
    install_short_variable, install_original, modify_env.
  preserves_steps Hr Ht evolves_leaf.
Qed.

Lemma step_evolves a : preserves (@evolves X) (step a).
Proof.
  assert (Hr := @evolves_refl). assert (Ht := @evolves_trans).
  assert (Hn := new_trial_evolves). assert (Hc := count_evolves).
  unfold step, step_manual, step_delegated, modify_env.
  preserves_steps Hr Ht evolves_leaf.
Qed.

Lemma exec_evolves c (s : Shaping X) : evolves s (exec c s).
Proof.
  destruct c; simpl; [apply step_evolves | apply new_trial_evolves].
Qed.

Lemma run_evolves cs (s : Shaping X) : evolves s (run cs s).
Proof.
  revert s. induction cs as [ | c cs IH]; intros s; simpl.
  - apply evolves_refl.
  - eapply evolves_trans; [apply exec_evolves | apply IH].
Qed.

Lemma evolves_well_formed (s s' : Shaping X) :
  evolves s s' -> well_formed s -> well_formed s'.
Proof.
  unfold evolves, same_config, phase_le, well_formed.
  intros ((_ & Hg & _) & Hp & _) (Hl & H0). rewrite Hg. split; [exact Hl | lia].
Qed.

Lemma init_well_formed (e : TrialEnv.state X) init_ph mnr sd th pw :
  0 <= init_ph -> well_formed (__init__ e init_ph mnr sd th pw).
Proof. intros H. split; [reflexivity | exact H]. Qed.

Lemma init_window_ok (e : TrialEnv.state X) init_ph mnr sd th pw :
  window_ok (__init__ e init_ph mnr sd th pw).
Proof. unfold window_ok; simpl. lia. Qed.

Lemma set_phase_ok (s : Shaping X) :
  well_formed s -> fst (set_phase s) = Ok tt.
Proof.
  intros (Hl & H0). rewrite set_phase_eq.
  destruct (curr_ph s <? 5) eqn:Hph; [ | reflexivity].
  apply Z.ltb_lt in Hph.
  destruct (perf_window s <=? _); [ | reflexivity]. cbv zeta.
  unfold py_index. rewrite Hl.
  destruct (curr_ph s <? 0) eqn:Hn; [apply Z.ltb_lt in Hn; lia | ].
  replace ((curr_ph s <? 0) || (Z.of_nat 5 <=? curr_ph s)) with false.
  2:{ symmetry. apply orb_false_iff. split; [exact Hn | apply Z.leb_gt; lia]. }
  destruct (nth_error (goal_perf s) (Z.to_nat (curr_ph s))) eqn:Hnth.
  - destruct (np_ge _ _); reflexivity.
  - apply nth_error_None in Hnth. lia.
Qed.

(** C1 (as amended).  For a controller constructed with [init_ph] in 0..4
    and any sequence of [step] and [new_trial] calls, over any wrapped
    environment: the phase never decreases, it stays in the range 0..5,
    and [set_phase] invoked at phase 5 leaves the controller unchanged. *)
Theorem phase_monotone_bounded_by_5 (e : TrialEnv.state X)
    (init_ph mnr : Z) (sd th : Q) (pw : Z) (cs1 cs2 : list call) :
  0 <= init_ph <= 4 ->
  let s1 := run cs1 (__init__ e init_ph mnr sd th pw) in
  let s2 := run cs2 s1 in
  curr_ph s1 <= curr_ph s2 /\
  0 <= curr_ph s1 <= 5 /\
  (curr_ph s1 = 5 -> set_phase s1 = (Ok tt, s1)).
Proof.
  intros Hi s1 s2.
  assert (H1 : evolves (__init__ e init_ph mnr sd th pw) s1) by apply run_evolves.
  assert (H2 : evolves s1 s2) by apply run_evolves.
  destruct H1 as (_ & H1 & _). destruct H2 as (_ & H2 & _).
  unfold phase_le in *. simpl in H1.
  repeat split; try lia.
  intros H5. rewrite set_phase_eq, H5. reflexivity.
Qed.

(** C6 (as amended).  In every state a controller reaches with a
    non-negative window size, the rolling window holds at most [perf_w]
    outcomes.  While it holds fewer, [set_phase] only appends the outcome.
    Once it holds [perf_w], [set_phase] appends the outcome, evicts the
    oldest, evaluates the mean of these [perf_w] outcomes, and clears the
    window only when the mean reaches the threshold, advancing the phase;
    otherwise the window stays full. *)
Theorem window_bounded_cleared_on_advance (e : TrialEnv.state X)
    (init_ph mnr : Z) (sd th : Q) (pw : Z) (cs : list call) :
  0 <= pw -> 0 <= init_ph ->
  let s := run cs (__init__ e init_ph mnr sd th pw) in
  let w := mov_window s in
  let w' := tl (w ++ [performance s]) in
  let s' := snd (set_phase s) in
  perf_window s = pw /\
  Z.of_nat (List.length w) <= pw /\
  fst (set_phase s) = Ok tt /\
  (curr_ph s < 5 -> Z.of_nat (List.length w) < pw ->
   s' = set_mov_window (w ++ [performance s]) s) /\
  (curr_ph s < 5 -> Z.of_nat (List.length w) = pw ->
   curr_perf s' = np_mean w' /\
   (np_ge (np_mean w') th = true ->
    mov_window s' = [] /\ curr_ph s' = curr_ph s + 1) /\
   (np_ge (np_mean w') th = false ->
    mov_window s' = w' /\ curr_ph s' = curr_ph s)).
Proof.
  intros Hpw Hi s w w' s'.
  assert (Hev : evolves (__init__ e init_ph mnr sd th pw) s) by apply run_evolves.
  assert (Hwf : well_formed s).
  { eapply evolves_well_formed; [exact Hev | apply init_well_formed; exact Hi]. }
  destruct Hev as ((Hp & Hg & _) & Hph & Hw). simpl in Hp, Hg.
  specialize (Hw (init_window_ok e init_ph mnr sd th pw)).
  unfold window_ok in Hw. rewrite Hp in Hw. specialize (Hw Hpw).
  split; [exact Hp | ]. split; [exact Hw | ].
  split; [apply set_phase_ok; exact Hwf | ].
  subst s'. rewrite set_phase_eq. split.
  - intros H5 Hlt. apply Z.ltb_lt in H5. rewrite H5.
    replace (perf_window s <=? _) with false; [reflexivity | ].
    symmetry. apply Z.leb_gt. fold w. lia.
  - intros H5 Hfull.
    assert (Hidx : py_index (goal_perf s) (curr_ph s) = Ok th).
    { rewrite Hg. destruct Hwf as (_ & H0). unfold py_index. simpl.
      destruct (curr_ph s <? 0) eqn:Hn; [apply Z.ltb_lt in Hn; lia | ].
      replace (5 <=? curr_ph s) with false by (symmetry; apply Z.leb_gt; lia).
      simpl.
      assert (Hc : curr_ph s = 0 \/ curr_ph s = 1 \/ curr_ph s = 2 \/
                   curr_ph s = 3 \/ curr_ph s = 4) by lia.
      destruct Hc as [-> | [-> | [-> | [-> | ->]]]]; reflexivity. }
    apply Z.ltb_lt in H5. rewrite H5.
    replace (perf_window s <=? _) with true
      by (symmetry; apply Z.leb_le; fold w; lia).
    cbv zeta. rewrite Hidx. fold w. fold w'.
    destruct (np_ge (np_mean w') th); simpl;
      repeat split; auto; intros; discriminate.
Qed.

End Phase.

(** C1, at a concrete controller. *)
Lemma phase_monotone_bounded_by_5_witness :
  let s1 := run [Step 1] (__init__ (task task_rewards [(1, true, 1)]%Q) 4 3 2 (4 # 5) 1) in
  let s2 := run [Step 1; NewTrial] s1 in
  curr_ph s1 <= curr_ph s2 /\
  0 <= curr_ph s1 <= 5 /\
  (curr_ph s1 = 5 -> set_phase s1 = (Ok tt, s1)).
Proof.
  apply (phase_monotone_bounded_by_5 (task task_rewards [(1, true, 1)]%Q)
           4 3 2 (4 # 5) 1 [Step 1] [Step 1; NewTrial]).
  lia.
Defined.

(** C1 as stated fails: started in phase 4 with a window of 2 and a
    threshold of 0.1, a controller whose first three trials are correct
    moves on to phase 5. *)
Lemma phase_4_advances_to_5 :
  curr_ph full_task_run = 4 /\
  curr_ph (run [Step 1; Step 1] full_task_run) = 4 /\
  curr_ph (snd (set_phase (set_performance 1%Q (run [Step 1; Step 1] full_task_run)))) = 5 /\
  curr_ph (run [Step 1; Step 1; Step 1] full_task_run) = 5 /\
  ~ (0 <= curr_ph (run [Step 1; Step 1; Step 1] full_task_run) < 5).
Proof. vm_compute. repeat split; try reflexivity. intros [_ H]. discriminate H. Qed.

(** ** Reward shaping in [step] *)

Section Rewards.
Context {X Obs : Type} {E : WrappedEnv X Obs}.

Lemma py_max_floor_nonneg (r : Q) : (0 <= r)%Q -> py_max r 0 = r.
Proof.
  intros H. unfold py_max. destruct (r ?= 0)%Q eqn:Hc; try reflexivity.
  apply Qlt_alt in Hc. lra.
Qed.

Lemma py_max_floor_neg (r : Q) : (r < 0)%Q -> py_max r 0 = 0%Q.
Proof.
  intros H. unfold py_max. destruct (r ?= 0)%Q eqn:Hc; try reflexivity.
  - apply Qeq_alt in Hc. lra.
  - apply Qgt_alt in Hc. lra.
Qed.

Lemma set_phase_step (s : Shaping X) :
  curr_ph (snd (set_phase s)) = curr_ph s \/
  curr_ph (snd (set_phase s)) = curr_ph s + 1.
Proof.
  rewrite set_phase_eq.
  destruct (curr_ph s <? 5); [ | left; reflexivity].
  destruct (perf_window s <=? _); [ | left; reflexivity]. cbv zeta.
  destruct (py_index _ _); [ | left; reflexivity].
  destruct (np_ge _ _); [right | left]; reflexivity.
Qed.

(** Outside phases 2-3 no timing is rescaled, and [new_trial] returns. *)
Lemma new_trial_ok (s : Shaping X) :
  well_formed s ->
  curr_ph (snd (set_phase s)) < 2 \/ 4 <= curr_ph (snd (set_phase s)) ->
  fst (new_trial s) = Ok tt.
Proof.
  intros Hwf Hph. assert (Hok := set_phase_ok s Hwf).
  unfold new_trial, new_trial_setup, bind at 1 2.
  destruct (set_phase s) as [[[] | e] s1]; simpl in Hok, Hph; [ | discriminate].
  unfold bind, modify, modify_env, gets; simpl.
  destruct (curr_ph s1 <? 2) eqn:H2.
  - unfold install_forced_short, bind, modify, modify_env, gets, ret; simpl.
    destruct (short s1); reflexivity.
  - apply Z.ltb_ge in H2.
    replace ((2 <=? curr_ph s1) && (curr_ph s1 <? 4)) with false.
    + reflexivity.
    + symmetry. apply andb_false_iff. right. apply Z.ltb_ge. lia.
Qed.





Lemma count_eq (a : Z) (s : Shaping X) :
  count a s =
  (Ok tt,
   if a =? 0 then s
   else if a =? prev_act s then set_counter (counter s + 1) s
   else set_prev_act a (set_counter 1 s)).
Proof.
  unfold count, when, bind, gets, modify, ret.
  destruct (a =? 0); simpl; [reflexivity | ].
  destruct (a =? prev_act s); reflexivity.
Qed.


End Rewards.

Section StepClaims.
Context {X Obs : Type} {E : WrappedEnv X Obs}.

(** C2 (as amended).  At phase 4 [step] delegates to the wrapped
    environment's [step] and hands back its observation, its [done] flag
    and its [info], hence its performance, unmodified; the reward is the
    wrapped environment's reward floored at 0, so it is that reward
    whenever it is not negative, and 0 otherwise. *)
Theorem phase_4_floors_reward_passes_info (s : Shaping X) (a : Z)
    (obs : Obs) (r : Q) (done : bool) (info : Info.t) (e' : TrialEnv.state X) :
  well_formed s ->
  curr_ph s = 4 ->
  env_step a (env s) = ((obs, r, done, info), e') ->
  (Info.new_trial info = true -> Info.performance info <> None) ->
  fst (step a s) = Ok (obs, py_max r 0, done, info) /\
  ((0 <= r)%Q -> py_max r 0 = r) /\
  ((r < 0)%Q -> py_max r 0 = 0%Q).
Proof.
  intros Hwf H4 Hstep Hperf.
  split; [ | split; [apply py_max_floor_nonneg | apply py_max_floor_neg]].
  unfold step. mstep. rewrite H4. cbn [Z.ltb Z.compare Pos.compare Pos.compare_cont].
  unfold step_delegated. mstep. rewrite Hstep. mstep. cbn [curr_ph set_env].
  rewrite H4. cbn [Z.leb Z.ltb Z.compare Pos.compare Pos.compare_cont andb].
  destruct (Info.new_trial info) eqn:Hnt; [ | reflexivity].
  destruct (Info.performance info) as [p | ]; [ | exfalso; apply Hperf; reflexivity].
  mstep.
  set (s1 := set_performance p (set_env e' s)).
  assert (Hwf1 : well_formed s1) by exact Hwf.
  assert (H41 : curr_ph s1 = 4) by exact H4.
  assert (Hok : fst (new_trial s1) = Ok tt).
  { apply new_trial_ok; [exact Hwf1 | ]. right.
    destruct (set_phase_step s1) as [Hp | Hp]; rewrite Hp; lia. }
  unfold bind. destruct (new_trial s1) as [[[] | x] s2]; simpl in Hok;
    [reflexivity | discriminate].
Qed.

(** Runs [step] symbolically: primitives are executed, conditions are
    split, and a nested [new_trial] is left as one opaque call. *)
Ltac step_fields :=
  cbn [env set_env curr_ph counter max_num_reps first_choice performance
       prev_act set_performance set_first_choice set_counter set_prev_act
       TrialEnv.t TrialEnv.t_ind TrialEnv.dt TrialEnv.tmax TrialEnv.r_tmax
       TrialEnv.rewards TrialEnv.performance TrialEnv.set_t
       TrialEnv.set_t_ind Info.new_trial Info.set_new_trial
       Info.set_performance Info.performance negb andb fst snd].

Ltac step_cases :=
  repeat (mstep; rewrite ?bind_bind; unfold when; step_fields;
          try match goal with
          | |- context [bind (count ?a) _ ?st] =>
              rewrite (bind_returns (count a) _ st _ tt (count_eq a st))
          | |- context [if ?b then _ else _] => destruct b eqn:?
          | |- context [match ?x with Some _ => _ | None => _ end] =>
              destruct x eqn:?
          | |- context [bind new_trial _ ?st] =>
              unfold bind at 1; destruct (new_trial st) as [[[] | ?] ?]
          end).

(** C3 (as amended).  Whenever the wrapped environment's reward for the
    step is not negative, the timeout reward [r_tmax] is not positive and
    the step is not a phase-0 trial boundary, the reward [step] returns is
    at most the wrapped environment's reward. *)
Theorem nonnegative_reward_not_amplified (s : Shaping X) (a : Z)
    (obs obs' : Obs) (r r' : Q) (done done' : bool) (info info' : Info.t)
    (e' : TrialEnv.state X) (s' : Shaping X) :
  (if curr_ph s <? 2 then env__step a (env s) else env_step a (env s))
    = ((obs, r, done, info), e') ->
  step a s = (Ok (obs', r', done', info'), s') ->
  (0 <= r)%Q ->
  (TrialEnv.r_tmax e' <= 0)%Q ->
  (curr_ph s = 0 -> Info.new_trial info = false) ->
  (r' <= r)%Q.
Proof.
  intros Hstep Hret Hr Ht H0. revert Hret.
  unfold step. mstep.
  destruct (curr_ph s <? 2) eqn:Hph.
  - unfold step_manual, modify_env. mstep. rewrite Hstep.
    rewrite (py_max_floor_nonneg r Hr).
    destruct (curr_ph s =? 0) eqn:Hz.
    + apply Z.eqb_eq in Hz. rewrite (H0 Hz).
      step_cases; intros Hret; inversion Hret; subst; try lra.
    + step_cases; intros Hret; inversion Hret; subst; try lra.
  - unfold step_delegated. mstep. rewrite Hstep.
    step_cases; intros Hret; inversion Hret; subst;
      rewrite ?(py_max_floor_nonneg r Hr); lra.
Qed.

(** C5 (as amended).  In phase 1, whenever the wrapped environment's
    low-level step reports a trial boundary, its trial performance is zero
    and the trial clock has not passed [tmax - dt], the step returns reward
    0 and an [info] whose [new_trial] is [False], and the trial continues:
    the clock keeps its advanced value, and no trial is counted and no
    outcome recorded. *)
Theorem phase_1_suppresses_failed_boundary (s : Shaping X) (a : Z)
    (obs : Obs) (r : Q) (done : bool) (info : Info.t) (e' : TrialEnv.state X) :
  curr_ph s = 1 ->
  env__step a (env s) = ((obs, r, done, info), e') ->
  Info.new_trial info = true ->
  (TrialEnv.performance e' == 0)%Q ->
  (TrialEnv.t e' + TrialEnv.dt e' <= TrialEnv.tmax e' - TrialEnv.dt e')%Q ->
  fst (step a s) = Ok (obs, 0%Q, done, Info.set_new_trial false info) /\
  TrialEnv.t (env (snd (step a s))) = (TrialEnv.t e' + TrialEnv.dt e')%Q /\
  TrialEnv.num_tr (env (snd (step a s))) = TrialEnv.num_tr e' /\
  mov_window (snd (step a s)) = mov_window s /\
  curr_ph (snd (step a s)) = 1.
Proof.
  intros H1 Hstep Hnt Hp Ht.
  unfold step. mstep. rewrite H1. cbn [Z.ltb Z.compare Pos.compare Pos.compare_cont].
  unfold step_manual, modify_env. mstep. rewrite Hstep. mrun. step_fields.
  rewrite H1, Hnt. cbn [Z.eqb Pos.eqb]. mrun. step_fields.
  assert (Hf : py_falsy (TrialEnv.performance e') = true).
  { unfold py_falsy. apply Qeq_bool_iff. exact Hp. }
  assert (Hg : py_gt (TrialEnv.t e' + TrialEnv.dt e')
                 (TrialEnv.tmax e' - TrialEnv.dt e') = false).
  { unfold py_gt. apply negb_false_iff. apply Qle_bool_iff. exact Ht. }
  rewrite Hf. unfold when. step_fields.
  destruct (first_choice s) eqn:Hfc;
    repeat (progress (mrun; step_fields; rewrite ?Hfc, ?Hg; cbn [andb]));
    simpl; rewrite H1; repeat split; reflexivity.
Qed.


End StepClaims.

(** ** Dictionaries *)

Section Dict.
Context {V : Type}.

Lemma py_in_iff (k : string) (l : list string) : py_in k l = true <-> In k l.
Proof.
  unfold py_in. rewrite existsb_exists. split.
  - intros (x & Hx & He). apply String.eqb_eq in He. subst. exact Hx.
  - intros H. exists k. split; [exact H | apply String.eqb_refl].
Qed.

Lemma dict_get_set (k k' : string) (v : V) (d : dict V) :
  dict_get k (dict_set k' v d) = if String.eqb k k' then Some v else dict_get k d.
Proof.
  induction d as [ | [k1 v1] r IH]; simpl.
  - destruct (String.eqb k k'); reflexivity.
  - destruct (String.eqb k' k1) eqn:H1; simpl.
    + apply String.eqb_eq in H1. subst k1.
      destruct (String.eqb k k'); reflexivity.
    + destruct (String.eqb k k1) eqn:H2.
      * apply String.eqb_eq in H2. subst k1.
        rewrite String.eqb_sym in H1. rewrite H1. reflexivity.
      * exact IH.
Qed.

Lemma keys_set_in (x k : string) (v : V) (d : dict V) :
  In x (keys (dict_set k v d)) -> x = k \/ In x (keys d).
Proof.
  induction d as [ | [k1 v1] r IH]; simpl.
  - intros [H | []]. left. symmetry. exact H.
  - destruct (String.eqb k k1); simpl.
    + intros H. right. exact H.
    + intros [H | H]; [right; left; exact H | ].
      destruct (IH H) as [H' | H']; [left | right; right]; exact H'.
Qed.

Lemma keys_set_NoDup (k : string) (v : V) (d : dict V) :
  NoDup (keys d) -> NoDup (keys (dict_set k v d)).
Proof.
  induction d as [ | [k1 v1] r IH]; simpl; intros H.
  - constructor; [intros [] | constructor].
  - inversion H as [ | x l Hn Hr]; subst.
    destruct (String.eqb k k1) eqn:H1; simpl.
    + constructor; assumption.
    + constructor; [ | apply IH; exact Hr].
      intros Hin. destruct (keys_set_in _ _ _ _ Hin) as [He | Hi].
      * subst k1. rewrite String.eqb_refl in H1. discriminate.
      * apply Hn. exact Hi.
Qed.

Lemma dict_get_not_in (k : string) (d : dict V) :
  ~ In k (keys d) -> dict_get k d = None.
Proof.
  induction d as [ | [k1 v1] r IH]; simpl; intros H; [reflexivity | ].
  destruct (String.eqb k k1) eqn:H1.
  - apply String.eqb_eq in H1. exfalso. apply H. left. symmetry. exact H1.
  - apply IH. intros Hi. apply H. right. exact Hi.
Qed.

(** Updating with a dictionary: its entries win, the others stay. *)
Lemma dict_get_update (k : string) (d u : dict V) :
  NoDup (keys u) ->
  dict_get k (dict_update d u)
  = match dict_get k u with
    | Some v => Some v
    | None => dict_get k d
    end.
Proof.
  unfold dict_update. revert d.
  induction u as [ | [k1 v1] u IH]; intros d H; simpl; [reflexivity | ].
  inversion H as [ | x l Hn Hr]; subst.
  rewrite (IH _ Hr), dict_get_set.
  destruct (String.eqb k k1) eqn:H1.
  - apply String.eqb_eq in H1. subst k1.
    rewrite (dict_get_not_in k u Hn). reflexivity.
  - reflexivity.
Qed.

End Dict.

(** ** The timing loops *)

Lemma keys_set_same {V : Type} (k : string) (v : V) (d : dict V) :
  In k (keys d) -> keys (dict_set k v d) = keys d.
Proof.
  induction d as [ | [k1 v1] r IH]; simpl; intros H; [destruct H | ].
  destruct (String.eqb k k1) eqn:H1; simpl; [reflexivity | ].
  f_equal. apply IH. destruct H as [H | H]; [ | exact H].
  subst k1. rewrite String.eqb_refl in H1. discriminate.
Qed.

Lemma keys_update_same {V : Type} (d u : dict V) :
  incl (keys u) (keys d) -> keys (dict_update d u) = keys d.
Proof.
  unfold dict_update. revert d.
  induction u as [ | [k v] u IH]; intros d H; simpl; [reflexivity | ].
  assert (Hk : In k (keys d)) by (apply H; left; reflexivity).
  rewrite IH; [apply keys_set_same; exact Hk | ].
  rewrite (keys_set_same k v d Hk).
  intros x Hx. apply H. right. exact Hx.
Qed.

Lemma force_short_keys items cp sd tm :
  incl (keys items) (keys tm) ->
  keys (force_short items cp sd tm) = keys tm.
Proof.
  revert tm. induction items as [ | [key val] rest IH]; intros tm H; simpl;
    [reflexivity | ].
  assert (Hk : In key (keys tm)) by (apply H; left; reflexivity).
  assert (Hr : incl (keys rest) (keys tm)) by (intros x Hx; apply H; right; exact Hx).
  destruct (py_in key cp); [ | apply IH; exact Hr].
  rewrite IH; rewrite (keys_set_same key _ tm Hk); [reflexivity | exact Hr].
Qed.

Lemma py_in_cons (k x : string) (l : list string) :
  py_in k (x :: l) = String.eqb k x || py_in k l.
Proof. reflexivity. Qed.

Lemma force_short_get k items cp sd tm :
  dict_get k (force_short items cp sd tm)
  = if py_in k (keys items) && py_in k cp then Some (constant sd)
    else dict_get k tm.
Proof.
  revert tm. induction items as [ | [key val] rest IH]; intros tm;
    cbn [force_short keys map fst]; [reflexivity | ].
  fold (keys rest). rewrite py_in_cons.
  destruct (String.eqb k key) eqn:Hk; cbn [orb].
  - apply String.eqb_eq in Hk. subst key.
    destruct (py_in k cp) eqn:Hc; rewrite IH; cbn [andb].
    + rewrite ?andb_true_r, dict_get_set, String.eqb_refl.
      destruct (py_in k (keys rest)); reflexivity.
    + rewrite ?andb_false_r. reflexivity.
  - destruct (py_in key cp); rewrite IH; [ | reflexivity].
    rewrite dict_get_set, Hk. reflexivity.
Qed.

Lemma shorten_variable_keys items cp sd dt tm tm' :
  shorten_variable items cp sd dt tm = Ok tm' ->
  incl (keys items) (keys tm) ->
  keys tm' = keys tm.
Proof.
  revert tm. induction items as [ | [key val] rest IH]; intros tm Hs H;
    simpl in Hs.
  - inversion Hs. reflexivity.
  - assert (Hk : In key (keys tm)) by (apply H; left; reflexivity).
    assert (Hr : incl (keys rest) (keys tm)) by (intros x Hx; apply H; right; exact Hx).
    destruct (py_in key cp); [ | apply IH; assumption].
    destruct (shorten_descriptor sd dt val) as [d | e]; [ | discriminate].
    rewrite (IH _ Hs); rewrite (keys_set_same key d tm Hk); [reflexivity | exact Hr].
Qed.

Lemma shorten_variable_get k items cp sd dt tm tm' :
  shorten_variable items cp sd dt tm = Ok tm' ->
  NoDup (keys items) ->
  match dict_get k items with
  | Some d =>
      if py_in k cp
      then exists d', shorten_descriptor sd dt d = Ok d' /\ dict_get k tm' = Some d'
      else dict_get k tm' = dict_get k tm
  | None => dict_get k tm' = dict_get k tm
  end.
Proof.
  revert tm. induction items as [ | [key val] rest IH]; intros tm Hs Hn;
    simpl in Hs.
  - inversion Hs. reflexivity.
  - inversion Hn as [ | x l Hnot Hrest]; subst. simpl.
    destruct (String.eqb k key) eqn:Hk.
    + apply String.eqb_eq in Hk. subst key.
      assert (Hnone : dict_get k rest = None) by (apply dict_get_not_in; exact Hnot).
      destruct (py_in k cp) eqn:Hc.
      * destruct (shorten_descriptor sd dt val) as [d | e] eqn:Hd; [ | discriminate].
        exists d. split; [reflexivity | ].
        specialize (IH _ Hs Hrest). rewrite Hnone in IH.
        rewrite IH, dict_get_set, String.eqb_refl. reflexivity.
      * specialize (IH _ Hs Hrest). rewrite Hnone in IH. exact IH.
    + destruct (py_in key cp).
      * destruct (shorten_descriptor sd dt val) as [d | e]; [ | discriminate].
        specialize (IH _ Hs Hrest).
        rewrite dict_get_set, Hk in IH. exact IH.
      * exact (IH _ Hs Hrest).
Qed.

Lemma shorten_variable_ok items cp sd dt tm :
  (forall k d, In (k, d) items -> py_in k cp = true ->
   exists d', shorten_descriptor sd dt d = Ok d') ->
  exists tm', shorten_variable items cp sd dt tm = Ok tm'.
Proof.
  revert tm. induction items as [ | [key val] rest IH]; intros tm H; simpl.
  - eexists; reflexivity.
  - assert (Hr : forall k d, In (k, d) rest -> py_in k cp = true ->
                 exists d', shorten_descriptor sd dt d = Ok d').
    { intros k d Hi. apply H. right. exact Hi. }
    destruct (py_in key cp) eqn:Hc; [ | apply IH; exact Hr].
    destruct (H key val (or_introl eq_refl) Hc) as (d' & Hd). rewrite Hd.
    apply IH. exact Hr.
Qed.

Lemma changed_periods_in k (ori : timing_spec) :
  In k (changed_periods ori) -> In k (keys ori).
Proof.
  unfold changed_periods. generalize (keys ori). intros l.
  induction l as [ | x l IH]; simpl; [intros [] | ].
  destruct l as [ | y l]; [intros [] | ].
  intros [H | H]; [left; exact H | right; apply IH; exact H].
Qed.

(** ** The timing installed by [new_trial] *)

Lemma dict_set_same {V : Type} (k : string) (v : V) (d : dict V) :
  NoDup (keys d) -> In (k, v) d -> dict_set k v d = d.
Proof.
  induction d as [ | [k1 v1] r IH]; simpl; intros Hn Hi; [destruct Hi | ].
  inversion Hn as [ | x l Hnot Hr]; subst.
  destruct (String.eqb k k1) eqn:H1.
  - apply String.eqb_eq in H1. subst k1.
    destruct Hi as [Hi | Hi]; [inversion Hi; reflexivity | ].
    exfalso. apply Hnot. apply (in_map fst) in Hi. exact Hi.
  - f_equal. apply IH; [exact Hr | ].
    destruct Hi as [Hi | Hi]; [ | exact Hi].
    inversion Hi. subst. rewrite String.eqb_refl in H1. discriminate.
Qed.

Lemma dict_update_incl {V : Type} (d u : dict V) :
  NoDup (keys d) -> incl u d -> dict_update d u = d.
Proof.
  unfold dict_update. intros Hn.
  induction u as [ | [k v] u IH]; intros Hi; simpl; [reflexivity | ].
  rewrite dict_set_same; [ | exact Hn | apply Hi; left; reflexivity].
  apply IH. intros x Hx. apply Hi. right. exact Hx.
Qed.

Lemma dict_get_of_in {V : Type} (k : string) (v : V) (d : dict V) :
  NoDup (keys d) -> In (k, v) d -> dict_get k d = Some v.
Proof.
  induction d as [ | [k1 v1] r IH]; simpl; intros Hn Hi; [destruct Hi | ].
  inversion Hn as [ | x l Hnot Hr]; subst.
  destruct (String.eqb k k1) eqn:H1.
  - apply String.eqb_eq in H1. subst k1.
    destruct Hi as [Hi | Hi]; [inversion Hi; reflexivity | ].
    exfalso. apply Hnot. apply (in_map fst) in Hi. exact Hi.
  - destruct Hi as [Hi | Hi]; [ | apply IH; assumption].
    inversion Hi. subst. rewrite String.eqb_refl in H1. discriminate.
Qed.

Section Installed.
Context {X Obs : Type} {E : WrappedEnv X Obs} {C : TimingContract E}.

Lemma timing_inv_transfer (b b' : Z) (s s' : Shaping X) :
  same_installed s s' ->
  curr_ph s <= curr_ph s' <= curr_ph s + (b' - b) ->
  timing_inv b s -> timing_inv b' s'.
Proof.
  intros (Hg & Hs & Hv & Hd & Ho & Ht & Hdt) Hp.
  unfold timing_inv, well_formed, forced_short_installed, scalable,
    short_variable_installed.
  rewrite Hg, Hs, Hv, Hd, Ho, Ht, Hdt.
  intros ((Hl & H0) & Hn & Hk & H3 & H4).
  split; [split; [exact Hl | lia] | ].
  split; [exact Hn | ]. split; [exact Hk | ]. split.
  - intros H1 H2. destruct (H3 H1 H2) as (Hb & Hf). split; [lia | exact Hf].
  - intros H1 H2. destruct (H4 H1 H2) as (Hb & Hf). split; [lia | ].
    intros H5. apply Hf. lia.
Qed.

Lemma same_installed_refl (s : Shaping X) : same_installed s s.
Proof. repeat split; reflexivity. Qed.

Lemma set_phase_timing_inv (s : Shaping X) :
  timing_inv 2 s ->
  fst (set_phase s) = Ok tt /\
  timing_inv 3 (snd (set_phase s)) /\
  same_installed s (snd (set_phase s)) /\
  env (snd (set_phase s)) = env s.
Proof.
  intros Hi. split; [apply set_phase_ok; apply Hi | ].
  assert (Hs : same_installed s (snd (set_phase s)) /\
               env (snd (set_phase s)) = env s).
  { rewrite set_phase_eq.
    destruct (curr_ph s <? 5); [ | split; [apply same_installed_refl | reflexivity]].
    destruct (perf_window s <=? _); [ | split; [repeat split | ]; reflexivity].
    cbv zeta. destruct (py_index _ _); [destruct (np_ge _ _) | ];
      (split; [repeat split | ]; reflexivity). }
  destruct Hs as (Hs & He). split; [ | split; [exact Hs | exact He]].
  apply (timing_inv_transfer 2 3 s); [exact Hs | | exact Hi].
  pose proof (set_phase_evolves s) as (_ & Hp & _). unfold phase_le in Hp.
  destruct (set_phase_step s) as [H | H]; rewrite H; lia.
Qed.

Lemma new_trial_setup_eq (s : Shaping X) :
  new_trial_setup s =
  match set_phase s with
  | (Ok _, s1) => install_timing (reset_trial s1)
  | (Raise e, s1) => (Raise e, s1)
  end.
Proof.
  unfold new_trial_setup.
  unfold bind at 1. destruct (set_phase s) as [[[] | e] s1]; [ | reflexivity].
  unfold modify_env. mrun. unfold install_timing, reset_trial.
  cbn [curr_ph set_env set_change_periods set_performance set_first_choice].
  destruct (curr_ph s1 <? 2); [reflexivity | ].
  destruct ((2 <=? curr_ph s1) && (curr_ph s1 <? 4)); reflexivity.
Qed.

Lemma new_trial_eq (s : Shaping X) :
  new_trial s =
  match new_trial_setup s with
  | (Ok _, s2) => (Ok tt, set_env (env_new_trial (env s2)) s2)
  | (Raise e, s2) => (Raise e, s2)
  end.
Proof.
  unfold new_trial, bind, modify_env, modify.
  destruct (new_trial_setup s) as [[[] | e] s2]; reflexivity.
Qed.

Lemma same_trial_refl (s : Shaping X) : same_trial s s.
Proof. repeat split; reflexivity. Qed.

Lemma same_trial_trans (s1 s2 s3 : Shaping X) :
  same_trial s1 s2 -> same_trial s2 s3 -> same_trial s1 s3.
Proof. unfold same_trial. intuition congruence. Qed.

Lemma build_timing_fns_same_trial tm (s : Shaping X) :
  same_trial s (set_env (env_build_timing_fns tm (env s)) s).
Proof.
  destruct (build_timing_fns_frame tm (env s)) as (H1 & H2 & H3 & H4 & H5 & H6).
  repeat split; simpl; assumption.
Qed.

Lemma install_timing_same_trial : preserves (@same_trial X) install_timing.
Proof.
  assert (Hr := @same_trial_refl). assert (Ht := @same_trial_trans).
  assert (Hb := build_timing_fns_same_trial).
  intros s. unfold install_timing.
  destruct (curr_ph s <? 2); [ | destruct ((2 <=? curr_ph s) && (curr_ph s <? 4))];
    revert s;
    unfold install_forced_short, install_short_variable, install_original,
      modify_env;
    preserves_steps Hr Ht ltac:(first [apply Hb | repeat split; reflexivity]).
Qed.

Lemma install_forced_short_spec (s : Shaping X) :
  timing_inv 3 s ->
  curr_ph s < 2 ->
  change_periods s = changed_periods (ori_periods s) ->
  fst (install_forced_short s) = Ok tt /\
  timing_inv 2 (snd (install_forced_short s)) /\
  short (snd (install_forced_short s)) = true /\
  variable (snd (install_forced_short s)) = false /\
  TrialEnv.sigma_dt (env (snd (install_forced_short s))) = 0%Q.
Proof.
  intros Hi Hp Hcp.
  destruct Hi as (Hwf & Hn & Hk & H3 & H4).
  assert (Hnt : NoDup (keys (TrialEnv.timing (env s)))) by (rewrite Hk; exact Hn).
  unfold install_forced_short, modify_env. mrun.
  cbn [env set_env short TrialEnv.timing TrialEnv.set_sigma_dt].
  destruct (short s) eqn:Hsh; cbn [negb]; mrun; cbn [fst snd].
  - (* the forced timing is in place already *)
    destruct (variable s) eqn:Hv; [destruct (H4 eq_refl eq_refl); lia | ].
    destruct (H3 eq_refl eq_refl) as (_ & Hf).
    destruct (build_timing_fns_frame (TrialEnv.timing (env s))
                (TrialEnv.set_sigma_dt 0 (env s))) as (Hdt & Hsg & _).
    assert (Htm : TrialEnv.timing
                    (env_build_timing_fns (TrialEnv.timing (env s))
                       (TrialEnv.set_sigma_dt 0 (env s)))
                  = TrialEnv.timing (env s)).
    { rewrite build_timing_fns_timing. simpl.
      apply dict_update_incl; [exact Hnt | apply incl_refl]. }
    split; [reflexivity | ]. split; [ | simpl; rewrite Hsh, Hv, Hsg; auto].
    apply (timing_inv_transfer 2 2 s).
    + repeat split; simpl; assumption.
    + simpl. lia.
    + unfold timing_inv. rewrite Hsh, Hv.
      split; [exact Hwf | ]. split; [exact Hn | ]. split; [exact Hk | ].
      split; [intros _ _; split; [lia | exact Hf] | intros _ Hx; discriminate Hx].
  - (* first forced-short trial *)
    unfold modify.
    cbn [fst snd env set_env set_short set_variable ori_periods
         change_periods short_dur].
    remember (force_short (ori_periods s) (change_periods s) (short_dur s)
                (TrialEnv.timing (env s))) as tm eqn:Etm.
    assert (Hkt : keys tm = keys (TrialEnv.timing (env s))).
    { rewrite Etm. apply force_short_keys. rewrite Hk. apply incl_refl. }
    destruct (build_timing_fns_frame tm (TrialEnv.set_sigma_dt 0 (env s)))
      as (Hdt & Hsg & _).
    split; [reflexivity | ]. split; [ | simpl; rewrite Hsg; auto].
    unfold timing_inv, well_formed, forced_short_installed; simpl.
    rewrite build_timing_fns_timing. simpl.
    split; [exact Hwf | ]. split; [exact Hn | ]. split.
    { rewrite keys_update_same; [exact Hk | rewrite Hkt; apply incl_refl]. }
    split; [ | intros _ Hf; discriminate Hf].
    intros _ _. split; [exact Hp | ].
    intros k Hin. rewrite dict_get_update; [ | rewrite Hkt; exact Hnt].
    rewrite Etm, force_short_get, Hcp.
    rewrite (proj2 (py_in_iff k _) Hin).
    rewrite (proj2 (py_in_iff k _) (changed_periods_in k _ Hin)). reflexivity.
Qed.

Lemma scalable_shorten_ok (s : Shaping X) tm :
  NoDup (keys (ori_periods s)) ->
  change_periods s = changed_periods (ori_periods s) ->
  scalable s ->
  exists tm',
    shorten_variable (ori_periods s) (change_periods s) (short_dur s)
      (TrialEnv.dt (env s)) tm = Ok tm'.
Proof.
  intros Hn Hcp Hsc. apply shorten_variable_ok.
  intros k d Hin Hpy. rewrite Hcp in Hpy. apply py_in_iff in Hpy.
  apply (Hsc k d Hpy). apply dict_get_of_in; assumption.
Qed.

Lemma choose_jitter_spec (s : Shaping X) :
  fst (choose_jitter s) = Ok tt /\
  same_installed s (snd (choose_jitter s)) /\
  curr_ph (snd (choose_jitter s)) = curr_ph s.
Proof.
  unfold choose_jitter, modify_env, when. mrun.
  destruct (curr_ph s =? 2); [ | destruct (curr_ph s =? 3)]; mrun;
    split; try reflexivity; split; try reflexivity; repeat split; reflexivity.
Qed.

Lemma install_short_variable_spec (s : Shaping X) :
  timing_inv 3 s ->
  2 <= curr_ph s < 4 ->
  change_periods s = changed_periods (ori_periods s) ->
  timing_inv 2 (snd (install_short_variable s)) /\
  (scalable s ->
   fst (install_short_variable s) = Ok tt /\
   short (snd (install_short_variable s)) = true /\
   variable (snd (install_short_variable s)) = true).
Proof.
  intros Hi Hp Hcp.
  destruct Hi as (Hwf & Hn & Hk & H3 & H4).
  assert (Hnt : NoDup (keys (TrialEnv.timing (env s)))) by (rewrite Hk; exact Hn).
  unfold install_short_variable, modify_env. mrun.
  assert (Hfin : forall s1 : Shaping X,
             timing_inv 2 s1 -> short s1 = true -> variable s1 = true ->
             timing_inv 2 (snd (choose_jitter s1)) /\
             fst (choose_jitter s1) = Ok tt /\
             short (snd (choose_jitter s1)) = true /\
             variable (snd (choose_jitter s1)) = true).
  { intros s1 Hi1 Hs1 Hv1.
    destruct (choose_jitter_spec s1) as (Hok & Hsame & Hph).
    split; [ | split; [exact Hok | ]].
    - apply (timing_inv_transfer 2 2 s1); [exact Hsame | lia | exact Hi1].
    - destruct Hsame as (_ & Hs & Hv & _). rewrite Hs, Hv. auto. }
  destruct (negb (short s) || negb (variable s)) eqn:Hre.
  - (* the timing is rescaled from the original periods *)
    mrun. unfold lift.
    cbn [env short_dur ori_periods change_periods set_short set_variable].
    destruct (shorten_variable (ori_periods s) (change_periods s) (short_dur s)
                (TrialEnv.dt (env s)) (TrialEnv.timing (env s)))
      as [tm | x] eqn:Hsv.
    + rewrite (bind_returns _ _ _ _ tm (eq_refl _)). mrun.
      cbn [env set_env set_short set_variable].
      match goal with
      | |- context [choose_jitter ?st] => set (s1 := st)
      end.
      assert (Hi1 : timing_inv 2 s1).
      { assert (Hkt : keys tm = keys (TrialEnv.timing (env s))).
        { apply (shorten_variable_keys _ _ _ _ _ _ Hsv).
          rewrite Hk. apply incl_refl. }
        destruct (build_timing_fns_frame tm (env s)) as (Hdt & _).
        unfold timing_inv, well_formed, scalable, short_variable_installed.
        subst s1. simpl. rewrite build_timing_fns_timing, Hdt.
        split; [exact Hwf | ]. split; [exact Hn | ]. split.
        { rewrite keys_update_same; [exact Hk | rewrite Hkt; apply incl_refl]. }
        split; [intros _ Hf; discriminate Hf | ].
        intros _ _. split; [lia | ]. intros _ _ k d Hin Hd.
        pose proof (shorten_variable_get k _ _ _ _ _ _ Hsv Hn) as Hg.
        rewrite Hd, Hcp, (proj2 (py_in_iff k _) Hin) in Hg.
        destruct Hg as (d' & Hd' & Hg). exists d'. split; [exact Hd' | ].
        rewrite dict_get_update; [ | rewrite Hkt; exact Hnt].
        rewrite Hg. reflexivity. }
      destruct (Hfin s1 Hi1 eq_refl eq_refl) as (Ha & Hb & Hc & Hd).
      unfold bind. destruct (choose_jitter s1) as [[[] | x] s2];
        simpl in *; [ | discriminate].
      split; [exact Ha | intros _; auto].
    + rewrite (bind_raises _ _ _ _ x (eq_refl _)). cbn [fst snd].
      split.
      * unfold timing_inv, well_formed, scalable; simpl.
        split; [exact Hwf | ]. split; [exact Hn | ]. split; [exact Hk | ].
        split; [intros _ Hf; discriminate Hf | ].
        intros _ _. split; [lia | ]. intros _ Hsc. exfalso.
        destruct (scalable_shorten_ok s (TrialEnv.timing (env s)) Hn Hcp Hsc)
          as (tm' & Htm'). rewrite Htm' in Hsv. discriminate.
      * intros Hsc. exfalso.
        destruct (scalable_shorten_ok s (TrialEnv.timing (env s)) Hn Hcp Hsc)
          as (tm' & Htm'). rewrite Htm' in Hsv. discriminate.
  - (* the rescaled timing is in place already *)
    apply orb_false_iff in Hre. destruct Hre as (Hs & Hv).
    apply negb_false_iff in Hs. apply negb_false_iff in Hv.
    mrun. cbn [env set_env].
    match goal with
    | |- context [choose_jitter ?st] => set (s1 := st)
    end.
    assert (Hi1 : timing_inv 2 s1).
    { apply (timing_inv_transfer 2 2 s).
      - destruct (build_timing_fns_frame (TrialEnv.timing (env s)) (env s))
          as (Hdt & _).
        subst s1. unfold same_installed. simpl.
        rewrite build_timing_fns_timing, Hdt.
        rewrite dict_update_incl; [ | exact Hnt | apply incl_refl].
        repeat split; reflexivity.
      - subst s1. simpl. lia.
      - unfold timing_inv.
        split; [exact Hwf | ]. split; [exact Hn | ]. split; [exact Hk | ].
        split; [intros _ Hf; rewrite Hv in Hf; discriminate Hf | ].
        intros Ha Hb. destruct (H4 Ha Hb) as (Hc & Hd). split; assumption. }
    destruct (Hfin s1 Hi1 Hs Hv) as (Ha & Hb & Hc & Hd).
    unfold bind. destruct (choose_jitter s1) as [[[] | x] s2];
      simpl in *; [ | discriminate].
    split; [exact Ha | intros _; auto].
Qed.

Lemma install_original_spec (s : Shaping X) :
  timing_inv 3 s ->
  4 <= curr_ph s ->
  fst (install_original s) = Ok tt /\
  timing_inv 2 (snd (install_original s)).
Proof.
  intros (Hwf & Hn & Hk & H3 & H4) Hp.
  unfold install_original, modify_env. mrun. split; [reflexivity | ].
  cbn [fst snd env set_env ori_periods sigma_dt_ori].
  destruct (build_timing_fns_frame (ori_periods s)
              (TrialEnv.set_sigma_dt (sigma_dt_ori s) (env s))) as (Hdt & _).
  unfold timing_inv, well_formed, forced_short_installed, scalable,
    short_variable_installed.
  simpl. simpl in Hdt. rewrite build_timing_fns_timing, Hdt. simpl.
  split; [exact Hwf | ]. split; [exact Hn | ]. split.
  { rewrite keys_update_same; [exact Hk | rewrite Hk; apply incl_refl]. }
  split.
  - intros Ha Hb. destruct (H3 Ha Hb). lia.
  - intros Ha Hb. destruct (H4 Ha Hb). split; [lia | intros; lia].
Qed.


Lemma scalable_same (s s' : Shaping X) :
  same_installed s s' -> scalable s -> scalable s'.
Proof.
  intros (_ & _ & _ & Hd & Ho & _ & Hdt). unfold scalable.
  rewrite Hd, Ho, Hdt. auto.
Qed.

Lemma reset_trial_spec (s : Shaping X) :
  same_installed s (reset_trial s) /\
  curr_ph (reset_trial s) = curr_ph s /\
  change_periods (reset_trial s) = changed_periods (ori_periods s) /\
  TrialEnv.performance (env (reset_trial s)) = 0%Q /\
  TrialEnv.t (env (reset_trial s)) = 0%Q /\
  TrialEnv.t_ind (env (reset_trial s)) = 0 /\
  TrialEnv.num_tr (env (reset_trial s)) = TrialEnv.num_tr (env s) + 1.
Proof. repeat split; reflexivity. Qed.

(** [new_trial] keeps the invariant and leaves the regime flags in line
    with the phase. *)
Lemma new_trial_spec (s : Shaping X) :
  timing_inv 2 s ->
  timing_inv 2 (snd (new_trial s)) /\
  ori_periods (snd (new_trial s)) = ori_periods s /\
  short_dur (snd (new_trial s)) = short_dur s /\
  TrialEnv.dt (env (snd (new_trial s))) = TrialEnv.dt (env s) /\
  (curr_ph (snd (new_trial s)) < 2 ->
   fst (new_trial s) = Ok tt /\
   short (snd (new_trial s)) = true /\
   variable (snd (new_trial s)) = false /\
   TrialEnv.sigma_dt (env (snd (new_trial s))) = 0%Q) /\
  (2 <= curr_ph (snd (new_trial s)) < 4 -> scalable s ->
   fst (new_trial s) = Ok tt /\
   short (snd (new_trial s)) = true /\
   variable (snd (new_trial s)) = true).
Proof.
  intros Hi.
  destruct (set_phase_timing_inv s Hi) as (Hok & Hi1 & Hsame1 & He1).
  rewrite new_trial_eq, new_trial_setup_eq.
  destruct (set_phase s) as [[[] | x] s1]; simpl in Hok, Hi1, Hsame1, He1;
    [ | discriminate].
  destruct (reset_trial_spec s1) as (Hsame2 & Hph2 & Hcp2 & _).
  set (s2 := reset_trial s1) in *.
  assert (Hi2 : timing_inv 3 s2).
  { apply (timing_inv_transfer 3 3 s1); [exact Hsame2 | lia | exact Hi1]. }
  assert (Hcp : change_periods s2 = changed_periods (ori_periods s2)).
  { rewrite Hcp2. destruct Hsame2 as (_ & _ & _ & _ & Ho & _). rewrite Ho.
    reflexivity. }
  assert (Hsame : same_installed s s2).
  { destruct Hsame1 as (A1 & A2 & A3 & A4 & A5 & A6 & A7).
    destruct Hsame2 as (B1 & B2 & B3 & B4 & B5 & B6 & B7).
    repeat split; congruence. }
  assert (Hstr : same_trial s2 (snd (install_timing s2)))
    by apply install_timing_same_trial.
  destruct Hstr as (Tph & _ & Tsd & Tori & Tdt & _).
  assert (Hframe : forall s3 : Shaping X,
             same_trial s2 s3 ->
             ori_periods (set_env (env_new_trial (env s3)) s3) = ori_periods s /\
             short_dur (set_env (env_new_trial (env s3)) s3) = short_dur s /\
             TrialEnv.dt (env (set_env (env_new_trial (env s3)) s3))
             = TrialEnv.dt (env s)).
  { intros s3 (_ & _ & Bsd & Bori & Bdt & _).
    destruct Hsame as (_ & _ & _ & Asd & Aori & _ & Adt).
    destruct (new_trial_frame (env s3)) as ((_ & Ndt) & _).
    simpl. rewrite Ndt. repeat split; congruence. }
  assert (Hnew : forall s3 : Shaping X,
             timing_inv 2 s3 ->
             timing_inv 2 (set_env (env_new_trial (env s3)) s3)).
  { intros s3 Hi3. apply (timing_inv_transfer 2 2 s3); [ | simpl; lia | exact Hi3].
    destruct (new_trial_frame (env s3)) as ((Ntm & Ndt) & _).
    repeat split; simpl; assumption. }
  pose proof (scalable_same s s2 Hsame) as Hsc2.
  unfold install_timing in *.
  destruct (curr_ph s2 <? 2) eqn:Hlt2.
  - apply Z.ltb_lt in Hlt2.
    destruct (install_forced_short_spec s2 Hi2 Hlt2 Hcp)
      as (Fok & Fi & Fs & Fv & Fsg).
    pose proof (install_timing_same_trial s2) as Hst. unfold install_timing in Hst.
    replace (curr_ph s2 <? 2) with true in Hst by (symmetry; apply Z.ltb_lt; lia).
    destruct (install_forced_short s2) as [[[] | x] s3]; simpl in *;
      [ | discriminate].
    split; [apply Hnew; exact Fi | ].
    destruct (Hframe s3 Hst) as (F1 & F2 & F3).
    split; [exact F1 | ]. split; [exact F2 | ]. split; [exact F3 | ].
    destruct (new_trial_frame (env s3)) as (_ & Nsg).
    split.
    + intros _. rewrite Nsg. auto.
    + intros Hc. destruct Hst as (Hc3 & _). lia.
  - apply Z.ltb_ge in Hlt2.
    destruct ((2 <=? curr_ph s2) && (curr_ph s2 <? 4)) eqn:Hlt4.
    + apply andb_true_iff in Hlt4. destruct Hlt4 as (Hge & Hlt4).
      apply Z.ltb_lt in Hlt4.
      destruct (install_short_variable_spec s2 Hi2 (conj Hlt2 Hlt4) Hcp)
        as (Vi & Vok).
      pose proof (install_timing_same_trial s2) as Hst.
      unfold install_timing in Hst.
      replace (curr_ph s2 <? 2) with false in Hst by (symmetry; apply Z.ltb_ge; lia).
      rewrite Hge in Hst.
      replace (curr_ph s2 <? 4) with true in Hst by (symmetry; apply Z.ltb_lt; lia).
      cbn [andb] in Hst.
      destruct (install_short_variable s2) as [[[] | x] s3]; simpl in *.
      * split; [apply Hnew; exact Vi | ].
        destruct (Hframe s3 Hst) as (F1 & F2 & F3).
        split; [exact F1 | ]. split; [exact F2 | ]. split; [exact F3 | ].
        split.
        -- intros Hc. destruct Hst as (Hc3 & _). lia.
        -- intros _ Hsc. destruct (Vok (Hsc2 Hsc)) as (_ & V1 & V2).
           auto.
      * split; [exact Vi | ].
        destruct Hst as (Hc3 & _ & Bsd & Bori & Bdt & _).
        destruct Hsame as (_ & _ & _ & Asd & Aori & _ & Adt).
        split; [congruence | ]. split; [congruence | ]. split; [congruence | ].
        split.
        -- intros Hc. lia.
        -- intros _ Hsc.
           destruct (Vok (Hsc2 Hsc)) as (V0 & _). discriminate V0.
    + assert (Hge4 : 4 <= curr_ph s2).
      { apply andb_false_iff in Hlt4. destruct Hlt4 as [H | H].
        - apply Z.leb_gt in H. lia.
        - apply Z.ltb_ge in H. exact H. }
      destruct (install_original_spec s2 Hi2 Hge4) as (Ook & Oi).
      pose proof (install_timing_same_trial s2) as Hst.
      unfold install_timing in Hst.
      replace (curr_ph s2 <? 2) with false in Hst by (symmetry; apply Z.ltb_ge; lia).
      assert (Hf : (2 <=? curr_ph s2) && (curr_ph s2 <? 4) = false).
      { apply andb_false_iff. right. apply Z.ltb_ge. lia. }
      rewrite Hf in Hst.
      destruct (install_original s2) as [[[] | x] s3]; simpl in *;
        [ | discriminate].
      split; [apply Hnew; exact Oi | ].
      destruct (Hframe s3 Hst) as (F1 & F2 & F3).
      split; [exact F1 | ]. split; [exact F2 | ]. split; [exact F3 | ].
      destruct Hst as (Hc3 & _).
      split; intros; lia.
Qed.


Lemma keeps_inv_refl (s : Shaping X) : keeps_inv s s.
Proof. intros H. split; [exact H | repeat split; reflexivity]. Qed.

Lemma keeps_inv_trans (s1 s2 s3 : Shaping X) :
  keeps_inv s1 s2 -> keeps_inv s2 s3 -> keeps_inv s1 s3.
Proof.
  intros H12 H23 H1. destruct (H12 H1) as (H2 & A1 & A2 & A3).
  destruct (H23 H2) as (H3 & B1 & B2 & B3).
  split; [exact H3 | ]. repeat split; congruence.
Qed.

Lemma keeps_inv_same (s s' : Shaping X) :
  same_installed s s' -> curr_ph s' = curr_ph s -> keeps_inv s s'.
Proof.
  intros Hs Hp Hi. split.
  - apply (timing_inv_transfer 2 2 s); [exact Hs | lia | exact Hi].
  - destruct Hs as (_ & _ & _ & A & B & _ & D). auto.
Qed.

Ltac keeps_inv_leaf :=
  apply keeps_inv_same; [repeat split; reflexivity | reflexivity].

Lemma count_keeps_inv a : preserves (@keeps_inv X) (count a).
Proof.
  assert (Hr := @keeps_inv_refl). assert (Ht := @keeps_inv_trans).
  unfold count. preserves_steps Hr Ht keeps_inv_leaf.
Qed.

Lemma new_trial_keeps_inv : preserves (@keeps_inv X) new_trial.
Proof.
  intros s Hi. destruct (new_trial_spec s Hi) as (H1 & H2 & H3 & H4 & _).
  auto.
Qed.

Lemma env_step_keeps_inv (s : Shaping X) (e' : TrialEnv.state X) :
  keeps_timing (env s) e' -> keeps_inv s (set_env e' s).
Proof.
  intros (Ht & Hd). apply keeps_inv_same; [ | reflexivity].
  repeat split; simpl; assumption.
Qed.

Lemma step_keeps_inv a : preserves (@keeps_inv X) (step a).
Proof.
  assert (Hr := @keeps_inv_refl). assert (Ht := @keeps_inv_trans).
  assert (Hn := new_trial_keeps_inv). assert (Hc := count_keeps_inv).
  intros s. unfold step. rewrite bind_gets.
  destruct (curr_ph s <? 2).
  - unfold step_manual. rewrite bind_gets.
    pose proof (_step_frame a (env s)) as Hf.
    destruct (env__step a (env s)) as [[[[obs r] done] info] e']. simpl in Hf.
    rewrite bind_modify.
    apply (keeps_inv_trans s (set_env e' s)); [apply env_step_keeps_inv; exact Hf | ].
    generalize (set_env e' s). unfold modify_env.
    match goal with
    | |- forall s1, keeps_inv s1 (snd (?m s1)) => change (preserves (@keeps_inv X) m)
    end.
    preserves_steps Hr Ht keeps_inv_leaf.
  - unfold step_delegated. rewrite bind_gets.
    pose proof (step_frame a (env s)) as Hf.
    destruct (env_step a (env s)) as [[[[obs r] done] info] e']. simpl in Hf.
    rewrite bind_modify.
    apply (keeps_inv_trans s (set_env e' s)); [apply env_step_keeps_inv; exact Hf | ].
    generalize (set_env e' s).
    match goal with
    | |- forall s1, keeps_inv s1 (snd (?m s1)) => change (preserves (@keeps_inv X) m)
    end.
    preserves_steps Hr Ht keeps_inv_leaf.
Qed.

Lemma run_keeps_inv cs (s : Shaping X) : keeps_inv s (run cs s).
Proof.
  revert s. induction cs as [ | c cs IH]; intros s; simpl.
  - apply keeps_inv_refl.
  - apply (keeps_inv_trans s (exec c s)); [ | apply IH].
    destruct c; simpl; [apply step_keeps_inv | apply new_trial_keeps_inv].
Qed.

Lemma init_timing_inv (e : TrialEnv.state X) init_ph mnr sd th pw :
  0 <= init_ph ->
  NoDup (keys (TrialEnv.timing e)) ->
  timing_inv 2 (__init__ e init_ph mnr sd th pw).
Proof.
  intros H0 Hn. unfold timing_inv; simpl.
  split; [split; [reflexivity | exact H0] | ].
  split; [exact Hn | ]. split; [reflexivity | ].
  split; intros Hf; discriminate Hf.
Qed.


End Installed.

(** ** The timing claims *)



(** The rescaled value is the multiple of [dt] reached by truncation: for
    a positive time step and a non-negative scaled parameter, the largest
    multiple that does not exceed it. *)
Lemma quantize_truncates (n factor dt : Q) :
  (0 < dt)%Q -> (0 <= n * factor)%Q ->
  quantize n factor dt = (inject_Z (Qfloor (n * factor / dt)) * dt)%Q /\
  (quantize n factor dt <= n * factor)%Q /\
  (n * factor < quantize n factor dt + dt)%Q.
Proof.
  intros Hdt Hx. set (y := (n * factor / dt)%Q).
  assert (Hy : (0 <= y)%Q).
  { unfold y. apply Qle_shift_div_l; [exact Hdt | lra]. }
  assert (Hfl : py_int y = Qfloor y).
  { unfold py_int. destruct y as [num den]. simpl.
    apply Z.quot_div_nonneg; [ | lia].
    unfold Qle in Hy. simpl in Hy. lia. }
  assert (Hyd : (y * dt == n * factor)%Q).
  { unfold y. field. lra. }
  unfold quantize. fold y. rewrite Hfl. split; [reflexivity | ].
  pose proof (Qfloor_le y) as H1. pose proof (Qlt_floor y) as H2.
  rewrite inject_Z_plus in H2. simpl in H2. split.
  - rewrite <- Hyd. apply Qmult_le_compat_r; [exact H1 | lra].
  - rewrite <- Hyd.
    setoid_replace (inject_Z (Qfloor y) * dt + dt)%Q
      with ((inject_Z (Qfloor y) + 1) * dt)%Q by ring.
    apply Qmult_lt_compat_r; [exact Hdt | exact H2].
Qed.

Section TimingClaims.
Context {X Obs : Type} {E : WrappedEnv X Obs} {C : TimingContract E}.

Lemma reached_timing_inv (e : TrialEnv.state X) init_ph mnr sd th pw cs :
  0 <= init_ph ->
  NoDup (keys (TrialEnv.timing e)) ->
  let s := run cs (__init__ e init_ph mnr sd th pw) in
  timing_inv 2 s /\
  ori_periods s = TrialEnv.timing e /\
  short_dur s = py_int (sd * TrialEnv.dt e) /\
  TrialEnv.dt (env s) = TrialEnv.dt e.
Proof.
  intros H0 Hn s.
  exact (run_keeps_inv cs _ (init_timing_inv e init_ph mnr sd th pw H0 Hn)).
Qed.

(** C8.  After any [new_trial] that leaves the controller in phase 0 or 1,
    every period of the environment's timing except the last one is
    [('constant', short_dur)] and the jitter [sigma_dt] is 0; the call
    returns.  The wrapped environment is assumed to keep its contract. *)
Theorem forced_short_after_new_trial (e : TrialEnv.state X)
    (init_ph mnr : Z) (sd th : Q) (pw : Z) (cs : list call) :
  0 <= init_ph ->
  NoDup (keys (TrialEnv.timing e)) ->
  let s := run cs (__init__ e init_ph mnr sd th pw) in
  let s' := snd (new_trial s) in
  curr_ph s' < 2 ->
  fst (new_trial s) = Ok tt /\
  (forall k, In k (removelast (keys (TrialEnv.timing (env s')))) ->
   dict_get k (TrialEnv.timing (env s'))
   = Some ("constant"%string, Scalar (inject_Z (py_int (sd * TrialEnv.dt e))))) /\
  TrialEnv.sigma_dt (env s') = 0%Q.
Proof.
  intros H0 Hn s s' Hp.
  destruct (reached_timing_inv e init_ph mnr sd th pw cs H0 Hn)
    as (Hi & Hori & Hsd & Hdt). fold s in Hi, Hori, Hsd, Hdt.
  destruct (new_trial_spec s Hi) as (Hi' & Ho' & Hs' & Hd' & Hlow & _).
  fold s' in Hi', Ho', Hs', Hd', Hlow.
  destruct (Hlow Hp) as (Hok & Hsh & Hv & Hsg).
  split; [exact Hok | ]. split; [ | exact Hsg].
  destruct Hi' as (_ & _ & Hk & H3 & _).
  destruct (H3 Hsh Hv) as (_ & Hf).
  intros k Hin. rewrite Hk in Hin.
  rewrite (Hf k Hin), Hs', Hsd. reflexivity.
Qed.


Lemma set_phase_env (s : Shaping X) : env (snd (set_phase s)) = env s.
Proof.
  rewrite set_phase_eq.
  destruct (curr_ph s <? 5); [ | reflexivity].
  destruct (perf_window s <=? _); [ | reflexivity]. cbv zeta.
  destruct (py_index _ _); [destruct (np_ge _ _) | ]; reflexivity.
Qed.

(** C10.  Every call of [new_trial] on a well-formed controller, in any
    phase, has set the wrapped environment's [performance], [t] and [t_ind]
    to 0 and added exactly 1 to its [num_tr] by the time it delegates: the
    environment handed to the wrapped [new_trial] carries these values, and
    so does the environment left behind when rescaling the timing raises
    before the delegation.  The wrapped environment's [build_timing_fns]
    is assumed to keep its contract. *)
Theorem new_trial_resets_before_delegating (s : Shaping X) :
  well_formed s ->
  let s1 := snd (new_trial_setup s) in
  TrialEnv.performance (env s1) = 0%Q /\
  TrialEnv.t (env s1) = 0%Q /\
  TrialEnv.t_ind (env s1) = 0 /\
  TrialEnv.num_tr (env s1) = TrialEnv.num_tr (env s) + 1 /\
  new_trial s =
  match fst (new_trial_setup s) with
  | Ok _ => (Ok tt, set_env (env_new_trial (env s1)) s1)
  | Raise x => (Raise x, s1)
  end.
Proof.
  intros Hwf s1.
  assert (Hclock : TrialEnv.performance (env s1) = 0%Q /\
                   TrialEnv.t (env s1) = 0%Q /\
                   TrialEnv.t_ind (env s1) = 0 /\
                   TrialEnv.num_tr (env s1) = TrialEnv.num_tr (env s) + 1).
  { subst s1. rewrite new_trial_setup_eq.
    pose proof (set_phase_ok s Hwf) as Hok.
    pose proof (set_phase_env s) as He.
    destruct (set_phase s) as [[[] | x] s0]; simpl in Hok, He; [ | discriminate].
    destruct (install_timing_same_trial (reset_trial s0))
      as (_ & _ & _ & _ & _ & Ht & Hti & Hnt & Hpf).
    destruct (reset_trial_spec s0) as (_ & _ & _ & R1 & R2 & R3 & R4).
    rewrite Ht, Hti, Hnt, Hpf, R1, R2, R3, R4, He. repeat split; reflexivity. }
  destruct Hclock as (H1 & H2 & H3 & H4).
  repeat (split; [assumption | ]).
  rewrite new_trial_eq. subst s1.
  destruct (new_trial_setup s) as [[[] | x] s2]; reflexivity.
Qed.

End TimingClaims.

(** The scripted environment keeps the contract. *)
#[export] Instance scripted_contract : TimingContract scripted.
Proof.
  split.
  - intros tm e. reflexivity.
  - intros tm e. repeat split; reflexivity.
  - intros e. repeat split; reflexivity.
  - intros a e. simpl. unfold scripted_step.
    destruct (TrialEnv.hidden e) as [ | [[r nt] p] rest]; split; reflexivity.
  - intros a e. simpl. unfold scripted_step.
    destruct (TrialEnv.hidden e) as [ | [[r nt] p] rest]; split; reflexivity.
Qed.

Lemma task_timing_NoDup : NoDup (keys task_timing).
Proof. repeat constructor; simpl; intuition discriminate. Qed.

(** ** The claims on the scripted task *)

(** C2, at a concrete controller. *)
Lemma phase_4_floors_reward_passes_info_witness :
  fst (step 1 full_task_run)
  = Ok (tt, py_max 1 0, false, Info.mk true (Some 1%Q) None) /\
  ((0 <= 1)%Q -> py_max 1 0 = 1%Q) /\
  ((1 < 0)%Q -> py_max 1 0 = 0%Q).
Proof.
  eapply (phase_4_floors_reward_passes_info full_task_run 1).
  - split; [reflexivity | vm_compute; discriminate].
  - reflexivity.
  - reflexivity.
  - intros _. discriminate.
Defined.

(** C2 as stated fails: at phase 4 the ['abort'] reward -0.1 of the wrapped
    environment comes back as 0. *)
Lemma phase_4_masks_negative_reward :
  curr_ph (aborted_fixation 4) = 4 /\
  fst (fst (env_step 1 (env (aborted_fixation 4))))
  = (tt, -(1 # 10), false)%Q /\
  (exists info, fst (step 1 (aborted_fixation 4)) = Ok (tt, 0%Q, false, info)) /\
  ~ (0 == -(1 # 10))%Q.
Proof.
  split; [reflexivity | ]. split; [reflexivity | ].
  split; [eexists; reflexivity | ]. intros H. discriminate H.
Qed.

(** C3, at a concrete controller. *)
Lemma nonnegative_reward_not_amplified_witness :
  fst (step 1 full_task_run)
  = Ok (tt, 1%Q, false, Info.mk true (Some 1%Q) None) /\ (1 <= 1)%Q.
Proof.
  split; [reflexivity | ].
  eapply (nonnegative_reward_not_amplified full_task_run 1 tt tt 1 1 false false).
  - reflexivity.
  - lazy. reflexivity.
  - discriminate.
  - simpl. discriminate.
  - intros H. discriminate H.
Defined.

(** C3 as stated fails: in phase 2 the reward -0.1 of the wrapped
    environment is returned as 0, which is more. *)
Lemma floor_raises_negative_reward :
  curr_ph (aborted_fixation 2) = 2 /\
  fst (fst (env_step 1 (env (aborted_fixation 2))))
  = (tt, -(1 # 10), false)%Q /\
  (exists info, fst (step 1 (aborted_fixation 2)) = Ok (tt, 0%Q, false, info)) /\
  ~ (0 <= -(1 # 10))%Q.
Proof.
  split; [reflexivity | ]. split; [reflexivity | ].
  split; [eexists; reflexivity | ]. intros H. apply H. reflexivity.
Qed.


(** The scenario of the specification: with [max_num_reps = 3], action 1
    on four trial-ending steps in a row earns the ['correct'] reward three
    times and nothing the fourth time; a different action then starts a
    new streak of 1 and is rewarded. *)
Example four_repeats_then_switch :
  let rewarded := Ok (tt, 1%Q, false, Info.mk true (Some 1%Q) None) in
  let refused := Ok (tt, 0%Q, false, Info.mk true (Some 0%Q) None) in
  fst (step 1 alternation_run) = rewarded /\
  fst (step 1 (run [Step 1] alternation_run)) = rewarded /\
  fst (step 1 (run [Step 1; Step 1] alternation_run)) = rewarded /\
  fst (step 1 (run [Step 1; Step 1; Step 1] alternation_run)) = refused /\
  counter (run [Step 1; Step 1; Step 1; Step 1] alternation_run) = 4 /\
  fst (step 2 (run [Step 1; Step 1; Step 1; Step 1] alternation_run)) = rewarded /\
  counter (run [Step 1; Step 1; Step 1; Step 1; Step 2] alternation_run) = 1.
Proof. vm_compute. repeat split; reflexivity. Qed.

(** The neutral action 0 leaves the streak as it is. *)
Example neutral_action_keeps_streak :
  counter (run [Step 1; Step 1; Step 0] alternation_run) = 2 /\
  counter (run [Step 1; Step 1; Step 0; Step 1] alternation_run) = 3.
Proof. vm_compute. split; reflexivity. Qed.

(** C5, at a concrete controller. *)
Lemma phase_1_suppresses_failed_boundary_witness :
  fst (step 1 early_failure)
  = Ok (tt, 0%Q, false, Info.set_new_trial false (Info.mk true None None)) /\
  TrialEnv.t (env (snd (step 1 early_failure)))
  = (TrialEnv.t (snd (env__step 1 (env early_failure)))
     + TrialEnv.dt (snd (env__step 1 (env early_failure))))%Q /\
  TrialEnv.num_tr (env (snd (step 1 early_failure)))
  = TrialEnv.num_tr (snd (env__step 1 (env early_failure))) /\
  mov_window (snd (step 1 early_failure)) = mov_window early_failure /\
  curr_ph (snd (step 1 early_failure)) = 1.
Proof.
  apply (phase_1_suppresses_failed_boundary early_failure 1 tt 0%Q false
           (Info.mk true None None) (snd (env__step 1 (env early_failure)))).
  - reflexivity.
  - reflexivity.
  - reflexivity.
  - reflexivity.
  - simpl. discriminate.
Defined.

(** C5 as stated fails: when the wrong choice comes on the last step the
    trial has time for, the boundary the wrapper has just suppressed is
    forced again by the timeout rule; the step returns [new_trial] true and
    a new trial starts. *)
Lemma failed_boundary_at_timeout_not_suppressed :
  let s := run (repeat (Step 0) 29) late_failure in
  curr_ph s = 1 /\
  fst (fst (env__step 1 (env s))) = (tt, 0%Q, false) /\
  Info.new_trial (snd (fst (env__step 1 (env s)))) = true /\
  TrialEnv.performance (snd (env__step 1 (env s))) = 0%Q /\
  fst (step 1 s) = Ok (tt, (0 + 0)%Q, false, Info.mk true (Some 0%Q) None) /\
  fst (step 1 s)
  <> Ok (tt, 0%Q, false, Info.set_new_trial false (Info.mk true None None)) /\
  TrialEnv.num_tr (env s) = 0 /\
  TrialEnv.num_tr (env (snd (step 1 s))) = 1 /\
  mov_window (snd (step 1 s)) = [0%Q].
Proof. vm_compute. repeat split; try reflexivity. discriminate. Qed.

(** C6, at a concrete controller. *)
Lemma window_bounded_cleared_on_advance_witness :
  let s := run [Step 1; Step 1] variable_run in
  let w := mov_window s in
  let w' := tl (w ++ [performance s]) in
  let s' := snd (set_phase s) in
  perf_window s = 2 /\
  Z.of_nat (List.length w) <= 2 /\
  fst (set_phase s) = Ok tt /\
  (curr_ph s < 5 -> Z.of_nat (List.length w) < 2 ->
   s' = set_mov_window (w ++ [performance s]) s) /\
  (curr_ph s < 5 -> Z.of_nat (List.length w) = 2 ->
   curr_perf s' = np_mean w' /\
   (np_ge (np_mean w') (4 # 5) = true ->
    mov_window s' = [] /\ curr_ph s' = curr_ph s + 1) /\
   (np_ge (np_mean w') (4 # 5) = false ->
    mov_window s' = w' /\ curr_ph s' = curr_ph s)).
Proof.
  apply (window_bounded_cleared_on_advance
           (task task_rewards [(1, true, 1); (-1, true, 0); (1, true, 1)]%Q)
           2 3 2 (4 # 5) 2 [Step 1; Step 1]); lia.
Defined.

(** C6 as stated fails: with a window of 2 and a threshold of 0.8, the
    trials correct, wrong, correct fill the window and have the mean
    evaluated at the third trial, to 1/2; the window is not cleared and
    still holds the last two outcomes. *)
Lemma full_window_not_cleared_below_threshold :
  perf_window variable_run = 2 /\
  mov_window (run [Step 1; Step 1] variable_run) = [1; 0]%Q /\
  curr_perf (run [Step 1; Step 1; Step 1] variable_run) = Some (1 # 2) /\
  curr_ph (run [Step 1; Step 1; Step 1] variable_run) = 2 /\
  mov_window (run [Step 1; Step 1; Step 1] variable_run) = [0; 1]%Q /\
  mov_window (run [Step 1; Step 1; Step 1] variable_run) <> [].
Proof. vm_compute. repeat split; try reflexivity. discriminate. Qed.




(** C8, at a concrete controller: the third trial of phase 0. *)
Lemma forced_short_after_new_trial_witness :
  let s := run [Step 1; Step 1] alternation_run in
  let s' := snd (new_trial s) in
  fst (new_trial s) = Ok tt /\
  (forall k, In k (removelast (keys (TrialEnv.timing (env s')))) ->
   dict_get k (TrialEnv.timing (env s'))
   = Some ("constant"%string, Scalar (inject_Z (py_int (2 * 100))))) /\
  TrialEnv.sigma_dt (env s') = 0%Q.
Proof.
  apply (forced_short_after_new_trial
           (task task_rewards (repeat (0, true, 0)%Q 6)) 0 3 2 (4 # 5) 1000
           [Step 1; Step 1]).
  - lia.
  - apply task_timing_NoDup.
  - vm_compute. reflexivity.
Defined.



(** C10, at a concrete controller. *)
Lemma new_trial_resets_before_delegating_witness :
  let s := run [Step 1] variable_run in
  let s1 := snd (new_trial_setup s) in
  TrialEnv.performance (env s1) = 0%Q /\
  TrialEnv.t (env s1) = 0%Q /\
  TrialEnv.t_ind (env s1) = 0 /\
  TrialEnv.num_tr (env s1) = TrialEnv.num_tr (env s) + 1 /\
  new_trial s =
  match fst (new_trial_setup s) with
  | Ok _ => (Ok tt, set_env (env_new_trial (env s1)) s1)
  | Raise x => (Raise x, s1)
  end.
Proof.
  apply (new_trial_resets_before_delegating (run [Step 1] variable_run)).
  split; [reflexivity | vm_compute; discriminate].
Defined.

(** * Further properties of the wrapper *)

Ltac wrapper_fields :=
  cbn [env set_env curr_ph counter max_num_reps first_choice performance
       prev_act mov_window curr_perf short variable
       set_performance set_first_choice set_counter set_prev_act
       TrialEnv.t TrialEnv.t_ind TrialEnv.dt TrialEnv.tmax TrialEnv.r_tmax
       TrialEnv.rewards TrialEnv.performance TrialEnv.set_t
       TrialEnv.set_t_ind Info.new_trial Info.set_new_trial
       Info.set_performance Info.performance negb andb fst snd].

(** Runs [step] symbolically; [known] is what is known of a nested
    [new_trial], recorded for the state it starts from. *)
Ltac step_cases_knowing known :=
  repeat (mstep; rewrite ?bind_bind; unfold when; wrapper_fields;
          try match goal with
          | |- context [bind (count ?a) _ ?st] =>
              rewrite (bind_returns (count a) _ st _ tt (count_eq a st))
          | |- context [if ?b then _ else _] => destruct b eqn:?
          | |- context [match ?x with Some _ => _ | None => _ end] =>
              destruct x eqn:?
          | |- context [bind new_trial _ ?st] =>
              let Hn := fresh "Hn" in
              pose proof (known st) as Hn;
              unfold bind at 1; destruct (new_trial st) as [[[] | ?] ?];
              cbn [fst snd] in Hn
          end).

Section Progress.
Context {X Obs : Type} {E : WrappedEnv X Obs}.

(** X1.  Whatever calls follow, what [__init__] captured stays as captured:
    the original periods, the original jitter, the short duration, the
    thresholds, the window size and the repetition limit. *)
Theorem configuration_never_mutated (e : TrialEnv.state X)
    (init_ph mnr : Z) (sd th : Q) (pw : Z) (cs : list call) :
  let s := run cs (__init__ e init_ph mnr sd th pw) in
  ori_periods s = TrialEnv.timing e /\
  sigma_dt_ori s = TrialEnv.sigma_dt e /\
  short_dur s = py_int (sd * TrialEnv.dt e) /\
  goal_perf s = repeat th 5 /\
  perf_window s = pw /\
  max_num_reps s = mnr.
Proof.
  intros s.
  destruct (run_evolves cs (__init__ e init_ph mnr sd th pw))
    as ((H1 & H2 & H3 & H4 & H5 & H6) & _).
  fold s in H1, H2, H3, H4, H5, H6.
  repeat split; assumption.
Qed.

Lemma same_progress_refl (s : Shaping X) : same_progress s s.
Proof. repeat split; reflexivity. Qed.

Lemma same_progress_trans (s1 s2 s3 : Shaping X) :
  same_progress s1 s2 -> same_progress s2 s3 -> same_progress s1 s3.
Proof. unfold same_progress. intuition congruence. Qed.

Lemma install_timing_same_progress : preserves (@same_progress X) install_timing.
Proof.
  assert (Hr := @same_progress_refl). assert (Ht := @same_progress_trans).
  intros s. unfold install_timing.
  destruct (curr_ph s <? 2); [ | destruct ((2 <=? curr_ph s) && (curr_ph s <? 4))];
    revert s;
    unfold install_forced_short, install_short_variable, install_original,
      choose_jitter, modify_env;
    preserves_steps Hr Ht ltac:(repeat split; reflexivity).
Qed.

Lemma set_phase_advances (s : Shaping X) : advances s (snd (set_phase s)).
Proof.
  rewrite set_phase_eq. unfold advances.
  destruct (curr_ph s <? 5); [ | left; reflexivity].
  destruct (perf_window s <=? _); [ | left; reflexivity]. cbv zeta.
  destruct (py_index _ _); [ | left; reflexivity].
  destruct (np_ge _ _); [right; split | left]; reflexivity.
Qed.

Lemma new_trial_advances (s : Shaping X) : advances s (snd (new_trial s)).
Proof.
  rewrite new_trial_eq, new_trial_setup_eq.
  pose proof (set_phase_advances s) as Ha.
  destruct (set_phase s) as [[[] | x] s1]; cbn [snd] in *; [ | exact Ha].
  pose proof (install_timing_same_progress (reset_trial s1)) as (Hp & Hw & _).
  change (curr_ph (reset_trial s1)) with (curr_ph s1) in Hp.
  change (mov_window (reset_trial s1)) with (mov_window s1) in Hw.
  destruct (install_timing (reset_trial s1)) as [[[] | x] s2]; cbn [snd] in *;
    unfold advances in *; cbn [curr_ph mov_window set_env];
    rewrite Hp, Hw; exact Ha.
Qed.

Lemma step_advances (a : Z) (s : Shaping X) : advances s (snd (step a s)).
Proof.
  pose proof new_trial_advances as Hk.
  unfold step. mstep.
  destruct (curr_ph s <? 2).
  - unfold step_manual, modify_env. mstep.
    destruct (env__step a (env s)) as [[[[obs r] done] info] e'].
    step_cases_knowing Hk; cbn [fst snd];
      first [exact Hn | left; reflexivity].
  - unfold step_delegated. mstep.
    destruct (env_step a (env s)) as [[[[obs r] done] info] e'].
    step_cases_knowing Hk; cbn [fst snd];
      first [exact Hn | left; reflexivity].
Qed.

(** X2.  One call moves the phase by at most one, and a call that moves it
    leaves an empty window behind. *)
Theorem one_call_advances_at_most_one_phase (c : call) (s : Shaping X) :
  curr_ph (exec c s) = curr_ph s \/
  (curr_ph (exec c s) = curr_ph s + 1 /\ mov_window (exec c s) = []).
Proof.
  destruct c as [a | ]; cbn [exec];
    [apply step_advances | apply new_trial_advances].
Qed.

End Progress.

Section Steps.
Context {X Obs : Type} {E : WrappedEnv X Obs}.

(** X3.  The curriculum moves at trial boundaries only: a step that
    returns with [info['new_trial']] false has left the phase, the window,
    the evaluated mean, the regime flags and the streak as they were. *)
Theorem step_without_boundary_is_quiet (s : Shaping X) (a : Z)
    (obs : Obs) (r : Q) (done : bool) (info : Info.t) (s' : Shaping X) :
  step a s = (Ok (obs, r, done, info), s') ->
  Info.new_trial info = false ->
  curr_ph s' = curr_ph s /\
  mov_window s' = mov_window s /\
  curr_perf s' = curr_perf s /\
  short s' = short s /\
  variable s' = variable s /\
  counter s' = counter s /\
  prev_act s' = prev_act s.
Proof.
  intros Hstep Hnt.
  enough (Hq : quiet s s').
  { destruct Hq as ((H1 & H2 & H3) & H4 & H5 & H6 & H7).
    repeat split; assumption. }
  revert Hstep Hnt. unfold step. mstep.
  destruct (curr_ph s <? 2).
  - unfold step_manual, modify_env. mstep.
    destruct (env__step a (env s)) as [[[[obs0 r0] done0] info0] e'].
    step_cases_knowing (fun _ : Shaping X => I);
      intros Hstep Hnt; inversion Hstep; subst; cbn in Hnt;
      try congruence; repeat split; reflexivity.
  - unfold step_delegated. mstep.
    destruct (env_step a (env s)) as [[[[obs0 r0] done0] info0] e'].
    step_cases_knowing (fun _ : Shaping X => I);
      intros Hstep Hnt; inversion Hstep; subst; cbn in Hnt;
      try congruence; repeat split; reflexivity.
Qed.

(** X4.  Below phase 2, a step inside a trial (no boundary reported, the
    trial clock not past [tmax - dt]) returns what the wrapped [_step]
    returned with the reward floored at 0, and changes nothing but the
    trial clock, which it advances by one step. *)
Theorem manual_step_inside_trial (s : Shaping X) (a : Z)
    (obs : Obs) (r : Q) (done : bool) (info : Info.t) (e' : TrialEnv.state X) :
  curr_ph s < 2 ->
  env__step a (env s) = ((obs, r, done, info), e') ->
  Info.new_trial info = false ->
  (TrialEnv.t e' + TrialEnv.dt e' <= TrialEnv.tmax e' - TrialEnv.dt e')%Q ->
  step a s = (Ok (obs, py_max r 0, done, info), set_env (tick e') s).
Proof.
  intros Hp Hstep Hnt Ht.
  assert (Hg : py_gt (TrialEnv.t e' + TrialEnv.dt e')
                 (TrialEnv.tmax e' - TrialEnv.dt e') = false).
  { unfold py_gt. apply negb_false_iff. apply Qle_bool_iff. exact Ht. }
  unfold step. mstep. apply Z.ltb_lt in Hp. rewrite Hp.
  unfold step_manual, modify_env. mstep. rewrite Hstep. mrun.
  wrapper_fields. rewrite Hnt. mrun. wrapper_fields. rewrite Hg, Hnt.
  cbn [andb]. rewrite Hnt. reflexivity.
Qed.

(** X5.  Below phase 2, when the wrapped [_step] reports no boundary and
    the advanced trial clock is past [tmax - dt], the step forces the
    boundary: it runs [new_trial] and, unless that raises, returns
    [new_trial] true, the floored reward plus [r_tmax], and the performance
    tracked so far. *)
Theorem manual_step_times_out (s : Shaping X) (a : Z)
    (obs : Obs) (r : Q) (done : bool) (info : Info.t) (e' : TrialEnv.state X) :
  curr_ph s < 2 ->
  env__step a (env s) = ((obs, r, done, info), e') ->
  Info.new_trial info = false ->
  (TrialEnv.tmax e' - TrialEnv.dt e' < TrialEnv.t e' + TrialEnv.dt e')%Q ->
  step a s =
  match new_trial (set_env (tick e') s) with
  | (Ok _, s2) =>
      (Ok (obs, (py_max r 0 + TrialEnv.r_tmax e')%Q, done,
           Info.set_performance (performance s) (Info.set_new_trial true info)),
       s2)
  | (Raise x, s2) => (Raise x, s2)
  end.
Proof.
  intros Hp Hstep Hnt Ht.
  assert (Hg : py_gt (TrialEnv.t e' + TrialEnv.dt e')
                 (TrialEnv.tmax e' - TrialEnv.dt e') = true).
  { unfold py_gt. apply negb_true_iff. apply not_true_iff_false.
    intros H. apply Qle_bool_iff in H. lra. }
  unfold step. mstep. apply Z.ltb_lt in Hp. rewrite Hp.
  unfold step_manual, modify_env. mstep. rewrite Hstep. mrun.
  wrapper_fields. rewrite Hnt. mrun. wrapper_fields. rewrite Hg, Hnt.
  cbn [andb negb]. wrapper_fields. unfold bind, ret.
  change (set_env _ (set_env _ (set_env e' s))) with (set_env (tick e') s).
  destruct (new_trial (set_env (tick e') s)) as [[[] | x] s2]; reflexivity.
Qed.

(** X6.  In phase 1, at a boundary the wrapper keeps (the wrapped
    environment's performance is not zero), the trial's performance is the
    one of its first choice: the wrapped environment's if this is the first
    boundary reported in the trial, and otherwise the one recorded at the
    first.  The step runs [new_trial] and, unless that raises, returns the
    floored reward and that performance. *)
Theorem phase_1_first_choice_counts (s : Shaping X) (a : Z)
    (obs : Obs) (r : Q) (done : bool) (info : Info.t) (e' : TrialEnv.state X) :
  curr_ph s = 1 ->
  env__step a (env s) = ((obs, r, done, info), e') ->
  Info.new_trial info = true ->
  ~ (TrialEnv.performance e' == 0)%Q ->
  let p := if first_choice s then TrialEnv.performance e' else performance s in
  let st := if first_choice s
            then set_first_choice false
                   (set_performance (TrialEnv.performance e')
                      (set_env (tick e') s))
            else set_env (tick e') s in
  performance st = p /\
  step a s =
  match new_trial st with
  | (Ok _, s2) =>
      (Ok (obs, py_max r 0, done, Info.set_performance p info), s2)
  | (Raise x, s2) => (Raise x, s2)
  end.
Proof.
  intros H1 Hstep Hnt Hp p st.
  assert (Hf : py_falsy (TrialEnv.performance e') = false).
  { unfold py_falsy. apply not_true_iff_false. intros H.
    apply Hp. apply Qeq_bool_iff. exact H. }
  split; [subst p st; destruct (first_choice s); reflexivity | ].
  unfold step. mstep. rewrite H1. cbn [Z.ltb Z.compare Pos.compare Pos.compare_cont].
  unfold step_manual, modify_env. mstep. rewrite Hstep. mrun.
  wrapper_fields. rewrite H1, Hnt. cbn [Z.eqb Pos.eqb]. mrun. wrapper_fields.
  rewrite Hf. unfold when. wrapper_fields.
  subst p st.
  destruct (first_choice s) eqn:Hfc;
    repeat (progress (mrun; wrapper_fields; rewrite ?Hfc, ?Hnt, ?andb_false_r));
    unfold bind, ret;
    match goal with
    | |- context [new_trial ?x] =>
        match goal with
        | |- _ = match new_trial ?y with _ => _ end =>
            change x with y; destruct (new_trial y) as [[[] | z] s2]; reflexivity
        end
    end.
Qed.

Lemma new_trial_final_ok (s : Shaping X) :
  5 <= curr_ph s ->
  fst (new_trial s) = Ok tt /\
  same_progress s (snd (new_trial s)).
Proof.
  intros H5. rewrite new_trial_eq, new_trial_setup_eq, set_phase_eq.
  replace (curr_ph s <? 5) with false by (symmetry; apply Z.ltb_ge; lia).
  pose proof (install_timing_same_progress (reset_trial s)) as Hsp.
  unfold install_timing in *.
  change (curr_ph (reset_trial s)) with (curr_ph s) in *.
  replace (curr_ph s <? 2) with false in * by (symmetry; apply Z.ltb_ge; lia).
  replace (curr_ph s <? 4) with false in * by (symmetry; apply Z.ltb_ge; lia).
  rewrite andb_false_r in *.
  assert (Hok : fst (install_original (reset_trial s)) = Ok tt) by reflexivity.
  destruct (install_original (reset_trial s)) as [[[] | x] s2];
    cbn [fst snd] in *; [ | discriminate].
  split; [reflexivity | ].
  destruct Hsp as (A & B & D). repeat split; assumption.
Qed.

(** X7.  From phase 5 on, [step] hands back exactly what the wrapped
    environment's [step] returned, reward included, and the phase and the
    window no longer change. *)
Theorem final_phase_passes_through (s : Shaping X) (a : Z)
    (obs : Obs) (r : Q) (done : bool) (info : Info.t) (e' : TrialEnv.state X) :
  5 <= curr_ph s ->
  env_step a (env s) = ((obs, r, done, info), e') ->
  (Info.new_trial info = true -> Info.performance info <> None) ->
  fst (step a s) = Ok (obs, r, done, info) /\
  curr_ph (snd (step a s)) = curr_ph s /\
  mov_window (snd (step a s)) = mov_window s.
Proof.
  intros H5 Hstep Hperf.
  unfold step. mstep.
  replace (curr_ph s <? 2) with false by (symmetry; apply Z.ltb_ge; lia).
  unfold step_delegated. mstep. rewrite Hstep. mrun. wrapper_fields.
  replace (curr_ph s <? 5) with false by (symmetry; apply Z.ltb_ge; lia).
  rewrite andb_false_r.
  destruct (Info.new_trial info) eqn:Hnt; [ | repeat split; reflexivity].
  destruct (Info.performance info) as [p | ]; [ | exfalso; apply Hperf; reflexivity].
  mrun.
  destruct (new_trial_final_ok (set_performance p (set_env e' s)) H5)
    as (Hok & Hp & Hw & _).
  unfold bind, ret.
  destruct (new_trial (set_performance p (set_env e' s))) as [[[] | x] s2];
    cbn [fst snd] in *; [ | discriminate].
  repeat split; assumption.
Qed.

(** X8.  From phase 2 on, a boundary reported without a performance in
    [info] makes [step] raise [KeyError]: the wrapped environment has
    stepped, and no new trial is started. *)
Theorem delegated_boundary_needs_performance (s : Shaping X) (a : Z)
    (obs : Obs) (r : Q) (done : bool) (info : Info.t) (e' : TrialEnv.state X) :
  2 <= curr_ph s ->
  env_step a (env s) = ((obs, r, done, info), e') ->
  Info.new_trial info = true ->
  Info.performance info = None ->
  step a s = (Raise KeyError, set_env e' s).
Proof.
  intros H2 Hstep Hnt Hperf.
  unfold step. mstep.
  replace (curr_ph s <? 2) with false by (symmetry; apply Z.ltb_ge; lia).
  unfold step_delegated. mstep. rewrite Hstep. mrun.
  rewrite Hnt, Hperf. reflexivity.
Qed.

End Steps.

Section Bookkeeping.
Context {X Obs : Type} {E : WrappedEnv X Obs}.

Lemma frozen_refl (s : Shaping X) : frozen s s.
Proof. split; [reflexivity | auto]. Qed.

Lemma frozen_trans (s1 s2 s3 : Shaping X) :
  frozen s1 s2 -> frozen s2 s3 -> frozen s1 s3.
Proof.
  intros (A1 & A2) (B1 & B2). split; [congruence | ].
  intros Hp Hw. destruct (A2 Hp Hw) as (A3 & A4).
  rewrite A1 in B2. destruct (B2 Hp A4) as (B3 & B4).
  split; [congruence | exact B4].
Qed.

Lemma set_phase_frozen : preserves (@frozen X) set_phase.
Proof.
  intros s. rewrite set_phase_eq.
  destruct (curr_ph s <? 5); [ | apply frozen_refl].
  destruct (perf_window s <=? Z.of_nat (List.length (mov_window s))) eqn:Hw.
  - cbv zeta.
    destruct (py_index _ _) as [g | x].
    + destruct (np_ge (np_mean (tl (mov_window s ++ [performance s]))) g) eqn:Hge;
        (split; [reflexivity | ]); intros Hp Hmt; rewrite Hmt in *;
        cbn in Hge |- *; [discriminate | auto].
    + split; [reflexivity | ]. intros Hp Hmt. rewrite Hmt. cbn. auto.
  - split; [reflexivity | ]. intros Hp Hmt. rewrite Hmt in Hw. cbn in Hw.
    apply Z.leb_gt in Hw. lia.
Qed.

Ltac frozen_leaf := split; [reflexivity | intros; split; cbn; assumption || reflexivity].

Lemma new_trial_frozen : preserves (@frozen X) new_trial.
Proof.
  assert (Hr := @frozen_refl). assert (Ht := @frozen_trans).
  assert (Hs := set_phase_frozen).
  unfold new_trial, new_trial_setup, install_forced_short,
    install_short_variable, install_original, choose_jitter, modify_env.
  preserves_steps Hr Ht ltac:(split; [reflexivity | intros ? ?; split; assumption || reflexivity]).
Qed.

Lemma step_frozen a : preserves (@frozen X) (step a).
Proof.
  assert (Hr := @frozen_refl). assert (Ht := @frozen_trans).
  assert (Hn := new_trial_frozen).
  unfold step, step_manual, step_delegated, count, modify_env.
  preserves_steps Hr Ht ltac:(split; [reflexivity | intros ? ?; split; assumption || reflexivity]).
Qed.

(** X9.  A window size of zero or less switches the curriculum off: the
    window stays empty, its mean is never a number, and the phase stays
    the initial one whatever the trials are. *)
Theorem nonpositive_window_freezes_phase (e : TrialEnv.state X)
    (init_ph mnr : Z) (sd th : Q) (pw : Z) (cs : list call) :
  pw <= 0 ->
  curr_ph (run cs (__init__ e init_ph mnr sd th pw)) = init_ph /\
  mov_window (run cs (__init__ e init_ph mnr sd th pw)) = [].
Proof.
  intros Hpw.
  assert (H : forall cs (s : Shaping X), frozen s (run cs s)).
  { clear. intros cs. induction cs as [ | c cs IH]; intros s; simpl.
    - apply frozen_refl.
    - apply (frozen_trans s (exec c s)); [ | apply IH].
      destruct c; simpl; [apply step_frozen | apply new_trial_frozen]. }
  destruct (H cs (__init__ e init_ph mnr sd th pw)) as (_ & Hf).
  apply Hf; [exact Hpw | reflexivity].
Qed.

Lemma same_outcome_refl (s : Shaping X) : same_outcome s s.
Proof. split; reflexivity. Qed.

Lemma same_outcome_trans (s1 s2 s3 : Shaping X) :
  same_outcome s1 s2 -> same_outcome s2 s3 -> same_outcome s1 s3.
Proof. unfold same_outcome. intuition congruence. Qed.

Lemma install_timing_same_outcome : preserves (@same_outcome X) install_timing.
Proof.
  assert (Hr := @same_outcome_refl). assert (Ht := @same_outcome_trans).
  intros s. unfold install_timing.
  destruct (curr_ph s <? 2); [ | destruct ((2 <=? curr_ph s) && (curr_ph s <? 4))];
    revert s;
    unfold install_forced_short, install_short_variable, install_original,
      choose_jitter, modify_env;
    preserves_steps Hr Ht ltac:(split; reflexivity).
Qed.

(** [new_trial] leaves the per-trial bookkeeping reset. *)
Lemma new_trial_resets_outcome (s : Shaping X) :
  well_formed s ->
  performance (snd (new_trial s)) = 0%Q /\
  first_choice (snd (new_trial s)) = true.
Proof.
  intros Hwf. rewrite new_trial_eq, new_trial_setup_eq.
  pose proof (set_phase_ok s Hwf) as Hok.
  destruct (set_phase s) as [[[] | x] s1]; cbn [fst] in Hok; [ | discriminate].
  destruct (install_timing_same_outcome (reset_trial s1)) as (Hp & Hf).
  change (performance (reset_trial s1)) with 0%Q in Hp.
  change (first_choice (reset_trial s1)) with true in Hf.
  destruct (install_timing (reset_trial s1)) as [[[] | x] s2];
    cbn [snd] in *; split; assumption.
Qed.

Lemma step_keeps_performance_zero (a : Z) (s : Shaping X) :
  well_formed s ->
  (performance s == 0)%Q ->
  (performance (snd (step a s)) == 0)%Q.
Proof.
  intros Hwf H0.
  assert (Hk : forall st : Shaping X,
             well_formed st -> performance (snd (new_trial st)) = 0%Q).
  { intros st Hst. apply (new_trial_resets_outcome st Hst). }
  unfold step. mstep.
  destruct (curr_ph s <? 2).
  - unfold step_manual, modify_env. mstep.
    destruct (env__step a (env s)) as [[[[obs r] done] info] e'].
    step_cases_knowing Hk; unfold ret; cbn [fst snd]; wrapper_fields;
      first [ rewrite (Hn Hwf); reflexivity
            | exact H0
            | congruence
            | match goal with
              | H : py_falsy _ = true |- _ => apply Qeq_bool_iff in H; exact H
              end
            | reflexivity ].
  - unfold step_delegated. mstep.
    destruct (env_step a (env s)) as [[[[obs r] done] info] e'].
    step_cases_knowing Hk; unfold ret; cbn [fst snd]; wrapper_fields;
      first [ rewrite (Hn Hwf); reflexivity
            | exact H0
            | congruence
            | match goal with
              | H : py_falsy _ = true |- _ => apply Qeq_bool_iff in H; exact H
              end
            | reflexivity ].
Qed.

(** X10.  Between calls the tracked trial performance is zero: every call
    that records an outcome hands it to [new_trial], which resets it, and
    the only outcome kept across steps is the zero of a suppressed
    phase-1 boundary.  So a boundary forced by the timeout rule always
    reports performance 0. *)
Theorem tracked_performance_zero_between_calls (e : TrialEnv.state X)
    (init_ph mnr : Z) (sd th : Q) (pw : Z) (cs : list call) :
  0 <= init_ph ->
  (performance (run cs (__init__ e init_ph mnr sd th pw)) == 0)%Q.
Proof.
  intros Hi.
  assert (H : forall cs (s : Shaping X),
             well_formed s -> (performance s == 0)%Q ->
             (performance (run cs s) == 0)%Q).
  { clear. intros cs. induction cs as [ | c cs IH]; intros s Hwf H0; simpl.
    - exact H0.
    - apply IH.
      + apply (evolves_well_formed s); [apply exec_evolves | exact Hwf].
      + destruct c as [a | ]; simpl.
        * apply step_keeps_performance_zero; assumption.
        * rewrite (proj1 (new_trial_resets_outcome s Hwf)). reflexivity. }
  apply H; [apply init_well_formed; exact Hi | reflexivity].
Qed.

End Bookkeeping.

Section Failures.
Context {X Obs : Type} {E : WrappedEnv X Obs}.

Lemma install_forced_short_returns (s : Shaping X) :
  fst (install_forced_short s) = Ok tt.
Proof.
  unfold install_forced_short, modify_env. mrun.
  destruct (negb (short (set_env (TrialEnv.set_sigma_dt 0 (env s)) s)));
    mrun; reflexivity.
Qed.

Lemma choose_jitter_returns (s : Shaping X) :
  fst (choose_jitter s) = Ok tt /\
  TrialEnv.timing (env (snd (choose_jitter s))) = TrialEnv.timing (env s) /\
  short (snd (choose_jitter s)) = short s /\
  variable (snd (choose_jitter s)) = variable s.
Proof.
  unfold choose_jitter, modify_env, when. mrun.
  destruct (curr_ph s =? 2); [ | destruct (curr_ph s =? 3)]; mrun;
    repeat split; reflexivity.
Qed.

(** The phase 2-3 branch raises only while rescaling, before anything is
    installed; once both regime flags are set it does not rescale. *)
Lemma install_short_variable_cases (s : Shaping X) :
  (forall x, fst (install_short_variable s) = Raise x ->
   env (snd (install_short_variable s)) = env s /\
   short (snd (install_short_variable s)) = true /\
   variable (snd (install_short_variable s)) = true) /\
  (short s = true -> variable s = true ->
   fst (install_short_variable s) = Ok tt /\
   TrialEnv.timing (env (snd (install_short_variable s)))
   = TrialEnv.timing
       (env_build_timing_fns (TrialEnv.timing (env s)) (env s))).
Proof.
  unfold install_short_variable, modify_env. mrun.
  destruct (short s) eqn:Hs; destruct (variable s) eqn:Hv; cbn [negb orb];
    mrun; unfold lift;
    cbn [env short_dur ori_periods change_periods set_short set_variable].
  1: { match goal with
       | |- context [choose_jitter ?st] =>
           destruct (choose_jitter_returns st) as (Hok & Ht & _)
       end.
       unfold bind in *.
       destruct (choose_jitter _) as [[[] | y] s2]; cbn [fst snd] in *;
         [ | discriminate].
       split; [intros x Hx; discriminate Hx | ].
       intros _ _. split; [reflexivity | exact Ht]. }
  all: (split; [ | intros; discriminate]);
    destruct (shorten_variable _ _ _ _ _) as [tm | y];
    [ rewrite (bind_returns _ _ _ _ tm (eq_refl _)); mrun;
      match goal with
      | |- context [choose_jitter ?st] =>
          destruct (choose_jitter_returns st) as (Hok & _)
      end;
      unfold bind in *;
      destruct (choose_jitter _) as [[[] | z] s2]; cbn [fst snd] in *;
        [intros x Hx; discriminate Hx | discriminate]
    | rewrite (bind_raises _ _ _ _ y (eq_refl _)); cbn [fst snd];
      intros x _; repeat split; reflexivity ].
Qed.

Lemma install_timing_raises (s : Shaping X) (x : exn) :
  fst (install_timing s) = Raise x ->
  env (snd (install_timing s)) = env s /\
  short (snd (install_timing s)) = true /\
  variable (snd (install_timing s)) = true /\
  2 <= curr_ph s < 4.
Proof.
  unfold install_timing.
  destruct (curr_ph s <? 2) eqn:H2.
  - rewrite install_forced_short_returns. discriminate.
  - destruct ((2 <=? curr_ph s) && (curr_ph s <? 4)) eqn:H4.
    + intros Hx. destruct (proj1 (install_short_variable_cases s) x Hx)
        as (A & B & D).
      apply andb_true_iff in H4. destruct H4 as (H4 & H5).
      apply Z.leb_le in H4. apply Z.ltb_lt in H5.
      repeat split; try assumption; lia.
    + unfold install_original, modify_env. mrun. discriminate.
Qed.

Lemma new_trial_failure (s : Shaping X) (x : exn) :
  fst (new_trial s) = Raise x ->
  TrialEnv.timing (env (snd (new_trial s))) = TrialEnv.timing (env s) /\
  TrialEnv.sigma_dt (env (snd (new_trial s))) = TrialEnv.sigma_dt (env s) /\
  (well_formed s ->
   2 <= curr_ph (snd (new_trial s)) < 4 /\
   short (snd (new_trial s)) = true /\
   variable (snd (new_trial s)) = true).
Proof.
  rewrite new_trial_eq, new_trial_setup_eq.
  pose proof (set_phase_env s) as He. pose proof (set_phase_ok s) as Hok.
  destruct (set_phase s) as [[[] | y] s1]; cbn [fst snd] in *.
  - pose proof (install_timing_raises (reset_trial s1)) as Hr.
    pose proof (install_timing_same_progress (reset_trial s1)) as (Hp & _).
    destruct (install_timing (reset_trial s1)) as [[[] | z] s2];
      cbn [fst snd] in *; [discriminate | ].
    intros Hx. destruct (Hr z eq_refl) as (A & B & D & F).
    rewrite A. unfold reset_trial. cbn. rewrite He.
    split; [reflexivity | ]. split; [reflexivity | ].
    intros _. rewrite Hp. repeat split; try assumption; apply F.
  - intros _. rewrite He. split; [reflexivity | ]. split; [reflexivity | ].
    intros Hwf. specialize (Hok Hwf). discriminate.
Qed.

(** X11.  When [new_trial] raises, nothing has been installed: the wrapped
    environment's timing and jitter are the ones it had before the call.
    On a well-formed controller the call can only raise while rescaling
    the original periods for phase 2 or 3, and it leaves both regime flags
    set. *)
Theorem failed_new_trial_installs_nothing (s : Shaping X) (x : exn) :
  fst (new_trial s) = Raise x ->
  TrialEnv.timing (env (snd (new_trial s))) = TrialEnv.timing (env s) /\
  TrialEnv.sigma_dt (env (snd (new_trial s))) = TrialEnv.sigma_dt (env s) /\
  (well_formed s ->
   2 <= curr_ph (snd (new_trial s)) < 4 /\
   short (snd (new_trial s)) = true /\
   variable (snd (new_trial s)) = true).
Proof. exact (new_trial_failure s x). Qed.

Lemma set_phase_flags (s : Shaping X) :
  short (snd (set_phase s)) = short s /\
  variable (snd (set_phase s)) = variable s.
Proof.
  rewrite set_phase_eq.
  destruct (curr_ph s <? 5); [ | split; reflexivity].
  destruct (perf_window s <=? _); [ | split; reflexivity]. cbv zeta.
  destruct (py_index _ _); [destruct (np_ge _ _) | ]; split; reflexivity.
Qed.

Lemma new_trial_after_failure_ok (s : Shaping X) (x : exn) :
  well_formed s ->
  fst (new_trial s) = Raise x ->
  fst (new_trial (snd (new_trial s))) = Ok tt.
Proof.
  intros Hwf Hx.
  destruct (new_trial_failure s x Hx) as (_ & _ & Hfl).
  destruct (Hfl Hwf) as (_ & Hs & Hv).
  assert (Hwf1 : well_formed (snd (new_trial s))).
  { apply (evolves_well_formed s); [apply new_trial_evolves | exact Hwf]. }
  set (s1 := snd (new_trial s)) in *.
  rewrite new_trial_eq, new_trial_setup_eq.
  pose proof (set_phase_ok s1 Hwf1) as Hok.
  destruct (set_phase_flags s1) as (Fs & Fv).
  destruct (set_phase s1) as [[[] | y] s2]; cbn [fst snd] in *; [ | discriminate].
  assert (Hi : fst (install_timing (reset_trial s2)) = Ok tt).
  { unfold install_timing.
    destruct (curr_ph (reset_trial s2) <? 2);
      [apply install_forced_short_returns | ].
    destruct ((2 <=? curr_ph (reset_trial s2)) && (curr_ph (reset_trial s2) <? 4));
      [ | reflexivity].
    apply (proj2 (install_short_variable_cases (reset_trial s2))).
    - change (short (reset_trial s2)) with (short s2). congruence.
    - change (variable (reset_trial s2)) with (variable s2). congruence. }
  destruct (install_timing (reset_trial s2)) as [[[] | z] s3]; cbn [fst] in *;
    [reflexivity | discriminate].
Qed.

End Failures.

(** X11, at a concrete controller: the fixation period cannot be rescaled. *)
Lemma failed_new_trial_installs_nothing_witness :
  fst (new_trial unscalable_run) = Raise ZeroDivisionError /\
  TrialEnv.timing (env (snd (new_trial unscalable_run))) = unscalable_timing /\
  TrialEnv.sigma_dt (env (snd (new_trial unscalable_run))) = (1 # 2)%Q /\
  (well_formed unscalable_run ->
   2 <= curr_ph (snd (new_trial unscalable_run)) < 4 /\
   short (snd (new_trial unscalable_run)) = true /\
   variable (snd (new_trial unscalable_run)) = true).
Proof.
  split; [reflexivity | ].
  apply (failed_new_trial_installs_nothing unscalable_run ZeroDivisionError).
  reflexivity.
Defined.

(** ** Further properties of the installed timing *)

Lemma dict_get_none_not_in {V : Type} (k : string) (d : dict V) :
  dict_get k d = None -> ~ In k (keys d).
Proof.
  induction d as [ | [k1 v1] r IH]; simpl; intros H; [tauto | ].
  destruct (String.eqb k k1) eqn:H1; [discriminate | ].
  apply String.eqb_neq in H1. intros [Hk | Hk]; [congruence | ].
  exact (IH H Hk).
Qed.

(** Two dictionaries with the same keys in the same order and the same
    value under each key are the same. *)
Lemma dict_ext {V : Type} (d1 d2 : dict V) :
  NoDup (keys d1) ->
  keys d1 = keys d2 ->
  (forall k, dict_get k d1 = dict_get k d2) ->
  d1 = d2.
Proof.
  revert d2. induction d1 as [ | [k1 v1] r1 IH]; intros [ | [k2 v2] r2] Hn Hk Hg;
    try discriminate; [reflexivity | ].
  simpl in Hk. inversion Hk; subst. inversion Hn as [ | x l Hnot Hr]; subst.
  pose proof (Hg k2) as H2. simpl in H2. rewrite String.eqb_refl in H2.
  inversion H2; subst. f_equal. apply IH; [exact Hr | assumption | ].
  intros k. specialize (Hg k). simpl in Hg.
  destruct (String.eqb k k2) eqn:He; [ | exact Hg].
  apply String.eqb_eq in He. subst k.
  rewrite (dict_get_not_in k2 r1 Hnot).
  symmetry. apply dict_get_not_in. rewrite <- H1. exact Hnot.
Qed.

Lemma dict_update_same_keys {V : Type} (d u : dict V) :
  NoDup (keys u) -> keys d = keys u -> dict_update d u = u.
Proof.
  intros Hn Hk. apply dict_ext.
  - rewrite keys_update_same; [rewrite Hk; exact Hn | rewrite Hk; apply incl_refl].
  - rewrite keys_update_same; [exact Hk | rewrite Hk; apply incl_refl].
  - intros k. rewrite (dict_get_update k d u Hn).
    destruct (dict_get k u) eqn:Hg; [reflexivity | ].
    apply dict_get_not_in. rewrite Hk. apply dict_get_none_not_in. exact Hg.
Qed.

Section Regimes.
Context {X Obs : Type} {E : WrappedEnv X Obs} {C : TimingContract E}.

Lemma new_trial_setup_phase (s : Shaping X) :
  curr_ph (snd (new_trial s)) = curr_ph (reset_trial (snd (set_phase s))) /\
  (fst (set_phase s) = Ok tt ->
   snd (new_trial_setup s) = snd (install_timing (reset_trial (snd (set_phase s)))) /\
   fst (new_trial_setup s) = fst (install_timing (reset_trial (snd (set_phase s))))).
Proof.
  rewrite new_trial_eq, new_trial_setup_eq.
  destruct (set_phase s) as [[[] | y] s1]; cbn [fst snd].
  - pose proof (install_timing_same_progress (reset_trial s1)) as (Hp & _).
    destruct (install_timing (reset_trial s1)) as [[[] | z] s2]; cbn [fst snd] in *;
      (split; [exact Hp | intros _; split; reflexivity]).
  - split; [reflexivity | intros H; discriminate H].
Qed.

Lemma install_original_eq (s : Shaping X) :
  install_original s =
  (Ok tt,
   set_env (env_build_timing_fns (ori_periods s)
              (TrialEnv.set_sigma_dt (sigma_dt_ori s) (env s))) s).
Proof. reflexivity. Qed.

(** X12.  After any [new_trial] that leaves the controller in phase 4 or 5,
    the environment's timing is the original one, whole, and the jitter is
    the original jitter; the call returns.  The wrapped environment is
    assumed to keep its contract. *)
Theorem original_timing_after_new_trial (e : TrialEnv.state X)
    (init_ph mnr : Z) (sd th : Q) (pw : Z) (cs : list call) :
  0 <= init_ph ->
  NoDup (keys (TrialEnv.timing e)) ->
  let s := run cs (__init__ e init_ph mnr sd th pw) in
  let s' := snd (new_trial s) in
  4 <= curr_ph s' ->
  fst (new_trial s) = Ok tt /\
  TrialEnv.timing (env s') = TrialEnv.timing e /\
  TrialEnv.sigma_dt (env s') = TrialEnv.sigma_dt e.
Proof.
  intros H0 Hn s s' H4.
  destruct (run_keeps_inv cs _ (init_timing_inv e init_ph mnr sd th pw H0 Hn))
    as (Hi & Hori & _). fold s in Hi, Hori. cbn in Hori.
  assert (Hso : sigma_dt_ori s = TrialEnv.sigma_dt e).
  { destruct (run_evolves cs (__init__ e init_ph mnr sd th pw))
      as ((_ & _ & _ & _ & _ & Hs) & _). exact Hs. }
  destruct (set_phase_timing_inv s Hi) as (Hok & Hi1 & Hsame & He).
  destruct (new_trial_setup_phase s) as (Hph & Hsetup).
  fold s' in Hph. subst s'.
  rewrite new_trial_eq in *. destruct (Hsetup Hok) as (Hs2 & Hf2).
  set (s1 := snd (set_phase s)) in *.
  assert (H41 : 4 <= curr_ph s1) by (rewrite Hph in H4; exact H4).
  assert (Hinst : install_timing (reset_trial s1) = install_original (reset_trial s1)).
  { unfold install_timing. change (curr_ph (reset_trial s1)) with (curr_ph s1).
    replace (curr_ph s1 <? 2) with false by (symmetry; apply Z.ltb_ge; lia).
    replace (curr_ph s1 <? 4) with false by (symmetry; apply Z.ltb_ge; lia).
    rewrite andb_false_r. reflexivity. }
  rewrite Hinst in Hs2, Hf2.
  destruct (new_trial_setup s) as [r s2]. cbn [fst snd] in *. subst r s2.
  rewrite install_original_eq. cbn [fst snd].
  destruct Hsame as (_ & _ & _ & _ & Ho1 & Ht1 & _).
  destruct Hi1 as (_ & Hn1 & Hk1 & _).
  split; [reflexivity | ].
  destruct (new_trial_frame
              (env_build_timing_fns (ori_periods (reset_trial s1))
                 (TrialEnv.set_sigma_dt (sigma_dt_ori (reset_trial s1))
                    (env (reset_trial s1))))) as ((Ntm & _) & Nsg).
  destruct (build_timing_fns_frame (ori_periods (reset_trial s1))
              (TrialEnv.set_sigma_dt (sigma_dt_ori (reset_trial s1))
                 (env (reset_trial s1)))) as (_ & Bsg & _).
  cbn [env set_env ori_periods sigma_dt_ori] in *.
  rewrite Ntm, Nsg, Bsg, build_timing_fns_timing.
  change (ori_periods (reset_trial s1)) with (ori_periods s1).
  change (sigma_dt_ori (reset_trial s1)) with (sigma_dt_ori s1).
  change (TrialEnv.timing (TrialEnv.set_sigma_dt (sigma_dt_ori s1) (env (reset_trial s1))))
    with (TrialEnv.timing (env s1)).
  split.
  - rewrite dict_update_same_keys; [congruence | exact Hn1 | exact Hk1].
  - cbn. destruct (run_evolves cs (__init__ e init_ph mnr sd th pw)) as (_ & _).
    pose proof (set_phase_evolves s) as ((_ & _ & _ & _ & _ & Hs1) & _).
    fold s1 in Hs1. congruence.
Qed.

End Regimes.

Section LastPeriod.
Context {X Obs : Type} {E : WrappedEnv X Obs} {C : TimingContract E}.

Lemma dict_update_get_kept {V : Type} (k : string) (d u ori : dict V) :
  NoDup (keys u) ->
  dict_get k d = dict_get k ori ->
  dict_get k u = dict_get k ori ->
  dict_get k (dict_update d u) = dict_get k ori.
Proof.
  intros Hn Hd Hu. rewrite (dict_get_update k d u Hn), Hu.
  destruct (dict_get k ori); [reflexivity | congruence].
Qed.

Lemma install_timing_untouched (s : Shaping X) (k : string) :
  NoDup (keys (ori_periods s)) ->
  keys (TrialEnv.timing (env s)) = keys (ori_periods s) ->
  py_in k (change_periods s) = false ->
  dict_get k (TrialEnv.timing (env s)) = dict_get k (ori_periods s) ->
  dict_get k (TrialEnv.timing (env (snd (install_timing s))))
  = dict_get k (ori_periods s).
Proof.
  intros Hn Hk Hc Hg.
  assert (Hnt : NoDup (keys (TrialEnv.timing (env s)))) by (rewrite Hk; exact Hn).
  unfold install_timing.
  destruct (curr_ph s <? 2); [ | destruct ((2 <=? curr_ph s) && (curr_ph s <? 4))].
  - unfold install_forced_short, modify_env. mrun.
    destruct (negb (short (set_env (TrialEnv.set_sigma_dt 0 (env s)) s))); mrun.
    all: unfold modify;
      cbn [fst snd env set_env set_short set_variable ori_periods change_periods
           short_dur];
      rewrite build_timing_fns_timing; cbn [TrialEnv.timing TrialEnv.set_sigma_dt].
    + apply dict_update_get_kept; [ | exact Hg | ].
      * rewrite force_short_keys; [exact Hnt | rewrite Hk; apply incl_refl].
      * rewrite force_short_get, Hc, andb_false_r. exact Hg.
    + apply dict_update_get_kept; [exact Hnt | exact Hg | exact Hg].
  - unfold install_short_variable, modify_env. mrun.
    destruct (negb (short s) || negb (variable s)).
    + mrun. unfold lift.
      cbn [env short_dur ori_periods change_periods set_short set_variable].
      destruct (shorten_variable (ori_periods s) (change_periods s) (short_dur s)
                  (TrialEnv.dt (env s)) (TrialEnv.timing (env s)))
        as [tm' | x] eqn:Hsv.
      * change (fun s0 : Shaping X => (Ok tm', s0)) with (@ret (Shaping X) _ tm').
        mrun. unfold modify. cbn [fst snd].
        match goal with
        | |- context [choose_jitter ?st] =>
            destruct (choose_jitter_returns st) as (_ & Htm & _)
        end.
        rewrite Htm. cbn [env set_env set_short set_variable].
        rewrite build_timing_fns_timing.
        apply dict_update_get_kept; [ | exact Hg | ].
        -- rewrite (shorten_variable_keys _ _ _ _ _ _ Hsv);
             [exact Hnt | rewrite Hk; apply incl_refl].
        -- pose proof (shorten_variable_get k _ _ _ _ _ _ Hsv Hn) as Hget.
           rewrite Hc in Hget.
           destruct (dict_get k (ori_periods s)); rewrite Hget; exact Hg.
      * change (fun s0 : Shaping X => (@Raise timing_spec x, s0))
          with (@raise (Shaping X) timing_spec x).
        rewrite bind_raise. exact Hg.
    + mrun. unfold modify. cbn [fst snd].
      match goal with
      | |- context [choose_jitter ?st] =>
          destruct (choose_jitter_returns st) as (_ & Htm & _)
      end.
      rewrite Htm. cbn [env set_env set_short set_variable].
        rewrite build_timing_fns_timing.
      apply dict_update_get_kept; [exact Hnt | exact Hg | exact Hg].
  - rewrite install_original_eq. cbn [fst snd env set_env].
    rewrite build_timing_fns_timing. cbn [TrialEnv.timing TrialEnv.set_sigma_dt].
    apply dict_update_get_kept; [exact Hn | exact Hg | reflexivity].
Qed.

Lemma keeps_untouched_refl (s : Shaping X) : keeps_untouched s s.
Proof. intros H. split; [exact H | reflexivity]. Qed.

Lemma keeps_untouched_trans (s1 s2 s3 : Shaping X) :
  keeps_untouched s1 s2 -> keeps_untouched s2 s3 -> keeps_untouched s1 s3.
Proof.
  intros H12 H23 H1. destruct (H12 H1) as (H2 & Ho2).
  destruct (H23 H2) as (H3 & Ho3). split; [exact H3 | congruence].
Qed.

Lemma keeps_untouched_same (s s' : Shaping X) :
  same_installed s s' -> curr_ph s' = curr_ph s -> keeps_untouched s s'.
Proof.
  intros Hs Hp (Hi & Hu).
  pose proof Hs as (_ & _ & _ & _ & Ho & Ht & _).
  split; [split | exact Ho].
  - apply (timing_inv_transfer 2 2 s); [exact Hs | lia | exact Hi].
  - intros k Hk. rewrite Ht, Ho. apply Hu. rewrite <- Ho. exact Hk.
Qed.

Ltac keeps_untouched_leaf :=
  apply keeps_untouched_same; [repeat split; reflexivity | reflexivity].

Lemma count_keeps_untouched a : preserves (@keeps_untouched X) (count a).
Proof.
  assert (Hr := @keeps_untouched_refl). assert (Ht := @keeps_untouched_trans).
  unfold count. preserves_steps Hr Ht keeps_untouched_leaf.
Qed.

Lemma new_trial_keeps_untouched : preserves (@keeps_untouched X) new_trial.
Proof.
  intros s (Hi & Hu).
  destruct (new_trial_spec s Hi) as (Hi' & Ho' & _).
  split; [split; [exact Hi' | ] | exact Ho'].
  intros k Hk. rewrite Ho' in *.
  destruct (set_phase_timing_inv s Hi) as (Hok & Hi1 & Hsame & He).
  destruct (new_trial_setup_phase s) as (_ & Hsetup).
  destruct (Hsetup Hok) as (Hs2 & Hf2).
  set (s1 := snd (set_phase s)) in *.
  destruct (reset_trial_spec s1) as (Hrs & _ & Hcp & _).
  pose proof Hsame as (_ & _ & _ & _ & Ho1 & Ht1 & _).
  pose proof Hrs as (_ & _ & _ & _ & Hor & Htr & _).
  destruct Hi1 as (_ & Hn1 & Hk1 & _).
  assert (Htm : TrialEnv.timing (env (snd (new_trial s)))
                = TrialEnv.timing (env (snd (install_timing (reset_trial s1))))).
  { rewrite new_trial_eq, <- Hs2.
    destruct (new_trial_setup s) as [[[] | x] s2]; cbn [fst snd env set_env];
      [ | reflexivity].
    destruct (new_trial_frame (env s2)) as ((Ht & _) & _). exact Ht. }
  rewrite Htm.
  rewrite (install_timing_untouched (reset_trial s1) k).
  - congruence.
  - rewrite Hor. exact Hn1.
  - rewrite Hor, Htr. exact Hk1.
  - rewrite Hcp. destruct (py_in k (changed_periods (ori_periods s1))) eqn:Hin;
      [ | reflexivity].
    apply py_in_iff in Hin. rewrite Ho1 in Hin. contradiction.
  - rewrite Hor, Htr, Ht1, Ho1. apply Hu. exact Hk.
Qed.

Lemma env_step_keeps_untouched (s : Shaping X) (e' : TrialEnv.state X) :
  keeps_timing (env s) e' -> keeps_untouched s (set_env e' s).
Proof.
  intros (Ht & Hd). apply keeps_untouched_same; [ | reflexivity].
  repeat split; simpl; assumption.
Qed.

Lemma step_keeps_untouched a : preserves (@keeps_untouched X) (step a).
Proof.
  assert (Hr := @keeps_untouched_refl). assert (Ht := @keeps_untouched_trans).
  assert (Hn := new_trial_keeps_untouched). assert (Hc := count_keeps_untouched).
  intros s. unfold step. rewrite bind_gets.
  destruct (curr_ph s <? 2).
  - unfold step_manual. rewrite bind_gets.
    pose proof (_step_frame a (env s)) as Hf.
    destruct (env__step a (env s)) as [[[[obs r] done] info] e']. simpl in Hf.
    rewrite bind_modify.
    apply (keeps_untouched_trans s (set_env e' s));
      [apply env_step_keeps_untouched; exact Hf | ].
    generalize (set_env e' s). unfold modify_env.
    match goal with
    | |- forall s1, keeps_untouched s1 (snd (?m s1)) =>
        change (preserves (@keeps_untouched X) m)
    end.
    preserves_steps Hr Ht keeps_untouched_leaf.
  - unfold step_delegated. rewrite bind_gets.
    pose proof (step_frame a (env s)) as Hf.
    destruct (env_step a (env s)) as [[[[obs r] done] info] e']. simpl in Hf.
    rewrite bind_modify.
    apply (keeps_untouched_trans s (set_env e' s));
      [apply env_step_keeps_untouched; exact Hf | ].
    generalize (set_env e' s).
    match goal with
    | |- forall s1, keeps_untouched s1 (snd (?m s1)) =>
        change (preserves (@keeps_untouched X) m)
    end.
    preserves_steps Hr Ht keeps_untouched_leaf.
Qed.

Lemma run_keeps_untouched cs (s : Shaping X) : keeps_untouched s (run cs s).
Proof.
  revert s. induction cs as [ | c cs IH]; intros s; simpl.
  - apply keeps_untouched_refl.
  - apply (keeps_untouched_trans s (exec c s)); [ | apply IH].
    destruct c; simpl; [apply step_keeps_untouched | apply new_trial_keeps_untouched].
Qed.

(** X13.  Whatever the sequence of calls, the wrapper never changes the last
    period of the environment's timing: it is the last key of the original
    timing and holds the original descriptor, at every phase.  The wrapped
    environment is assumed to keep its contract. *)
Theorem last_period_never_shortened (e : TrialEnv.state X)
    (init_ph mnr : Z) (sd th : Q) (pw : Z) (cs : list call) (k : string) :
  0 <= init_ph ->
  NoDup (keys (TrialEnv.timing e)) ->
  ~ In k (removelast (keys (TrialEnv.timing e))) ->
  let s := run cs (__init__ e init_ph mnr sd th pw) in
  keys (TrialEnv.timing (env s)) = keys (TrialEnv.timing e) /\
  dict_get k (TrialEnv.timing (env s)) = dict_get k (TrialEnv.timing e).
Proof.
  intros H0 Hn Hk s.
  destruct (run_keeps_untouched cs (__init__ e init_ph mnr sd th pw))
    as (((_ & _ & Hkeys & _) & Hu) & Ho).
  { split; [apply init_timing_inv; assumption | intros k' _; reflexivity]. }
  fold s in Hkeys, Hu, Ho. cbn in Ho. rewrite Ho in *.
  split; [exact Hkeys | ].
  rewrite <- Ho. apply Hu. unfold changed_periods. rewrite Ho. exact Hk.
Qed.

End LastPeriod.

Section Jitter.
Context {X Obs : Type} {E : WrappedEnv X Obs} {C : TimingContract E}.

Lemma build_timing_fns_sigma tm (e : TrialEnv.state X) :
  TrialEnv.sigma_dt (env_build_timing_fns tm e) = TrialEnv.sigma_dt e.
Proof. destruct (build_timing_fns_frame tm e) as (_ & H & _). exact H. Qed.

Lemma choose_jitter_sigma (s : Shaping X) :
  2 <= curr_ph s < 4 ->
  TrialEnv.sigma_dt (env (snd (choose_jitter s)))
  = if curr_ph s <? 3 then 0%Q else sigma_dt_ori s.
Proof.
  intros Hp. unfold choose_jitter, modify_env, when. mrun.
  destruct (curr_ph s =? 2) eqn:H2.
  - apply Z.eqb_eq in H2. rewrite H2. reflexivity.
  - apply Z.eqb_neq in H2.
    replace (curr_ph s =? 3) with true by (symmetry; apply Z.eqb_eq; lia).
    replace (curr_ph s <? 3) with false by (symmetry; apply Z.ltb_ge; lia).
    mrun. reflexivity.
Qed.

Lemma install_timing_jitter (s : Shaping X) :
  fst (install_timing s) = Ok tt ->
  TrialEnv.sigma_dt (env (snd (install_timing s)))
  = if curr_ph s <? 3 then 0%Q else sigma_dt_ori s.
Proof.
  unfold install_timing.
  destruct (curr_ph s <? 2) eqn:H2;
    [ | destruct ((2 <=? curr_ph s) && (curr_ph s <? 4)) eqn:H4].
  - intros _. apply Z.ltb_lt in H2.
    replace (curr_ph s <? 3) with true by (symmetry; apply Z.ltb_lt; lia).
    unfold install_forced_short, modify_env. mrun.
    destruct (negb (short (set_env (TrialEnv.set_sigma_dt 0 (env s)) s))); mrun;
      unfold modify; cbn [fst snd env set_env set_short set_variable];
      rewrite build_timing_fns_sigma; reflexivity.
  - apply andb_true_iff in H4. destruct H4 as (Ha & Hb).
    apply Z.leb_le in Ha. apply Z.ltb_lt in Hb.
    unfold install_short_variable, modify_env. mrun.
    destruct (negb (short s) || negb (variable s)).
    + mrun. unfold lift.
      cbn [env short_dur ori_periods change_periods set_short set_variable].
      destruct (shorten_variable (ori_periods s) (change_periods s) (short_dur s)
                  (TrialEnv.dt (env s)) (TrialEnv.timing (env s)))
        as [tm' | x] eqn:Hsv.
      * change (fun s0 : Shaping X => (Ok tm', s0)) with (@ret (Shaping X) _ tm').
        mrun. unfold modify. cbn [fst snd]. intros _.
        rewrite choose_jitter_sigma; [reflexivity | cbn; lia].
      * change (fun s0 : Shaping X => (@Raise timing_spec x, s0))
          with (@raise (Shaping X) timing_spec x).
        rewrite bind_raise. intros H. discriminate H.
    + mrun. unfold modify. cbn [fst snd]. intros _.
      rewrite choose_jitter_sigma; [reflexivity | cbn; lia].
  - intros _. apply Z.ltb_ge in H2.
    assert (H3 : (curr_ph s <? 3) = false).
    { apply Z.ltb_ge. destruct (curr_ph s <? 4) eqn:Hb.
      - rewrite andb_true_r in H4. apply Z.leb_gt in H4. lia.
      - apply Z.ltb_ge in Hb. lia. }
    rewrite H3, install_original_eq. cbn [fst snd env set_env].
    rewrite build_timing_fns_sigma. reflexivity.
Qed.

(** X14.  The jitter follows the phase: after a [new_trial] that returns,
    the environment's [sigma_dt] is 0 when the controller is left in a
    phase below 3 and the original jitter from phase 3 on.  The wrapped
    environment is assumed to keep its contract. *)
Theorem jitter_follows_phase (s : Shaping X) :
  fst (new_trial s) = Ok tt ->
  TrialEnv.sigma_dt (env (snd (new_trial s)))
  = if curr_ph (snd (new_trial s)) <? 3 then 0%Q else sigma_dt_ori s.
Proof.
  intros Hok.
  destruct (new_trial_setup_phase s) as (Hph & _). rewrite Hph.
  rewrite new_trial_eq in *. rewrite new_trial_setup_eq in *.
  pose proof (set_phase_evolves s) as ((_ & _ & _ & _ & _ & Hso) & _).
  destruct (set_phase s) as [[[] | y] s1]; cbn [fst snd] in *;
    [ | discriminate Hok].
  pose proof (install_timing_jitter (reset_trial s1)) as Hj.
  destruct (install_timing (reset_trial s1)) as [[[] | z] s2]; cbn [fst snd] in *;
    [ | discriminate Hok].
  destruct (new_trial_frame (env s2)) as (_ & Hsg).
  cbn [env set_env]. rewrite Hsg, (Hj eq_refl).
  change (curr_ph (reset_trial s1)) with (curr_ph s1).
  change (sigma_dt_ori (reset_trial s1)) with (sigma_dt_ori s1).
  rewrite Hso. reflexivity.
Qed.

End Jitter.

Section Streak.
Context {X Obs : Type} {E : WrappedEnv X Obs}.

Lemma count_all_snoc (l : list Z) (a : Z) (s : Shaping X) :
  count_all (l ++ [a]) s = snd (count a (count_all l s)).
Proof. unfold count_all. rewrite fold_left_app. reflexivity. Qed.

Lemma non_neutral_snoc (l : list Z) (a : Z) :
  non_neutral (l ++ [a])
  = non_neutral l ++ (if a =? 0 then [] else [a]).
Proof.
  unfold non_neutral. rewrite filter_app. simpl.
  destruct (a =? 0); reflexivity.
Qed.

Lemma last_hd_rev (l : list Z) (d : Z) : last l d = hd d (rev l).
Proof.
  induction l as [ | a l IH] using rev_ind; [reflexivity | ].
  rewrite last_last, rev_unit. reflexivity.
Qed.

Lemma trailing_run_snoc (l : list Z) (a : Z) (d : Z) :
  trailing_run (l ++ [a])
  = match l with
    | [] => 1
    | _ => if last l d =? a then trailing_run l + 1 else 1
    end.
Proof.
  unfold trailing_run. rewrite rev_unit.
  destruct l as [ | x l]; [reflexivity | ].
  rewrite (last_hd_rev (x :: l) d).
  assert (Hne : rev (x :: l) <> []).
  { intros H. apply (f_equal (@List.length Z)) in H.
    rewrite length_rev in H. discriminate H. }
  destruct (rev (x :: l)) as [ | y r]; [contradiction | ].
  cbn [hd run_length]. destruct (y =? a) eqn:Hy; [ | reflexivity].
  apply Z.eqb_eq in Hy. subst y. lia.
Qed.

(** X15.  Starting with a streak counter of 0, after [count] has been
    called on the actions of a list in order, the counter is the length of
    the run of equal actions that ends the list once the neutral action 0
    is left out, and [prev_act] is the last non-neutral action (unchanged
    if there is none). *)
Theorem counter_is_trailing_run (l : list Z) (s : Shaping X) :
  counter s = 0 ->
  counter (count_all l s) = trailing_run (non_neutral l) /\
  prev_act (count_all l s) = last (non_neutral l) (prev_act s).
Proof.
  intros H0. induction l as [ | a l (IHc & IHp)] using rev_ind.
  - split; [exact H0 | reflexivity].
  - rewrite count_all_snoc, non_neutral_snoc, count_eq. cbn [snd].
    destruct (a =? 0) eqn:Ha.
    + rewrite app_nil_r. split; assumption.
    + rewrite last_last, (trailing_run_snoc _ a (prev_act s)), <- IHp.
      rewrite (Z.eqb_sym (prev_act (count_all l s)) a).
      destruct (a =? prev_act (count_all l s)) eqn:Hp.
      * apply Z.eqb_eq in Hp. cbn [counter prev_act set_counter].
        split; [ | symmetry; exact Hp].
        destruct (non_neutral l) as [ | y r] eqn:Hn; [ | lia].
        rewrite IHc. reflexivity.
      * cbn [counter prev_act set_counter set_prev_act]. split; [ | reflexivity].
        destruct (non_neutral l); reflexivity.
Qed.

End Streak.

Section Aftermath.
Context {X Obs : Type} {E : WrappedEnv X Obs} {C : TimingContract E}.

(** X16.  A failed rescaling is not retried: the [new_trial] called right
    after one that raised returns, and, if it leaves the controller below
    phase 4, the environment runs on with the timing it had before the
    failure, which has not been shortened.  The wrapped environment is
    assumed to keep its contract. *)
Theorem failed_rescaling_is_not_retried (s : Shaping X) (x : exn) :
  well_formed s ->
  NoDup (keys (TrialEnv.timing (env s))) ->
  fst (new_trial s) = Raise x ->
  let s2 := snd (new_trial (snd (new_trial s))) in
  fst (new_trial (snd (new_trial s))) = Ok tt /\
  (curr_ph s2 < 4 -> TrialEnv.timing (env s2) = TrialEnv.timing (env s)).
Proof.
  intros Hwf Hn Hx s2.
  split; [exact (new_trial_after_failure_ok s x Hwf Hx) | ].
  destruct (new_trial_failure s x Hx) as (Htm & _ & Hfl).
  destruct (Hfl Hwf) as (Hph & Hs & Hv).
  subst s2. set (s1 := snd (new_trial s)) in *.
  destruct (new_trial_setup_phase s1) as (Hfin & _). rewrite Hfin.
  rewrite new_trial_eq, new_trial_setup_eq.
  destruct (set_phase_flags s1) as (Fs & Fv).
  pose proof (set_phase_env s1) as He.
  pose proof (set_phase_advances s1) as Ha.
  destruct (set_phase s1) as [[[] | y] s3]; cbn [fst snd] in *.
  - change (curr_ph (reset_trial s3)) with (curr_ph s3). intros H4.
    assert (H2 : 2 <= curr_ph s3) by (destruct Ha as [Ha | (Ha & _)]; lia).
    assert (Hinst : install_timing (reset_trial s3)
                    = install_short_variable (reset_trial s3)).
    { unfold install_timing. change (curr_ph (reset_trial s3)) with (curr_ph s3).
      replace (curr_ph s3 <? 2) with false by (symmetry; apply Z.ltb_ge; lia).
      replace (2 <=? curr_ph s3) with true by (symmetry; apply Z.leb_le; lia).
      replace (curr_ph s3 <? 4) with true by (symmetry; apply Z.ltb_lt; lia).
      reflexivity. }
    rewrite Hinst.
    destruct (proj2 (install_short_variable_cases (reset_trial s3)))
      as (Hok & Ht).
    + change (short (reset_trial s3)) with (short s3). congruence.
    + change (variable (reset_trial s3)) with (variable s3). congruence.
    + destruct (install_short_variable (reset_trial s3)) as [[[] | z] s4];
        cbn [fst snd] in *; [ | discriminate].
      destruct (new_trial_frame (env s4)) as ((Hnt & _) & _).
      cbn [env set_env]. rewrite Hnt, Ht, build_timing_fns_timing.
      change (TrialEnv.timing (env (reset_trial s3)))
        with (TrialEnv.timing (env s3)).
      rewrite He, Htm.
      apply dict_update_same_keys; [exact Hn | reflexivity].
  - intros _. rewrite He. exact Htm.
Qed.

End Aftermath.

(** * Properties of the file collection *)

(** ** The order on names *)

Lemma ascii_compare_lt_trans (a b c : ascii) :
  Ascii.compare a b = Lt -> Ascii.compare b c = Lt -> Ascii.compare a c = Lt.
Proof.
  unfold Ascii.compare. rewrite !N.compare_lt_iff. apply N.lt_trans.
Qed.

Lemma string_compare_lt_trans (a b c : string) :
  String.compare a b = Lt -> String.compare b c = Lt -> String.compare a c = Lt.
Proof.
  revert b c. induction a as [ | x a IH]; intros [ | y b] [ | z c]; simpl;
    try discriminate; try reflexivity.
  destruct (Ascii.compare x y) eqn:Hxy; try discriminate.
  - apply Ascii.compare_eq_iff in Hxy. subst y.
    destruct (Ascii.compare x z); try discriminate; [apply IH | reflexivity].
  - intros _. destruct (Ascii.compare y z) eqn:Hyz; try discriminate.
    + apply Ascii.compare_eq_iff in Hyz. subst z. rewrite Hxy. reflexivity.
    + rewrite (ascii_compare_lt_trans x y z Hxy Hyz). reflexivity.
Qed.

Lemma string_compare_refl (a : string) : String.compare a a = Eq.
Proof.
  induction a as [ | x a IH]; simpl; [reflexivity | ].
  unfold Ascii.compare. rewrite N.compare_refl. exact IH.
Qed.

Lemma string_ltb_false_leb (a b : string) :
  String.ltb a b = false <-> String.leb b a = true.
Proof.
  unfold String.ltb, String.leb. rewrite (String.compare_antisym a b).
  destruct (String.compare b a); simpl; split; intros H;
    try reflexivity; discriminate H.
Qed.

Lemma string_leb_trans (a b c : string) :
  String.leb a b = true -> String.leb b c = true -> String.leb a c = true.
Proof.
  unfold String.leb.
  destruct (String.compare a b) eqn:Hab; try discriminate; intros _.
  - apply String.compare_eq_iff in Hab. subst b. auto.
  - destruct (String.compare b c) eqn:Hbc; try discriminate; intros _.
    + apply String.compare_eq_iff in Hbc. subst c. rewrite Hab. reflexivity.
    + rewrite (string_compare_lt_trans a b c Hab Hbc). reflexivity.
Qed.

(** [p <= q] on pairs: [q < p] does not hold. *)
Lemma pair_le_iff (p q : Z * string) :
  pair_lt q p = false <->
  fst p < fst q \/ (fst p = fst q /\ String.leb (snd p) (snd q) = true).
Proof.
  unfold pair_lt. destruct (fst q =? fst p) eqn:He.
  - apply Z.eqb_eq in He. rewrite string_ltb_false_leb. split.
    + intros H. right. split; [symmetry; exact He | exact H].
    + intros [H | (_ & H)]; [lia | exact H].
  - apply Z.eqb_neq in He. rewrite Z.ltb_ge. split.
    + intros H. left. lia.
    + intros [H | (H & _)]; [lia | congruence].
Qed.

Lemma pair_le_trans (p q r : Z * string) :
  pair_lt q p = false -> pair_lt r q = false -> pair_lt r p = false.
Proof.
  rewrite !pair_le_iff. intros [H1 | (H1 & L1)] [H2 | (H2 & L2)].
  - left. lia.
  - left. lia.
  - left. lia.
  - right. split; [congruence | exact (string_leb_trans _ _ _ L1 L2)].
Qed.

Lemma pair_le_antisym (p q : Z * string) :
  pair_lt q p = false -> pair_lt p q = false -> p = q.
Proof.
  rewrite !pair_le_iff. destruct p as [m x], q as [n y]. simpl.
  intros [H1 | (H1 & L1)] [H2 | (H2 & L2)]; try lia.
  subst n. rewrite (String.leb_antisym x y L1 L2). reflexivity.
Qed.

Lemma pair_lt_le (p q : Z * string) :
  pair_lt q p = true -> pair_lt p q = false.
Proof.
  intros H. destruct (pair_lt p q) eqn:Hpq; [ | reflexivity].
  assert (Hq : pair_lt q p = false); [ | congruence].
  clear H. revert Hpq. unfold pair_lt. rewrite (Z.eqb_sym (fst q) (fst p)).
  destruct (fst p =? fst q) eqn:He.
  - unfold String.ltb. rewrite (String.compare_antisym (snd p) (snd q)).
    destruct (String.compare (snd q) (snd p)); simpl; congruence.
  - rewrite Z.ltb_lt, Z.ltb_ge. lia.
Qed.

(** ** Sorting *)

Lemma insert_sorted_perm (p : Z * string) (l : list (Z * string)) :
  Permutation (p :: l) (insert_sorted p l).
Proof.
  induction l as [ | q r IH]; simpl; [apply Permutation_refl | ].
  destruct (pair_lt q p); [ | apply Permutation_refl].
  apply (perm_trans (perm_swap q p r)). apply perm_skip. exact IH.
Qed.

Lemma sorted_perm (l : list (Z * string)) : Permutation l (sorted l).
Proof.
  induction l as [ | p l IH]; simpl; [constructor | ].
  apply (perm_trans (perm_skip p IH)). apply insert_sorted_perm.
Qed.

Lemma insert_sorted_sorted (p : Z * string) (l : list (Z * string)) :
  StronglySorted pair_le l -> StronglySorted pair_le (insert_sorted p l).
Proof.
  induction l as [ | q r IH]; simpl; intros Hs.
  - constructor; constructor.
  - inversion Hs as [ | x y Hr Hall]; subst.
    destruct (pair_lt q p) eqn:Hqp.
    + constructor; [apply IH; exact Hr | ].
      apply (Permutation_Forall (insert_sorted_perm p r)).
      constructor; [ | exact Hall].
      unfold pair_le. apply pair_lt_le. exact Hqp.
    + constructor; [exact Hs | ].
      constructor; [exact Hqp | ].
      apply (Forall_impl _ (fun x H => pair_le_trans p q x Hqp H) Hall).
Qed.

Lemma sorted_sorted (l : list (Z * string)) : StronglySorted pair_le (sorted l).
Proof.
  induction l as [ | p l IH]; simpl; [constructor | ].
  apply insert_sorted_sorted. exact IH.
Qed.

(** A list has one sorted arrangement only. *)
Lemma sorted_unique (l1 l2 : list (Z * string)) :
  StronglySorted pair_le l1 -> StronglySorted pair_le l2 ->
  Permutation l1 l2 -> l1 = l2.
Proof.
  revert l2. induction l1 as [ | p l1 IH]; intros l2 H1 H2 Hp.
  - apply Permutation_nil in Hp. symmetry. exact Hp.
  - destruct l2 as [ | q l2].
    + apply Permutation_sym, Permutation_nil in Hp. discriminate Hp.
    + inversion H1 as [ | x y Hs1 Ha1]; subst.
      inversion H2 as [ | x y Hs2 Ha2]; subst.
      assert (Hpq : p = q).
      { assert (Hin1 : In p (q :: l2))
          by (apply (Permutation_in _ Hp); left; reflexivity).
        assert (Hin2 : In q (p :: l1))
          by (apply (Permutation_in _ (Permutation_sym Hp)); left; reflexivity).
        destruct Hin1 as [Hq | Hin1]; [symmetry; exact Hq | ].
        destruct Hin2 as [Hq | Hin2]; [exact Hq | ].
        rewrite Forall_forall in Ha1, Ha2.
        apply pair_le_antisym; [apply Ha1; exact Hin2 | apply Ha2; exact Hin1]. }
      subst q. f_equal. apply IH; [exact Hs1 | exact Hs2 | ].
      exact (Permutation_cons_inv Hp).
Qed.

Lemma sorted_perm_eq (l1 l2 : list (Z * string)) :
  Permutation l1 l2 -> sorted l1 = sorted l2.
Proof.
  intros Hp. apply sorted_unique; try apply sorted_sorted.
  apply (perm_trans (Permutation_sym (sorted_perm l1))).
  apply (perm_trans Hp). apply sorted_perm.
Qed.

(** ** [order_by_sufix] *)

Lemma sufixes_inr (l : list string) (ns : list Z) :
  sufixes l = inr ns ->
  combine ns l = map tagged l /\ Forall (fun x => sufix x <> None) l.
Proof.
  revert ns. induction l as [ | x l IH]; intros ns; simpl.
  - intros H. inversion H. split; [reflexivity | constructor].
  - unfold tagged at 1. destruct (sufix x) as [n | ] eqn:Hx; [ | discriminate].
    destruct (sufixes l) as [e | ms]; [discriminate | ].
    intros H. inversion H; subst. destruct (IH ms eq_refl) as (Hc & Hf).
    simpl. rewrite Hc. split; [reflexivity | ].
    constructor; [congruence | exact Hf].
Qed.

Lemma sufixes_cases (l : list string) :
  (sufixes l = inl ValueError /\ exists x, In x l /\ sufix x = None) \/
  (exists ns, sufixes l = inr ns /\ forall x, In x l -> sufix x <> None).
Proof.
  induction l as [ | x l IH]; simpl.
  - right. exists []. split; [reflexivity | intros x []].
  - destruct (sufix x) as [n | ] eqn:Hx.
    + destruct IH as [(He & y & Hy & Hn) | (ns & He & Hall)]; rewrite He.
      * left. split; [reflexivity | ]. exists y. split; [right; exact Hy | exact Hn].
      * right. exists (n :: ns). split; [reflexivity | ].
        intros y [Hy | Hy]; [subst y; congruence | apply Hall; exact Hy].
    + left. split; [reflexivity | ]. exists x. split; [left; reflexivity | exact Hx].
Qed.

Lemma order_by_sufix_eq (l : list string) :
  order_by_sufix l
  = match sufixes l with
    | inl e => inl e
    | inr _ => inr (map snd (sorted (map tagged l)))
    end.
Proof.
  unfold order_by_sufix. destruct (sufixes l) as [e | ns] eqn:Hs; [reflexivity | ].
  destruct (sufixes_inr l ns Hs) as (Hc & _). rewrite Hc. reflexivity.
Qed.

Lemma map_snd_tagged (l : list string) : map snd (map tagged l) = l.
Proof. rewrite map_map. simpl. apply map_id. Qed.

Lemma order_by_sufix_perm_of (l l' : list string) :
  order_by_sufix l = inr l' -> Permutation l l'.
Proof.
  rewrite order_by_sufix_eq. destruct (sufixes l); [discriminate | ].
  intros H. inversion H; subst.
  rewrite <- (map_snd_tagged l) at 1.
  apply Permutation_map. apply sorted_perm.
Qed.

Lemma order_by_sufix_perm (l1 l2 : list string) :
  Permutation l1 l2 -> order_by_sufix l1 = order_by_sufix l2.
Proof.
  intros Hp. rewrite !order_by_sufix_eq.
  destruct (sufixes_cases l1) as [(H1 & x & Hx & Hn) | (ns1 & H1 & A1)];
    destruct (sufixes_cases l2) as [(H2 & y & Hy & Hm) | (ns2 & H2 & A2)];
    rewrite H1, H2.
  - reflexivity.
  - exfalso. apply (A2 x); [apply (Permutation_in _ Hp); exact Hx | exact Hn].
  - exfalso. apply (A1 y);
      [apply (Permutation_in _ (Permutation_sym Hp)); exact Hy | exact Hm].
  - f_equal. f_equal. apply sorted_perm_eq. apply Permutation_map. exact Hp.
Qed.

Lemma tagged_list (L : list (Z * string)) :
  Forall (fun p => p = tagged (snd p)) L -> L = map tagged (map snd L).
Proof.
  induction 1 as [ | p r Hp Hr IH]; [reflexivity | ].
  simpl. rewrite <- Hp, <- IH. reflexivity.
Qed.

Lemma tagged_sorted (l : list string) :
  StronglySorted pair_le (map tagged l) ->
  Forall (fun x => sufix x <> None) l ->
  StronglySorted name_le l.
Proof.
  induction l as [ | x r IH]; intros Hss Hall; [constructor | ].
  inversion Hss as [ | a b Hr Hfa]; subst.
  inversion Hall as [ | a b Hx Hrest]; subst.
  constructor; [apply IH; assumption | ].
  rewrite Forall_forall in *. intros y Hy.
  specialize (Hfa (tagged y) (in_map tagged r y Hy)).
  unfold pair_le in Hfa. apply pair_le_iff in Hfa.
  specialize (Hrest y Hy). unfold name_le. unfold tagged in Hfa. simpl in Hfa.
  destruct (sufix x); [ | congruence]. destruct (sufix y); [ | congruence].
  exact Hfa.
Qed.

(** X17.  When [order_by_sufix] returns, its result is the argument
    rearranged, the numeric suffixes in increasing order and names with
    the same suffix in the order of the names themselves. *)
Theorem order_by_sufix_sorts (l l' : list string) :
  order_by_sufix l = inr l' ->
  Permutation l l' /\ StronglySorted name_le l'.
Proof.
  intros H. pose proof (order_by_sufix_perm_of l l' H) as Hp.
  split; [exact Hp | ].
  rewrite order_by_sufix_eq in H.
  destruct (sufixes l) as [e | ns] eqn:Hs; [discriminate | ].
  destruct (sufixes_inr l ns Hs) as (_ & Hall).
  injection H as Hl'.
  apply tagged_sorted; [ | apply (Permutation_Forall Hp); exact Hall].
  rewrite <- Hl'. rewrite <- tagged_list; [apply sorted_sorted | ].
  apply (Permutation_Forall (sorted_perm (map tagged l))).
  apply Forall_forall. intros p Hin. apply in_map_iff in Hin.
  destruct Hin as (x & Hx & _). subst p. reflexivity.
Qed.

(** X18.  [order_by_sufix] raises exactly when some name of the list has
    no integer between its last underscore and its last dot, and then it
    raises [ValueError]. *)
Theorem order_by_sufix_raises (l : list string) :
  (order_by_sufix l = inl ValueError <-> exists x, In x l /\ sufix x = None) /\
  (forall e, order_by_sufix l = inl e -> e = ValueError).
Proof.
  rewrite order_by_sufix_eq.
  destruct (sufixes_cases l) as [(H & x & Hx & Hn) | (ns & H & Hall)]; rewrite H.
  - split; [ | intros e He; inversion He; reflexivity].
    split; [intros _; exists x; auto | reflexivity].
  - split; [ | intros e He; discriminate He].
    split; [intros He; discriminate He | ].
    intros (x & Hx & Hn). exfalso. exact (Hall x Hx Hn).
Qed.

(** X19.  The result of [order_by_sufix] does not depend on the order in
    which the names are listed, and ordering an ordered list again gives
    it back. *)
Theorem order_by_sufix_canonical (l1 l2 : list string) :
  Permutation l1 l2 ->
  order_by_sufix l1 = order_by_sufix l2 /\
  (forall l', order_by_sufix l1 = inr l' -> order_by_sufix l' = inr l').
Proof.
  intros Hp. split; [exact (order_by_sufix_perm l1 l2 Hp) | ].
  intros l' H. rewrite <- H. symmetry. apply order_by_sufix_perm.
  exact (order_by_sufix_perm_of l1 l' H).
Qed.

(** ** The suffix of a name *)

Lemma rfind_from_shift (c : ascii) (y : string) (i f : Z) :
  rfind_from c y i f
  = if rfind c y <? 0 then f else i + rfind c y.
Proof.
  unfold rfind. revert i f. induction y as [ | a r IH]; intros i f; simpl.
  - reflexivity.
  - rewrite (IH (i + 1)), (IH 1).
    destruct (rfind_from c r 0 (-1) <? 0) eqn:Hr.
    + destruct (Ascii.eqb a c); simpl; [f_equal; lia | reflexivity].
    + apply Z.ltb_ge in Hr.
      replace (1 + rfind_from c r 0 (-1) <? 0) with false
        by (symmetry; apply Z.ltb_ge; lia).
      lia.
Qed.

Lemma rfind_from_app (c : ascii) (x y : string) (i f : Z) :
  rfind_from c (x ++ y) i f
  = rfind_from c y (i + Z.of_nat (String.length x)) (rfind_from c x i f).
Proof.
  revert i f. induction x as [ | a r IH]; intros i f.
  - simpl. rewrite Z.add_0_r. reflexivity.
  - cbn [append rfind_from String.length]. rewrite IH. f_equal. lia.
Qed.

Lemma rfind_from_absent (c : ascii) (y : string) (i f : Z) :
  rfind c y = -1 -> rfind_from c y i f = f.
Proof. intros H. rewrite rfind_from_shift, H. reflexivity. Qed.

Lemma string_length_app (x y : string) :
  String.length (x ++ y) = (String.length x + String.length y)%nat.
Proof. induction x as [ | a r IH]; simpl; [reflexivity | rewrite IH; reflexivity]. Qed.

Lemma string_app_assoc (x y z : string) :
  ((x ++ y) ++ z = x ++ y ++ z)%string.
Proof. induction x as [ | a r IH]; simpl; [reflexivity | rewrite IH; reflexivity]. Qed.

Lemma substring_skip (x y : string) (m : nat) :
  substring (String.length x) m (x ++ y) = substring 0 m y.
Proof. induction x as [ | a r IH]; simpl; [reflexivity | exact IH]. Qed.

Lemma substring_prefix (d r : string) :
  substring 0 (String.length d) (d ++ r) = d.
Proof.
  induction d as [ | a d IH]; simpl.
  - destruct r; reflexivity.
  - rewrite IH. reflexivity.
Qed.

Lemma substring_nothing (n : nat) (x : string) : substring n 0 x = ""%string.
Proof.
  revert n. induction x as [ | a r IH]; intros [ | n]; simpl;
    try reflexivity. apply IH.
Qed.

(** X20.  A name made of a prefix, an underscore, a middle part, a dot and
    an extension, where the middle part holds no underscore and the
    extension neither underscore nor dot, is ordered by the integer its
    middle part reads as. *)
Theorem sufix_of_numbered_name (p d e : string) :
  rfind "_" d = -1 ->
  rfind "_" e = -1 ->
  rfind "." e = -1 ->
  sufix (p ++ "_" ++ d ++ "." ++ e) = py_int_str d.
Proof.
  intros Hd He Hdot. unfold sufix.
  set (x := (p ++ "_" ++ d ++ "." ++ e)%string).
  assert (Hu : rfind "_" x = Z.of_nat (String.length p)).
  { unfold x, rfind. rewrite rfind_from_app. cbn [append rfind_from].
    rewrite rfind_from_app. cbn [rfind_from]. rewrite Ascii.eqb_refl.
    replace (Ascii.eqb "." "_") with false by reflexivity.
    rewrite (rfind_from_absent _ e _ _ He), (rfind_from_absent _ d _ _ Hd).
    lia. }
  assert (Hp : rfind "." x
               = Z.of_nat (String.length p) + 1 + Z.of_nat (String.length d)).
  { unfold x, rfind. rewrite rfind_from_app. cbn [append rfind_from].
    rewrite rfind_from_app. cbn [rfind_from]. rewrite Ascii.eqb_refl.
    rewrite (rfind_from_absent _ e _ _ Hdot). lia. }
  assert (Hlen : Z.of_nat (String.length x)
                 = Z.of_nat (String.length p) + 1 + Z.of_nat (String.length d)
                   + 1 + Z.of_nat (String.length e)).
  { unfold x. rewrite string_length_app. cbn [append String.length].
    rewrite string_length_app. cbn [append String.length]. lia. }
  unfold py_slice, slice_bound. rewrite Hu, Hp, Hlen.
  replace (Z.of_nat (String.length p) + 1 <? 0) with false
    by (symmetry; apply Z.ltb_ge; lia).
  replace (Z.of_nat (String.length p) + 1 + Z.of_nat (String.length d) <? 0)
    with false by (symmetry; apply Z.ltb_ge; lia).
  rewrite !Z.max_r, !Z.min_r by lia.
  replace (Z.to_nat (Z.of_nat (String.length p) + 1))
    with (String.length (p ++ "_")%string)
    by (rewrite string_length_app; simpl; lia).
  replace (Z.to_nat (Z.of_nat (String.length p) + 1 + Z.of_nat (String.length d)
                     - (Z.of_nat (String.length p) + 1)))
    with (String.length d) by lia.
  assert (Hx : x = ((p ++ "_") ++ d ++ "." ++ e)%string).
  { unfold x. rewrite string_app_assoc. reflexivity. }
  rewrite Hx, substring_skip, substring_prefix. reflexivity.
Qed.

(** X21.  A list that holds a name whose last dot comes before its last
    underscore cannot be ordered: [order_by_sufix] raises [ValueError]. *)
Theorem dot_before_underscore_raises (l : list string) (x : string) :
  In x l ->
  0 <= rfind "." x < rfind "_" x ->
  order_by_sufix l = inl ValueError.
Proof.
  intros Hin Hr. rewrite order_by_sufix_eq.
  destruct (sufixes_cases l) as [(H & _) | (ns & _ & Hall)];
    [rewrite H; reflexivity | ].
  exfalso. apply (Hall x Hin). unfold sufix, py_slice, slice_bound.
  replace (rfind "_" x + 1 <? 0) with false by (symmetry; apply Z.ltb_ge; lia).
  replace (rfind "." x <? 0) with false by (symmetry; apply Z.ltb_ge; lia).
  match goal with
  | |- context [substring ?n (Z.to_nat ?m) x] =>
      replace (Z.to_nat m) with 0%nat by lia
  end.
  rewrite substring_nothing. reflexivity.
Qed.

(** ** [put_together_files] *)

Lemma dict_set_fresh {V : Type} (k : string) (v : V) (d : dict V) :
  ~ In k (keys d) -> dict_set k v d = d ++ [(k, v)].
Proof.
  induction d as [ | [k1 v1] r IH]; simpl; intros H; [reflexivity | ].
  destruct (String.eqb k k1) eqn:H1.
  - apply String.eqb_eq in H1. exfalso. apply H. left. symmetry. exact H1.
  - rewrite IH; [reflexivity | ]. intros Hi. apply H. right. exact Hi.
Qed.

Lemma dict_get_in_keys {V : Type} (k : string) (v : V) (d : dict V) :
  dict_get k d = Some v -> In k (keys d).
Proof.
  intros H. destruct (in_dec string_dec k (keys d)) as [Hi | Hn]; [exact Hi | ].
  rewrite (dict_get_not_in k d Hn) in H. discriminate H.
Qed.

Lemma keys_in_dict_get {V : Type} (k : string) (d : dict V) :
  In k (keys d) -> exists v, dict_get k d = Some v.
Proof.
  intros H. destruct (dict_get k d) as [v | ] eqn:Hg; [exists v; reflexivity | ].
  exfalso. exact (dict_get_none_not_in k d Hg H).
Qed.

Section PutTogetherFacts.
Variable Arr : Type.
Variable np_load : string -> dict Arr.
Variable np_concatenate : Arr -> Arr -> exception + Arr.

Lemma first_file_from (fd acc : dict Arr) :
  NoDup (keys (acc ++ fd)) ->
  fold_left (fun data kv => dict_set (fst kv) (snd kv) data) fd acc = acc ++ fd.
Proof.
  revert acc. induction fd as [ | [k v] r IH]; intros acc Hn; simpl.
  - rewrite app_nil_r. reflexivity.
  - assert (Hk : ~ In k (keys acc)).
    { unfold keys in *. rewrite map_app in Hn. simpl in Hn.
      apply NoDup_remove_2 in Hn. intros Hi. apply Hn. apply in_or_app.
      left. exact Hi. }
    rewrite (dict_set_fresh k v acc Hk), IH.
    + rewrite <- app_assoc. reflexivity.
    + rewrite <- app_assoc. exact Hn.
Qed.

Lemma first_file_nodup (fd : dict Arr) :
  NoDup (keys fd) -> first_file fd = fd.
Proof. intros Hn. unfold first_file. rewrite first_file_from; auto. Qed.

Lemma append_file_spec (fd d d' : dict Arr) :
  NoDup (keys fd) ->
  append_file np_concatenate fd d = inr d' ->
  keys d' = keys d /\
  forall k,
    (dict_get k fd = None -> dict_get k d' = dict_get k d) /\
    (forall v, dict_get k fd = Some v ->
     exists old c, dict_get k d = Some old /\ np_concatenate old v = inr c /\
                   dict_get k d' = Some c).
Proof.
  revert d. induction fd as [ | [key v] r IH]; intros d Hn; simpl.
  - intros H. inversion H; subst. split; [reflexivity | ].
    intros k. split; [reflexivity | intros v Hv; discriminate Hv].
  - inversion Hn as [ | x l Hnot Hr]; subst.
    destruct (dict_get key d) as [old | ] eqn:Hold; [ | discriminate].
    destruct (np_concatenate old v) as [e | c] eqn:Hc; [discriminate | ].
    intros H. destruct (IH _ Hr H) as (Hk & Hget).
    assert (Hin : In key (keys d)) by exact (dict_get_in_keys _ _ _ Hold).
    split; [rewrite Hk; apply keys_set_same; exact Hin | ].
    intros k. destruct (Hget k) as (Hnone & Hsome).
    destruct (String.eqb k key) eqn:He.
    + apply String.eqb_eq in He. subst k.
      split; [intros Hx; discriminate Hx | ].
      intros v' Hv'. inversion Hv'; subst v'. exists old, c.
      split; [exact Hold | split; [exact Hc | ]].
      rewrite (Hnone (dict_get_not_in key r Hnot)).
      rewrite dict_get_set, String.eqb_refl. reflexivity.
    + split.
      * intros Hx. rewrite (Hnone Hx), dict_get_set, He. reflexivity.
      * intros v' Hv'. destruct (Hsome v' Hv') as (o & c' & Ho & Hc' & Hd').
        exists o, c'. rewrite dict_get_set, He in Ho. auto.
Qed.

Hypothesis distinct_names : forall f, NoDup (keys (np_load f)).

Lemma append_files_spec (files : list string) (d d' : dict Arr) :
  append_files np_load np_concatenate files d = inr d' ->
  keys d' = keys d /\
  forall k a0, dict_get k d = Some a0 ->
    exists c, concatenate_all np_concatenate a0 (arrays_of np_load k files) = inr c /\
              dict_get k d' = Some c.
Proof.
  revert d. induction files as [ | f r IH]; intros d; simpl.
  - intros H. inversion H; subst. split; [reflexivity | ].
    intros k a0 Ha. exists a0. split; [reflexivity | exact Ha].
  - destruct (append_file np_concatenate (np_load f) d) as [e | d1] eqn:H1; [discriminate | ].
    intros H. destruct (IH _ H) as (Hk & Hget).
    destruct (append_file_spec _ _ _ (distinct_names f) H1) as (Hk1 & Hget1).
    split; [congruence | ].
    intros k a0 Ha. destruct (Hget1 k) as (Hnone & Hsome).
    destruct (dict_get k (np_load f)) as [v | ] eqn:Hv.
    + destruct (Hsome v eq_refl) as (old & c1 & Ho & Hc1 & Hd1).
      assert (old = a0) by congruence. subst old.
      destruct (Hget k c1 Hd1) as (c & Hc & Hd).
      exists c. split; [ | exact Hd].
      simpl. rewrite Hc1. exact Hc.
    + rewrite <- (Hnone eq_refl) in Ha. simpl. exact (Hget k a0 Ha).
Qed.

Lemma append_file_cases (fd d : dict Arr) :
  (forall a b, exists c, np_concatenate a b = inr c) ->
  (append_file np_concatenate fd d = inl (Builtin KeyError) /\
   exists k, In k (keys fd) /\ ~ In k (keys d)) \/
  (exists d', append_file np_concatenate fd d = inr d' /\
              keys d' = keys d /\ incl (keys fd) (keys d)).
Proof.
  intros Htot. revert d. induction fd as [ | [key v] r IH]; intros d; simpl.
  - right. exists d. split; [reflexivity | split; [reflexivity | intros x []]].
  - destruct (dict_get key d) as [old | ] eqn:Hold.
    + destruct (Htot old v) as (c & Hc). rewrite Hc.
      assert (Hin : In key (keys d)) by exact (dict_get_in_keys _ _ _ Hold).
      pose proof (keys_set_same key c d Hin) as Hks.
      destruct (IH (dict_set key c d)) as [(He & k & Hk & Hn) | (d' & He & Hk & Hi)].
      * left. split; [exact He | ]. exists k. rewrite Hks in Hn.
        split; [right; exact Hk | exact Hn].
      * right. exists d'. split; [exact He | ]. rewrite Hks in Hk, Hi.
        split; [exact Hk | ].
        intros x [Hx | Hx]; [subst x; exact Hin | apply Hi; exact Hx].
    + left. split; [reflexivity | ]. exists key.
      split; [left; reflexivity | exact (dict_get_none_not_in key d Hold)].
Qed.

Lemma append_files_cases (files : list string) (d : dict Arr) :
  (forall a b, exists c, np_concatenate a b = inr c) ->
  (append_files np_load np_concatenate files d = inl (Builtin KeyError) /\
   exists f k, In f files /\ In k (keys (np_load f)) /\ ~ In k (keys d)) \/
  (exists d', append_files np_load np_concatenate files d = inr d' /\
              keys d' = keys d /\
              forall f, In f files -> incl (keys (np_load f)) (keys d)).
Proof.
  intros Htot. revert d. induction files as [ | f r IH]; intros d; simpl.
  - right. exists d. split; [reflexivity | split; [reflexivity | intros f []]].
  - destruct (append_file_cases (np_load f) d Htot)
      as [(He & k & Hk & Hn) | (d1 & He & Hk1 & Hi1)]; rewrite He.
    + left. split; [reflexivity | ]. exists f, k. auto.
    + destruct (IH d1) as [(He2 & g & k & Hg & Hk & Hn) | (d' & He2 & Hk2 & Hi2)].
      * left. split; [exact He2 | ]. exists g, k. rewrite Hk1 in Hn. auto.
      * right. exists d'. split; [exact He2 | ]. rewrite Hk1 in Hk2, Hi2.
        split; [exact Hk2 | ].
        intros g [Hg | Hg]; [subst g; exact Hi1 | apply Hi2; exact Hg].
Qed.

Lemma put_together_files_eq (folder : string) (files : list string)
    (f0 : string) (rest : list string) :
  order_by_sufix files = inr (f0 :: rest) ->
  put_together_files np_load np_concatenate folder files
  = match append_files np_load np_concatenate rest (np_load f0) with
    | inl e => inl e
    | inr d =>
        if py_in "file" (keys d) then inl (Builtin TypeError)
        else inr {| data := d;
                    saved := Some (folder ++ "/bhvr_data_all.npz", d)%string |}
    end.
Proof.
  intros Ho. unfold put_together_files. destruct files as [ | f r].
  - discriminate Ho.
  - rewrite Ho, (first_file_nodup _ (distinct_names f0)). reflexivity.
Qed.

Lemma put_together_files_inr (folder : string) (files : list string)
    (r : together Arr) :
  put_together_files np_load np_concatenate folder files = inr r ->
  (files = [] /\ data r = [] /\ saved r = None) \/
  (exists f0 rest, order_by_sufix files = inr (f0 :: rest)).
Proof.
  unfold put_together_files. destruct files as [ | f l].
  - intros H. inversion H; subst. left. auto.
  - destruct (order_by_sufix (f :: l)) as [e | [ | f0 rest]]; try discriminate.
    intros _. right. exists f0, rest. reflexivity.
Qed.

(** X22.  What [put_together_files] returns holds exactly the array names
    of the file with the lowest suffix, in that file's order, and is what
    it has saved as [bhvr_data_all.npz] in the folder; with no file it
    returns the empty dictionary and saves nothing.  Archives hold their
    arrays under distinct names. *)
Theorem put_together_files_keys (folder : string) (files : list string)
    (r : together Arr) :
  put_together_files np_load np_concatenate folder files = inr r ->
  (files = [] /\ data r = [] /\ saved r = None) \/
  (exists f0 rest,
     order_by_sufix files = inr (f0 :: rest) /\
     keys (data r) = keys (np_load f0) /\
     saved r = Some (folder ++ "/bhvr_data_all.npz", data r)%string).
Proof.
  intros H. destruct (put_together_files_inr _ _ _ H) as [He | (f0 & rest & Ho)];
    [left; exact He | right].
  exists f0, rest. split; [exact Ho | ].
  rewrite (put_together_files_eq folder files f0 rest Ho) in H.
  destruct (append_files np_load np_concatenate rest (np_load f0))
    as [e | d] eqn:Ha; [discriminate | ].
  destruct (py_in "file" (keys d)); [discriminate | ].
  inversion H; subst. simpl.
  destruct (append_files_spec _ _ _ Ha) as (Hk & _). auto.
Qed.

(** X23.  When concatenation itself never fails, [put_together_files]
    raises [KeyError] exactly when a file after the first (in suffix
    order) holds an array name that the first file lacks. *)
Theorem later_file_with_new_key_raises (folder : string) (files : list string)
    (f0 : string) (rest : list string) :
  (forall a b, exists c, np_concatenate a b = inr c) ->
  order_by_sufix files = inr (f0 :: rest) ->
  put_together_files np_load np_concatenate folder files = inl (Builtin KeyError)
  <-> exists f k, In f rest /\ In k (keys (np_load f)) /\
                  ~ In k (keys (np_load f0)).
Proof.
  intros Htot Ho. rewrite (put_together_files_eq folder files f0 rest Ho).
  destruct (append_files_cases rest (np_load f0) Htot)
    as [(He & f & k & Hf & Hk & Hn) | (d' & He & Hk & Hi)]; rewrite He.
  - split; [intros _; exists f, k; auto | reflexivity].
  - split.
    + destruct (py_in "file" (keys d')); intros H; discriminate H.
    + intros (f & k & Hf & Hkf & Hn). exfalso. apply Hn. exact (Hi f Hf k Hkf).
Qed.

(** X24.  In what [put_together_files] returns, the array under a name is
    the first file's array followed by the arrays that the later files
    hold under that name, in suffix order; a later file that lacks the
    name is passed over. *)
Theorem put_together_files_concatenates (folder : string)
    (files : list string) (r : together Arr)
    (f0 : string) (rest : list string) (k : string) (a0 : Arr) :
  put_together_files np_load np_concatenate folder files = inr r ->
  order_by_sufix files = inr (f0 :: rest) ->
  dict_get k (np_load f0) = Some a0 ->
  exists c, concatenate_all np_concatenate a0 (arrays_of np_load k rest) = inr c /\
            dict_get k (data r) = Some c.
Proof.
  intros H Ho Ha. rewrite (put_together_files_eq folder files f0 rest Ho) in H.
  destruct (append_files np_load np_concatenate rest (np_load f0))
    as [e | d] eqn:Hd; [discriminate | ].
  destruct (py_in "file" (keys d)); [discriminate | ].
  inversion H; subst. simpl.
  destruct (append_files_spec _ _ _ Hd) as (_ & Hget). exact (Hget k a0 Ha).
Qed.

End PutTogetherFacts.

(** X25.  [put_together_files] does not depend on the order in which the
    files of the folder are listed. *)
Theorem put_together_files_any_listing (Arr : Type)
    (np_load : string -> dict Arr)
    (np_concatenate : Arr -> Arr -> exception + Arr)
    (folder : string) (files files' : list string) :
  Permutation files files' ->
  put_together_files np_load np_concatenate folder files
  = put_together_files np_load np_concatenate folder files'.
Proof.
  intros Hp. unfold put_together_files.
  rewrite (order_by_sufix_perm files files' Hp).
  destruct files as [ | f l], files' as [ | f' l']; try reflexivity.
  - apply Permutation_nil in Hp. discriminate Hp.
  - apply Permutation_sym, Permutation_nil in Hp. discriminate Hp.
Qed.

(** * The properties at concrete controllers and files *)

(** X3, at a broken fixation in phase 4. *)
Lemma step_without_boundary_is_quiet_witness :
  let s := aborted_fixation 4 in
  let s' := snd (step 1 s) in
  curr_ph s' = curr_ph s /\
  mov_window s' = mov_window s /\
  curr_perf s' = curr_perf s /\
  short s' = short s /\
  variable s' = variable s /\
  counter s' = counter s /\
  prev_act s' = prev_act s.
Proof.
  apply (step_without_boundary_is_quiet (aborted_fixation 4) 1
           tt 0%Q false (Info.mk false None None)).
  - reflexivity.
  - reflexivity.
Defined.

(** X4, at a broken fixation in phase 0. *)
Lemma manual_step_inside_trial_witness :
  step 1 (aborted_fixation 0)
  = (Ok (tt, py_max (-(1 # 10)) 0, false, Info.mk false None None),
     set_env (tick (snd (env__step 1 (env (aborted_fixation 0)))))
       (aborted_fixation 0)).
Proof.
  apply (manual_step_inside_trial (aborted_fixation 0) 1).
  - reflexivity.
  - reflexivity.
  - reflexivity.
  - vm_compute. discriminate.
Defined.

(** X5, at a step that takes the trial clock to its limit. *)
Lemma manual_step_times_out_witness :
  step 1 late_in_trial =
  match new_trial (set_env (tick (snd (env__step 1 (env late_in_trial))))
                     late_in_trial) with
  | (Ok _, s2) =>
      (Ok (tt, (py_max (-(1 # 10)) 0 + 0)%Q, false,
           Info.set_performance (performance late_in_trial)
             (Info.set_new_trial true (Info.mk false None None))),
       s2)
  | (Raise x, s2) => (Raise x, s2)
  end.
Proof.
  apply (manual_step_times_out late_in_trial 1).
  - reflexivity.
  - reflexivity.
  - reflexivity.
  - reflexivity.
Defined.

(** X6, at a correct first choice in phase 1. *)
Lemma phase_1_first_choice_counts_witness :
  let e' := snd (env__step 1 (env early_success)) in
  let p := if first_choice early_success
           then TrialEnv.performance e' else performance early_success in
  let st := if first_choice early_success
            then set_first_choice false
                   (set_performance (TrialEnv.performance e')
                      (set_env (tick e') early_success))
            else set_env (tick e') early_success in
  performance st = p /\
  step 1 early_success =
  match new_trial st with
  | (Ok _, s2) =>
      (Ok (tt, py_max 1 0, false,
           Info.set_performance p (Info.mk true None None)), s2)
  | (Raise x, s2) => (Raise x, s2)
  end.
Proof.
  apply (phase_1_first_choice_counts early_success 1).
  - reflexivity.
  - reflexivity.
  - reflexivity.
  - vm_compute. discriminate.
Defined.

(** X7, at a punished choice in phase 5. *)
Lemma final_phase_passes_through_witness :
  fst (step 1 final_phase_run) = Ok (tt, (-1)%Q, false, Info.mk true (Some 0%Q) None) /\
  curr_ph (snd (step 1 final_phase_run)) = curr_ph final_phase_run /\
  mov_window (snd (step 1 final_phase_run)) = mov_window final_phase_run.
Proof.
  apply (final_phase_passes_through final_phase_run 1 tt (-1)%Q false
           (Info.mk true (Some 0%Q) None)
           (snd (env_step 1 (env final_phase_run)))).
  - vm_compute. discriminate.
  - reflexivity.
  - intros _. discriminate.
Defined.

(** X8, at an environment that reports no performance. *)
Lemma delegated_boundary_needs_performance_witness :
  @step script unit silent 1 variable_run
  = (Raise KeyError,
     set_env (snd (@env_step script unit silent 1 (env variable_run)))
       variable_run).
Proof.
  apply (@delegated_boundary_needs_performance script unit silent
           variable_run 1 tt 1%Q false (Info.mk true None None)).
  - vm_compute. discriminate.
  - reflexivity.
  - reflexivity.
  - reflexivity.
Defined.

(** X9, at a controller built with a window of 0. *)
Lemma nonpositive_window_freezes_phase_witness :
  let s := run [Step 1; Step 1; NewTrial]
             (__init__ (task task_rewards [(1, true, 1); (1, true, 1)]%Q)
                0 3 2 (4 # 5) 0) in
  curr_ph s = 0 /\ mov_window s = [].
Proof.
  apply (nonpositive_window_freezes_phase
           (task task_rewards [(1, true, 1); (1, true, 1)]%Q)
           0 3 2 (4 # 5) 0 [Step 1; Step 1; NewTrial]).
  lia.
Defined.

(** X10, after a correct trial in phase 2. *)
Lemma tracked_performance_zero_between_calls_witness :
  (performance
     (run [Step 1]
        (__init__ (task task_rewards [(1, true, 1); (-1, true, 0); (1, true, 1)]%Q)
           2 3 2 (4 # 5) 2)) == 0)%Q.
Proof.
  apply (tracked_performance_zero_between_calls
           (task task_rewards [(1, true, 1); (-1, true, 0); (1, true, 1)]%Q)
           2 3 2 (4 # 5) 2 [Step 1]).
  lia.
Defined.

(** X12, after a trial of the full task. *)
Lemma original_timing_after_new_trial_witness :
  let s := run [Step 1] full_task_run in
  let s' := snd (new_trial s) in
  fst (new_trial s) = Ok tt /\
  TrialEnv.timing (env s') = task_timing /\
  TrialEnv.sigma_dt (env s') = (1 # 2)%Q.
Proof.
  apply (original_timing_after_new_trial
           (task task_rewards [(1, true, 1); (1, true, 1); (1, true, 1)]%Q)
           4 3 2 (1 # 10) 2 [Step 1]).
  - lia.
  - apply task_timing_NoDup.
  - vm_compute. discriminate.
Defined.

(** X13, at the decision period after a trial with rescaled periods. *)
Lemma last_period_never_shortened_witness :
  let s := run [Step 1; NewTrial] variable_run in
  keys (TrialEnv.timing (env s)) = keys task_timing /\
  dict_get "decision" (TrialEnv.timing (env s)) = dict_get "decision" task_timing.
Proof.
  apply (last_period_never_shortened
           (task task_rewards [(1, true, 1); (-1, true, 0); (1, true, 1)]%Q)
           2 3 2 (4 # 5) 2 [Step 1; NewTrial] "decision").
  - lia.
  - apply task_timing_NoDup.
  - simpl. intros [H | [H | [H | []]]]; discriminate H.
Defined.

(** X14, at the first trial of a controller in phase 2. *)
Lemma jitter_follows_phase_witness :
  TrialEnv.sigma_dt (env (snd (new_trial variable_run)))
  = if curr_ph (snd (new_trial variable_run)) <? 3 then 0%Q
    else sigma_dt_ori variable_run.
Proof.
  apply (jitter_follows_phase variable_run). reflexivity.
Defined.

(** X15, on six actions. *)
Lemma counter_is_trailing_run_witness :
  counter (count_all [1; 0; 2; 2; 0; 2] alternation_run)
  = trailing_run (non_neutral [1; 0; 2; 2; 0; 2]) /\
  prev_act (count_all [1; 0; 2; 2; 0; 2] alternation_run)
  = last (non_neutral [1; 0; 2; 2; 0; 2]) (prev_act alternation_run).
Proof.
  apply (counter_is_trailing_run [1; 0; 2; 2; 0; 2] alternation_run).
  reflexivity.
Defined.

(** X17, on three names. *)
Lemma order_by_sufix_sorts_witness :
  Permutation ["a_10.npz"; "b_9.npz"; "a_9.npz"]%string
    ["a_9.npz"; "b_9.npz"; "a_10.npz"]%string /\
  StronglySorted name_le ["a_9.npz"; "b_9.npz"; "a_10.npz"]%string.
Proof.
  apply (order_by_sufix_sorts ["a_10.npz"; "b_9.npz"; "a_9.npz"]%string).
  reflexivity.
Defined.

(** X19, on two names. *)
Lemma order_by_sufix_canonical_witness :
  order_by_sufix ["a_2.npz"; "a_1.npz"]%string
  = order_by_sufix ["a_1.npz"; "a_2.npz"]%string /\
  (forall l', order_by_sufix ["a_2.npz"; "a_1.npz"]%string = inr l' ->
   order_by_sufix l' = inr l').
Proof.
  apply (order_by_sufix_canonical ["a_2.npz"; "a_1.npz"]%string
           ["a_1.npz"; "a_2.npz"]%string).
  apply perm_swap.
Defined.

(** X20, on a file saved by a monitor. *)
Lemma sufix_of_numbered_name_witness :
  sufix ("run_bhvr_data" ++ "_" ++ "12" ++ "." ++ "npz") = py_int_str "12".
Proof.
  apply (sufix_of_numbered_name "run_bhvr_data" "12" "npz"); reflexivity.
Defined.

(** X21, on a name with an underscore in its extension. *)
Lemma dot_before_underscore_raises_witness :
  order_by_sufix ["a_1.npz"; "data.v2_final"]%string = inl ValueError.
Proof.
  apply (dot_before_underscore_raises ["a_1.npz"; "data.v2_final"]%string
           "data.v2_final"%string).
  - right. left. reflexivity.
  - vm_compute. split; [discriminate | reflexivity].
Defined.

Lemma two_files_distinct (f : string) : NoDup (keys (two_files f)).
Proof.
  unfold two_files. destruct (String.eqb f "run_bhvr_data_2.npz"); simpl.
  - constructor; [intros [] | constructor].
  - constructor; [intros [H | []]; discriminate H | ].
    constructor; [intros [] | constructor].
Qed.

Lemma new_key_files_distinct (f : string) : NoDup (keys (new_key_files f)).
Proof.
  unfold new_key_files. destruct (String.eqb f "run_bhvr_data_2.npz"); simpl.
  - constructor; [intros [H | []]; discriminate H | ].
    constructor; [intros [] | constructor].
  - constructor; [intros [] | constructor].
Qed.

(** X22, on two files listed out of order. *)
Lemma put_together_files_keys_witness :
  let files := ["run_bhvr_data_2.npz"; "run_bhvr_data_1.npz"]%string in
  let r := {| data := [("reward", [0; 1; 1; 1; 0]); ("gt", [1; 2; 1])]%string;
              saved := Some ("out/bhvr_data_all.npz",
                             [("reward", [0; 1; 1; 1; 0]); ("gt", [1; 2; 1])])%string |} in
  (files = [] /\ data r = [] /\ saved r = None) \/
  (exists f0 rest,
     order_by_sufix files = inr (f0 :: rest) /\
     keys (data r) = keys (two_files f0) /\
     saved r = Some ("out" ++ "/bhvr_data_all.npz", data r)%string).
Proof.
  apply (put_together_files_keys (list Z) two_files append_arrays
           two_files_distinct "out"
           ["run_bhvr_data_2.npz"; "run_bhvr_data_1.npz"]%string).
  reflexivity.
Defined.

(** X23, on a later file with an array the first lacks. *)
Lemma later_file_with_new_key_raises_witness :
  put_together_files new_key_files append_arrays "out"
    ["run_bhvr_data_2.npz"; "run_bhvr_data_1.npz"]%string
  = inl (Builtin KeyError)
  <-> exists f k, In f ["run_bhvr_data_2.npz"%string] /\
                  In k (keys (new_key_files f)) /\
                  ~ In k (keys (new_key_files "run_bhvr_data_1.npz")).
Proof.
  apply (later_file_with_new_key_raises (list Z) new_key_files append_arrays
           new_key_files_distinct "out"
           ["run_bhvr_data_2.npz"; "run_bhvr_data_1.npz"]%string
           "run_bhvr_data_1.npz"%string ["run_bhvr_data_2.npz"%string]).
  - intros a b. exists (a ++ b). reflexivity.
  - reflexivity.
Defined.

(** X24, on the ground truth that the later of two files lacks. *)
Lemma put_together_files_concatenates_witness :
  exists c,
    concatenate_all append_arrays [1; 2; 1]
      (arrays_of two_files "gt" ["run_bhvr_data_2.npz"%string]) = inr c /\
    dict_get "gt" [("reward", [0; 1; 1; 1; 0]); ("gt", [1; 2; 1])]%string = Some c.
Proof.
  apply (put_together_files_concatenates (list Z) two_files append_arrays
           two_files_distinct "out"
           ["run_bhvr_data_2.npz"; "run_bhvr_data_1.npz"]%string
           {| data := [("reward", [0; 1; 1; 1; 0]); ("gt", [1; 2; 1])]%string;
              saved := Some ("out/bhvr_data_all.npz",
                             [("reward", [0; 1; 1; 1; 0]); ("gt", [1; 2; 1])])%string |}
           "run_bhvr_data_1.npz"%string ["run_bhvr_data_2.npz"%string]
           "gt"%string [1; 2; 1]).
  - reflexivity.
  - reflexivity.
  - reflexivity.
Defined.

(** X25, on two files listed in either order. *)
Lemma put_together_files_any_listing_witness :
  put_together_files two_files append_arrays "out"
    ["run_bhvr_data_2.npz"; "run_bhvr_data_1.npz"]%string
  = put_together_files two_files append_arrays "out"
      ["run_bhvr_data_1.npz"; "run_bhvr_data_2.npz"]%string.
Proof.
  apply (put_together_files_any_listing (list Z) two_files append_arrays "out"
           ["run_bhvr_data_2.npz"; "run_bhvr_data_1.npz"]%string
           ["run_bhvr_data_1.npz"; "run_bhvr_data_2.npz"]%string).
  apply perm_swap.
Defined.

(** X16, at a task whose fixation cannot be rescaled. *)
Lemma failed_rescaling_is_not_retried_witness :
  let s2 := snd (new_trial (snd (new_trial unscalable_run))) in
  fst (new_trial (snd (new_trial unscalable_run))) = Ok tt /\
  (curr_ph s2 < 4 ->
   TrialEnv.timing (env s2) = TrialEnv.timing (env unscalable_run)).
Proof.
  apply (failed_rescaling_is_not_retried unscalable_run ZeroDivisionError).
  - split; [reflexivity | vm_compute; discriminate].
  - constructor; [intros [H | []]; discriminate H | ].
    constructor; [intros [] | constructor].
  - reflexivity.
Defined.
